(** * ESP32Metrics: a shallow embedding of src/src/ESP32Metrics.c

    The C module keeps one static record [s_metrics] and reads the
    hardware and the operating system through ESP-IDF and FreeRTOS calls.
    Here the record is a Rocq [Record], every public function is a
    computation in a small state monad over that record, and the answers
    of the ESP-IDF / FreeRTOS calls made during one invocation are
    collected in a [providers] record passed to the function.  A ghost
    event log records which providers and which public operations were
    entered, so that "no provider was called" can be stated. *)

From Stdlib Require Import ZArith List String Bool Lia SpecFloat.
Import ListNotations.
Open Scope Z_scope.

(** ** Machine integers *)

Module Int.

(** Conversion to [uint32_t] and [uint64_t]: reduction modulo the
    width. *)
Definition wrap32 (z : Z) : Z := z mod 2 ^ 32.
Definition wrap64 (z : Z) : Z := z mod 2 ^ 64.

(** [a - b] on [uint32_t]. *)
Definition sub32 (a b : Z) : Z := wrap32 (a - b).

(** [a + 1] on [uint32_t] (the [++] of [error_count]). *)
Definition incr32 (a : Z) : Z := wrap32 (a + 1).

End Int.

(** ** IEEE-754 arithmetic

    [float] is binary32 and [double] is binary64; both are values of the
    standard library's [spec_float], operated on with the precision and
    exponent range of the C type, rounding to nearest, ties to even. *)

Module F32.

Definition prec : Z := 24.
Definition emax : Z := 128.

Definition t : Type := spec_float.

(** The constant [NAN] of <math.h>. *)
Definition NAN : t := S754_nan.

(** [0.0f] *)
Definition zero : t := S754_zero false.

(** An integer constant or an integer converted with [(float)]. *)
Definition of_Z (z : Z) : t := binary_normalize prec emax z 0 false.

Definition mul (x y : t) : t := SFmul prec emax x y.
Definition div (x y : t) : t := SFdiv prec emax x y.
Definition sub (x y : t) : t := SFsub prec emax x y.

Definition ltb (x y : t) : bool := SFltb x y.
Definition leb (x y : t) : bool := SFleb x y.

Definition is_nan (x : t) : bool :=
  match x with S754_nan => true | _ => false end.

(** [0.5f], that is 1 * 2^-1. *)
Definition half : t := binary_normalize prec emax 1 (-1) false.

(** [lo <= x && x <= hi] on floats (false when [x] is NaN). *)
Definition between (lo hi x : t) : bool := leb lo x && leb x hi.

(** The [float] whose object representation is the 32-bit pattern made
    of the 32 low-order bits of [b]: bit 31 is the sign, bits 30 to 23
    the biased exponent, bits 22 to 0 the fraction. *)
Definition of_bits (b : Z) : t :=
  let sign := Z.testbit b 31 in
  let e := Z.land (Z.shiftr b 23) 255 in
  let m := Z.land b (Z.ones 23) in
  if e =? 0 then
    match m with
    | Zpos p => S754_finite sign p (-149)
    | _ => S754_zero sign
    end
  else if e =? 255 then
    if m =? 0 then S754_infinity sign else S754_nan
  else
    match m + 2 ^ 23 with
    | Zpos p => S754_finite sign p (e - 150)
    | _ => S754_nan
    end.

End F32.

Module F64.

Definition prec : Z := 53.
Definition emax : Z := 1024.

Definition t : Type := spec_float.

Definition of_Z (z : Z) : t := binary_normalize prec emax z 0 false.

(** Widening a [float] to [double] is exact: the value is kept and
    written with a binary64 significand. *)
Definition of_f32 (x : F32.t) : t :=
  match x with
  | S754_finite s m e => binary_normalize prec emax (cond_Zopp s (Zpos m)) e s
  | _ => x
  end.

(** Narrowing a [double] to [float] rounds to binary32. *)
Definition to_f32 (x : t) : F32.t :=
  match x with
  | S754_finite s m e => binary_normalize F32.prec F32.emax (cond_Zopp s (Zpos m)) e s
  | _ => x
  end.

Definition mul (x y : t) : t := SFmul prec emax x y.

(** [fmax] of <math.h>: the larger argument; a NaN argument is ignored
    in favour of the other one. *)
Definition fmax (x y : t) : t :=
  match x, y with
  | S754_nan, _ => y
  | _, S754_nan => x
  | _, _ => if SFltb x y then y else x
  end.

End F64.

(** ** Result codes and enumerations of ESP-IDF and FreeRTOS *)

(** [esp_err_t] is a 32-bit integer; the constants are those of ESP-IDF's
    esp_err.h and esp_wifi.h. *)
Definition esp_err_t : Type := Z.

Definition ESP_OK : esp_err_t := 0.
Definition ESP_FAIL : esp_err_t := -1.
Definition ESP_ERR_NO_MEM : esp_err_t := 257.          (* 0x101 *)
Definition ESP_ERR_INVALID_ARG : esp_err_t := 258.     (* 0x102 *)
Definition ESP_ERR_INVALID_STATE : esp_err_t := 259.   (* 0x103 *)
Definition ESP_ERR_NOT_SUPPORTED : esp_err_t := 262.   (* 0x106 *)
Definition ESP_ERR_WIFI_NOT_CONNECT : esp_err_t := 12303. (* 0x3000 + 15 *)

(** [esp_reset_reason_t]: the value of [ESP_RST_BROWNOUT] in esp_system.h. *)
Definition ESP_RST_BROWNOUT : Z := 9.

Inductive wifi_mode_t :=
| WIFI_MODE_NULL
| WIFI_MODE_STA
| WIFI_MODE_AP
| WIFI_MODE_APSTA
| WIFI_MODE_NAN
| WIFI_MODE_MAX.

Inductive wifi_second_chan_t :=
| WIFI_SECOND_CHAN_NONE
| WIFI_SECOND_CHAN_ABOVE
| WIFI_SECOND_CHAN_BELOW.

(** The PHY modes the [switch] of [ESP32Metrics_GetWifiDataRate] names,
    and every other value of the C enumeration. *)
Inductive wifi_phy_mode_t :=
| WIFI_PHY_MODE_LR
| WIFI_PHY_MODE_HT
| WIFI_PHY_MODE_VHT
| WIFI_PHY_MODE_11B
| WIFI_PHY_MODE_other (n : Z).

Inductive esp_log_level_t :=
| ESP_LOG_NONE
| ESP_LOG_ERROR
| ESP_LOG_WARN
| ESP_LOG_INFO
| ESP_LOG_DEBUG
| ESP_LOG_VERBOSE.

(** The fields of [wifi_ap_record_t] the module reads; [rssi] is an
    [int8_t]. *)
Record wifi_ap_record_t := {
  primary : Z;
  second : wifi_second_chan_t;
  rssi : Z
}.

(** The fields of FreeRTOS's [TaskStatus_t] the module reads. *)
Record TaskStatus_t := {
  pcTaskName : string;
  ulRunTimeCounter : Z
}.

(** ** Types of ESP32Metrics.h *)

(** Modelled from the spec: the header ESP32Metrics.h is not among the
    sources; the status enumeration is the one of the interface section,
    [{NotInitialized | Disconnected | Connecting | Disconnecting |
    Connected}], under the names ESP32Metrics.c uses. *)
Inductive ESP32WifiStatus :=
| ESP32_WIFI_NOT_INITIALIZED
| ESP32_WIFI_DISCONNECTED
| ESP32_WIFI_CONNECTING
| ESP32_WIFI_DISCONNECTING
| ESP32_WIFI_CONNECTED.

(** Modelled from the spec: the header ESP32Metrics.h is not among the
    sources; the reset reason is the pair [{code, label}] of the data
    model, under the field names ESP32Metrics.c uses. *)
Record ESP32RebootReason := {
  code : Z;
  reason : string
}.

(** Modelled from the spec: the header ESP32Metrics.h is not among the
    sources; the closed metric enumeration has one member per case label
    of the [switch] in [ESP32Metrics_GetMetric]. *)
Inductive ESP32MetricType :=
| ESP32_METRIC_CPU_USAGE
| ESP32_METRIC_UPTIME
| ESP32_METRIC_WIFI_SIGNAL
| ESP32_METRIC_WIFI_STATUS
| ESP32_METRIC_TEMPERATURE
| ESP32_METRIC_BROWNOUT_COUNT
| ESP32_METRIC_REBOOT_REASON
| ESP32_METRIC_WIFI_DATA_RATE
| ESP32_METRIC_LOG_LEVEL
| ESP32_METRIC_ERROR_COUNT.

(** Modelled from the spec: the header ESP32Metrics.h is not among the
    sources; the record [MetricsState] of the data model, under the field
    names ESP32Metrics.c uses.  The counters and the run-time samples are
    [uint32_t], the uptime is [uint64_t], the temperature is a [float]. *)
Record ESP32Metrics_t := {
  is_initialized : bool;
  brownout_count : Z;
  error_count : Z;
  last_uptime : Z;
  temp_sensor_enabled : bool;
  last_temperature : F32.t;
  reboot_reason : ESP32RebootReason;
  prev_total_run_time : Z;
  prev_idle_time : Z
}.

(** [static ESP32Metrics_t s_metrics = {0};]: every field zero, the
    label a null pointer (rendered as the empty string). *)
Definition s_metrics_initial : ESP32Metrics_t := {|
  is_initialized := false;
  brownout_count := 0;
  error_count := 0;
  last_uptime := 0;
  temp_sensor_enabled := false;
  last_temperature := F32.zero;
  reboot_reason := {| code := 0; reason := EmptyString |};
  prev_total_run_time := 0;
  prev_idle_time := 0
|}.

(** [static const char* s_reset_reason_strings[]] *)
Definition s_reset_reason_strings : list string := [
  "Unknown"%string;
  "Power-on reset"%string;
  "External pin reset"%string;
  "Software reset"%string;
  "Watchdog reset"%string;
  "Interrupt watchdog reset"%string;
  "Task watchdog reset"%string;
  "Other watchdog reset"%string;
  "Brownout reset"%string;
  "SDIO reset"%string;
  "Deepsleep reset"%string;
  "Bootstrapping reset"%string
].

(** ** Capability providers

    What the ESP-IDF and FreeRTOS calls answer during one invocation of a
    public function.  A call with an output parameter answers with its
    return code and with what the output variable holds after the call.
    The record also carries the one fact about the caller's memory that
    the module reads and the model does not determine: the bytes of the
    output slot of [ESP32Metrics_GetMetric], read as a [float]. *)
Record providers := {
  (** [esp_timer_get_time()]: microseconds since boot, an [int64_t]. *)
  esp_timer_get_time : Z;
  (** Outcome of the sensor configuration step (line 59 of the source
      initialises [ret] from the configuration of the sensor). *)
  temp_sensor_config : esp_err_t;
  (** [temp_sensor_start()] *)
  temp_sensor_start : esp_err_t;
  (** [temp_sensor_read_celsius(p)]: the return code, and the value it
      stored through [p], if it stored one. *)
  temp_sensor_read_celsius : esp_err_t * option F32.t;
  (** [esp_reset_reason()] *)
  esp_reset_reason : Z;
  (** [uxTaskGetNumberOfTasks()] *)
  uxTaskGetNumberOfTasks : Z;
  (** [malloc(...)]: [true] when the result is not [NULL]. *)
  malloc : bool;
  (** [uxTaskGetSystemState(task_stats, task_count, &total_run_time)]:
      the entries it filled in (their number is its return value) and
      the total run time it stored, if it stored one. *)
  uxTaskGetSystemState : list TaskStatus_t * option Z;
  (** [esp_wifi_sta_get_ap_info(&ap_info)] *)
  esp_wifi_sta_get_ap_info : esp_err_t * wifi_ap_record_t;
  (** [esp_wifi_get_mode(&mode)] *)
  esp_wifi_get_mode : esp_err_t * wifi_mode_t;
  (** [esp_wifi_sta_get_negotiated_phymode(&phy_mode)]: the return code
      and the content of the local [phy_mode] after the call; the local
      has no initialiser, so after a failed call this is whatever the
      stack held. *)
  esp_wifi_sta_get_negotiated_phymode : esp_err_t * wifi_phy_mode_t;
  (** [esp_log_level_get(TAG)] *)
  esp_log_level_get : esp_log_level_t;
  (** The slot of [ESP32Metrics_GetMetric] read through its cast to a
      float pointer, when the slot is an [int8_t] or an enumeration
      object: the C code reinterprets four bytes at the address of the
      slot, of which an [int8_t] covers one, and which for an
      enumeration depend on the header and on the compiler options. *)
  slot_bytes_as_float : F32.t
}.

Inductive provider_id :=
| P_esp_timer_get_time
| P_temp_sensor_config
| P_temp_sensor_start
| P_temp_sensor_stop
| P_temp_sensor_read_celsius
| P_esp_reset_reason
| P_uxTaskGetNumberOfTasks
| P_malloc
| P_free
| P_uxTaskGetSystemState
| P_esp_wifi_sta_get_ap_info
| P_esp_wifi_get_mode
| P_esp_wifi_sta_get_negotiated_phymode
| P_esp_log_level_get
| P_esp_log_write.

Inductive operation_id :=
| Op_Init
| Op_Deinit
| Op_GetVersion
| Op_GetCpuUsage
| Op_GetUptime
| Op_GetWifiSignal
| Op_GetWifiStatus
| Op_GetTemperature
| Op_GetBrownoutCount
| Op_GetRebootReason
| Op_GetWifiDataRate
| Op_GetLogLevel
| Op_GetErrorCount
| Op_IncrementErrorCount
| Op_GetMetric.

(** Ghost events: a provider was called, a public operation was entered. *)
Inductive event :=
| Called (p : provider_id)
| Entered (o : operation_id).

(** ** The state monad of the module *)

Record world := {
  s_metrics : ESP32Metrics_t;
  events : list event
}.

Definition M (A : Type) : Type := world -> A * world.

Definition ret {A} (a : A) : M A := fun w => (a, w).

Definition bind {A B} (m : M A) (k : A -> M B) : M B :=
  fun w => let (a, w') := m w in k a w'.

Declare Scope metrics_scope.
Delimit Scope metrics_scope with metrics.

Notation "x <- m ;; k" := (bind m (fun x => k))
  (at level 61, m at next level, right associativity) : metrics_scope.
Notation "m ;; k" := (bind m (fun _ => k))
  (at level 61, right associativity) : metrics_scope.

Open Scope metrics_scope.

(** Read the static record. *)
Definition get : M ESP32Metrics_t := fun w => (s_metrics w, w).

(** Assign fields of the static record. *)
Definition modify (f : ESP32Metrics_t -> ESP32Metrics_t) : M unit :=
  fun w => (tt, {| s_metrics := f (s_metrics w); events := events w |}).

Definition emit (e : event) : M unit :=
  fun w => (tt, {| s_metrics := s_metrics w; events := events w ++ [e] |}).

(** Call a provider: log the call and return its answer. *)
Definition call {A} (p : provider_id) (answer : A) : M A :=
  emit (Called p) ;; ret answer.

Definition enter (o : operation_id) : M unit := emit (Entered o).

(** [ESP_LOGI] / [ESP_LOGW]: the write-only diagnostic sink. *)
Definition esp_log : M unit := call P_esp_log_write tt.

(** Run a computation on a state, starting from an empty event log. *)
Definition run {A} (m : M A) (s : ESP32Metrics_t) : A * world :=
  m {| s_metrics := s; events := [] |}.

Definition result {A} (m : M A) (s : ESP32Metrics_t) : A := fst (run m s).
Definition state_after {A} (m : M A) (s : ESP32Metrics_t) : ESP32Metrics_t :=
  s_metrics (snd (run m s)).
Definition log_of {A} (m : M A) (s : ESP32Metrics_t) : list event :=
  events (snd (run m s)).

(** Field assignments. *)
Definition set_is_initialized (b : bool) (s : ESP32Metrics_t) : ESP32Metrics_t :=
  {| is_initialized := b;
     brownout_count := brownout_count s;
     error_count := error_count s;
     last_uptime := last_uptime s;
     temp_sensor_enabled := temp_sensor_enabled s;
     last_temperature := last_temperature s;
     reboot_reason := reboot_reason s;
     prev_total_run_time := prev_total_run_time s;
     prev_idle_time := prev_idle_time s |}.

Definition set_brownout_count (n : Z) (s : ESP32Metrics_t) : ESP32Metrics_t :=
  {| is_initialized := is_initialized s;
     brownout_count := n;
     error_count := error_count s;
     last_uptime := last_uptime s;
     temp_sensor_enabled := temp_sensor_enabled s;
     last_temperature := last_temperature s;
     reboot_reason := reboot_reason s;
     prev_total_run_time := prev_total_run_time s;
     prev_idle_time := prev_idle_time s |}.

Definition set_error_count (n : Z) (s : ESP32Metrics_t) : ESP32Metrics_t :=
  {| is_initialized := is_initialized s;
     brownout_count := brownout_count s;
     error_count := n;
     last_uptime := last_uptime s;
     temp_sensor_enabled := temp_sensor_enabled s;
     last_temperature := last_temperature s;
     reboot_reason := reboot_reason s;
     prev_total_run_time := prev_total_run_time s;
     prev_idle_time := prev_idle_time s |}.

Definition set_last_uptime (n : Z) (s : ESP32Metrics_t) : ESP32Metrics_t :=
  {| is_initialized := is_initialized s;
     brownout_count := brownout_count s;
     error_count := error_count s;
     last_uptime := n;
     temp_sensor_enabled := temp_sensor_enabled s;
     last_temperature := last_temperature s;
     reboot_reason := reboot_reason s;
     prev_total_run_time := prev_total_run_time s;
     prev_idle_time := prev_idle_time s |}.

Definition set_temp_sensor_enabled (b : bool) (s : ESP32Metrics_t) : ESP32Metrics_t :=
  {| is_initialized := is_initialized s;
     brownout_count := brownout_count s;
     error_count := error_count s;
     last_uptime := last_uptime s;
     temp_sensor_enabled := b;
     last_temperature := last_temperature s;
     reboot_reason := reboot_reason s;
     prev_total_run_time := prev_total_run_time s;
     prev_idle_time := prev_idle_time s |}.

Definition set_last_temperature (v : F32.t) (s : ESP32Metrics_t) : ESP32Metrics_t :=
  {| is_initialized := is_initialized s;
     brownout_count := brownout_count s;
     error_count := error_count s;
     last_uptime := last_uptime s;
     temp_sensor_enabled := temp_sensor_enabled s;
     last_temperature := v;
     reboot_reason := reboot_reason s;
     prev_total_run_time := prev_total_run_time s;
     prev_idle_time := prev_idle_time s |}.

Definition set_reboot_reason (r : ESP32RebootReason) (s : ESP32Metrics_t) : ESP32Metrics_t :=
  {| is_initialized := is_initialized s;
     brownout_count := brownout_count s;
     error_count := error_count s;
     last_uptime := last_uptime s;
     temp_sensor_enabled := temp_sensor_enabled s;
     last_temperature := last_temperature s;
     reboot_reason := r;
     prev_total_run_time := prev_total_run_time s;
     prev_idle_time := prev_idle_time s |}.

Definition set_prev_total_run_time (n : Z) (s : ESP32Metrics_t) : ESP32Metrics_t :=
  {| is_initialized := is_initialized s;
     brownout_count := brownout_count s;
     error_count := error_count s;
     last_uptime := last_uptime s;
     temp_sensor_enabled := temp_sensor_enabled s;
     last_temperature := last_temperature s;
     reboot_reason := reboot_reason s;
     prev_total_run_time := n;
     prev_idle_time := prev_idle_time s |}.

Definition set_prev_idle_time (n : Z) (s : ESP32Metrics_t) : ESP32Metrics_t :=
  {| is_initialized := is_initialized s;
     brownout_count := brownout_count s;
     error_count := error_count s;
     last_uptime := last_uptime s;
     temp_sensor_enabled := temp_sensor_enabled s;
     last_temperature := last_temperature s;
     reboot_reason := reboot_reason s;
     prev_total_run_time := prev_total_run_time s;
     prev_idle_time := n |}.

(** ** The functions of ESP32Metrics.c

    An output parameter that the function only writes is a [pointer]:
    [NULL] or [Valid].  A function with an output parameter returns its
    result code together with the value it left in the pointed-to object,
    [None] when it stored nothing there. *)

Inductive pointer := NULL | Valid.

(** [temp_sensor_read_celsius(p)] where [*p] holds [dest]: the return
    code and the content of [*p] after the call. *)
Definition read_celsius (env : providers) (dest : F32.t) : M (esp_err_t * F32.t) :=
  a <- call P_temp_sensor_read_celsius (temp_sensor_read_celsius env) ;;
  ret (fst a, match snd a with Some v => v | None => dest end).

(** [update_reboot_reason]: the comparison of [reason] with the table
    length is unsigned, so a negative code takes the [else] branch. *)
Definition update_reboot_reason (env : providers) : M unit :=
  r <- call P_esp_reset_reason (esp_reset_reason env) ;;
  let label :=
    if (0 <=? r) && (r <? Z.of_nat (List.length s_reset_reason_strings))
    then List.nth (Z.to_nat r) s_reset_reason_strings EmptyString
    else "Unknown reason"%string in
  modify (set_reboot_reason {| code := r; reason := label |}).

Definition ESP32Metrics_Init (env : providers) : M esp_err_t :=
  enter Op_Init ;;
  s <- get ;;
  if is_initialized s then ret ESP_OK
  else
    modify (set_brownout_count 0) ;;
    modify (set_error_count 0) ;;
    t <- call P_esp_timer_get_time (esp_timer_get_time env) ;;
    modify (set_last_uptime (Int.wrap64 (Z.quot t 1000))) ;;
    r <- call P_temp_sensor_config (temp_sensor_config env) ;;
    (if r =? ESP_OK then
       r <- call P_temp_sensor_start (temp_sensor_start env) ;;
       if r =? ESP_OK then
         modify (set_temp_sensor_enabled true) ;;
         (* the read goes straight into the field; its return code is
            discarded *)
         s <- get ;;
         a <- read_celsius env (last_temperature s) ;;
         modify (set_last_temperature (snd a))
       else
         modify (set_temp_sensor_enabled false) ;;
         modify (set_last_temperature F32.NAN) ;;
         esp_log
     else
       modify (set_temp_sensor_enabled false) ;;
       modify (set_last_temperature F32.NAN) ;;
       esp_log) ;;
    update_reboot_reason env ;;
    s <- get ;;
    (if code (reboot_reason s) =? ESP_RST_BROWNOUT
     then modify (set_brownout_count 1)
     else ret tt) ;;
    modify (set_prev_total_run_time 0) ;;
    modify (set_prev_idle_time 0) ;;
    modify (set_is_initialized true) ;;
    esp_log ;;
    ret ESP_OK.

Definition ESP32Metrics_Deinit : M esp_err_t :=
  enter Op_Deinit ;;
  s <- get ;;
  if negb (is_initialized s) then ret ESP_OK
  else
    (if temp_sensor_enabled s then
       call P_temp_sensor_stop tt ;;
       modify (set_temp_sensor_enabled false)
     else ret tt) ;;
    modify (set_is_initialized false) ;;
    esp_log ;;
    ret ESP_OK.

(** [ESP32Metrics_GetVersion] returns the macro [ESP32METRICS_VERSION],
    a string literal and so never a null pointer ([Some]); it neither
    tests nor changes the record.  The header that defines the macro is
    not among the sources, so the string is a parameter. *)
Definition ESP32Metrics_GetVersion (ESP32METRICS_VERSION : string) : M (option string) :=
  enter Op_GetVersion ;;
  ret (Some ESP32METRICS_VERSION).

(** The loop that looks for the task named "IDLE": the counter of the
    first such entry, [0] when there is none. *)
Fixpoint find_idle (task_stats : list TaskStatus_t) : Z :=
  match task_stats with
  | [] => 0
  | t :: rest =>
      if String.eqb (pcTaskName t) "IDLE" then ulRunTimeCounter t
      else find_idle rest
  end.

(** [uint32_t total_run_time = 0;] after the snapshot call: the value
    the call stored, else the initialiser. *)
Definition stored_total (stored : option Z) : Z :=
  match stored with
  | Some v => v
  | None => 0
  end.

(** The value stored in [*usage] (lines 144-156). *)
Definition cpu_usage (prev_total prev_idle total_run_time idle_time : Z) : F32.t :=
  if 0 <? prev_total then
    let total_delta := Int.sub32 total_run_time prev_total in
    let idle_delta := Int.sub32 idle_time prev_idle in
    if 0 <? total_delta then
      F32.sub (F32.of_Z 100)
              (F32.div (F32.mul (F32.of_Z idle_delta) (F32.of_Z 100))
                       (F32.of_Z total_delta))
    else F32.zero
  else F32.zero.

Definition ESP32Metrics_GetCpuUsage (env : providers) (usage : pointer)
  : M (esp_err_t * option F32.t) :=
  enter Op_GetCpuUsage ;;
  s <- get ;;
  if negb (is_initialized s) then ret (ESP_ERR_INVALID_STATE, None)
  else match usage with
  | NULL => ret (ESP_ERR_INVALID_ARG, None)
  | Valid =>
    _ <- call P_uxTaskGetNumberOfTasks (uxTaskGetNumberOfTasks env) ;;
    allocated <- call P_malloc (malloc env) ;;
    if negb allocated then ret (ESP_ERR_NO_MEM, None)
    else
      snapshot <- call P_uxTaskGetSystemState (uxTaskGetSystemState env) ;;
      let task_stats := fst snapshot in
      let total_run_time := stored_total (snd snapshot) in
      let idle_time := find_idle task_stats in
      let u := cpu_usage (prev_total_run_time s) (prev_idle_time s)
                         total_run_time idle_time in
      modify (set_prev_total_run_time total_run_time) ;;
      modify (set_prev_idle_time idle_time) ;;
      call P_free tt ;;
      ret (ESP_OK, Some u)
  end.

Definition ESP32Metrics_GetUptime (env : providers) (uptime : pointer)
  : M (esp_err_t * option Z) :=
  enter Op_GetUptime ;;
  s <- get ;;
  if negb (is_initialized s) then ret (ESP_ERR_INVALID_STATE, None)
  else match uptime with
  | NULL => ret (ESP_ERR_INVALID_ARG, None)
  | Valid =>
    t <- call P_esp_timer_get_time (esp_timer_get_time env) ;;
    let v := Int.wrap64 (Z.quot t 1000) in
    modify (set_last_uptime v) ;;
    ret (ESP_OK, Some v)
  end.

Definition ESP32Metrics_GetWifiSignal (env : providers) (rssi_out : pointer)
  : M (esp_err_t * option Z) :=
  enter Op_GetWifiSignal ;;
  s <- get ;;
  if negb (is_initialized s) then ret (ESP_ERR_INVALID_STATE, None)
  else match rssi_out with
  | NULL => ret (ESP_ERR_INVALID_ARG, None)
  | Valid =>
    a <- call P_esp_wifi_sta_get_ap_info (esp_wifi_sta_get_ap_info env) ;;
    let r := fst a in
    let ap_info := snd a in
    if r =? ESP_OK then ret (r, Some (rssi ap_info))
    else ret (r, Some 0)
  end.

Definition ESP32Metrics_GetWifiStatus (env : providers) (status : pointer)
  : M (esp_err_t * option ESP32WifiStatus) :=
  enter Op_GetWifiStatus ;;
  s <- get ;;
  if negb (is_initialized s) then ret (ESP_ERR_INVALID_STATE, None)
  else match status with
  | NULL => ret (ESP_ERR_INVALID_ARG, None)
  | Valid =>
    a <- call P_esp_wifi_get_mode (esp_wifi_get_mode env) ;;
    let r := fst a in
    let mode := snd a in
    if negb (r =? ESP_OK) then ret (r, Some ESP32_WIFI_NOT_INITIALIZED)
    else
      match mode with
      | WIFI_MODE_NULL | WIFI_MODE_AP => ret (ESP_OK, Some ESP32_WIFI_DISCONNECTED)
      | _ =>
        b <- call P_esp_wifi_sta_get_ap_info (esp_wifi_sta_get_ap_info env) ;;
        let r := fst b in
        if r =? ESP_OK then ret (ESP_OK, Some ESP32_WIFI_CONNECTED)
        else if r =? ESP_ERR_WIFI_NOT_CONNECT then ret (ESP_OK, Some ESP32_WIFI_DISCONNECTED)
        else ret (ESP_OK, Some ESP32_WIFI_NOT_INITIALIZED)
      end
  end.

(** [temp] is the one output parameter that is handed on to a provider
    and read back, so it carries what the object holds: [None] is
    [NULL], [Some old] points to an object holding [old]. *)
Definition ESP32Metrics_GetTemperature (env : providers) (temp : option F32.t)
  : M (esp_err_t * option F32.t) :=
  enter Op_GetTemperature ;;
  s <- get ;;
  if negb (is_initialized s) then ret (ESP_ERR_INVALID_STATE, None)
  else match temp with
  | None => ret (ESP_ERR_INVALID_ARG, None)
  | Some old =>
    if negb (temp_sensor_enabled s) then ret (ESP_ERR_NOT_SUPPORTED, Some F32.NAN)
    else
      a <- read_celsius env old ;;
      let r := fst a in
      if r =? ESP_OK then
        modify (set_last_temperature (snd a)) ;;
        ret (r, Some (snd a))
      else
        s <- get ;;
        ret (r, Some (last_temperature s))
  end.

Definition ESP32Metrics_GetBrownoutCount (count : pointer)
  : M (esp_err_t * option Z) :=
  enter Op_GetBrownoutCount ;;
  s <- get ;;
  if negb (is_initialized s) then ret (ESP_ERR_INVALID_STATE, None)
  else match count with
  | NULL => ret (ESP_ERR_INVALID_ARG, None)
  | Valid => ret (ESP_OK, Some (brownout_count s))
  end.

Definition ESP32Metrics_GetRebootReason (reason_out : pointer)
  : M (esp_err_t * option ESP32RebootReason) :=
  enter Op_GetRebootReason ;;
  s <- get ;;
  if negb (is_initialized s) then ret (ESP_ERR_INVALID_STATE, None)
  else match reason_out with
  | NULL => ret (ESP_ERR_INVALID_ARG, None)
  | Valid => ret (ESP_OK, Some (reboot_reason s))
  end.

(** The [switch (phy_mode)] of [ESP32Metrics_GetWifiDataRate]. *)
Definition nominal_rate (phy_mode : wifi_phy_mode_t)
                        (secondary_channel : wifi_second_chan_t) : F32.t :=
  match phy_mode with
  | WIFI_PHY_MODE_LR => F32.half
  | WIFI_PHY_MODE_HT =>
      match secondary_channel with
      | WIFI_SECOND_CHAN_NONE => F32.of_Z 72
      | _ => F32.of_Z 144
      end
  | WIFI_PHY_MODE_VHT =>
      match secondary_channel with
      | WIFI_SECOND_CHAN_NONE => F32.of_Z 96
      | _ => F32.of_Z 200
      end
  | _ => F32.of_Z 11
  end.

(** [1.0f - (float)fmax(-90 - ap_info.rssi, 0) / 40.0f]: the subtraction
    [-90 - rssi] is on [int], [fmax] works on [double]. *)
Definition signal_factor (rssi : Z) : F32.t :=
  F32.sub (F32.of_Z 1)
          (F32.div (F64.to_f32 (F64.fmax (F64.of_Z (-90 - rssi)) (F64.of_Z 0)))
                   (F32.of_Z 40)).

(** [*rate *= fmax(signal_factor, 0.5f)]: [fmax] returns a [double], so
    the product is formed in [double] and rounded to [float] when
    assigned. *)
Definition derate (rate factor : F32.t) : F32.t :=
  F64.to_f32 (F64.mul (F64.of_f32 rate)
                      (F64.fmax (F64.of_f32 factor) (F64.of_f32 F32.half))).

Definition ESP32Metrics_GetWifiDataRate (env : providers) (rate : pointer)
  : M (esp_err_t * option F32.t) :=
  enter Op_GetWifiDataRate ;;
  s <- get ;;
  if negb (is_initialized s) then ret (ESP_ERR_INVALID_STATE, None)
  else match rate with
  | NULL => ret (ESP_ERR_INVALID_ARG, None)
  | Valid =>
    a <- call P_esp_wifi_sta_get_ap_info (esp_wifi_sta_get_ap_info env) ;;
    let r := fst a in
    let ap_info := snd a in
    if negb (r =? ESP_OK) then ret (r, Some F32.zero)
    else
      let secondary_channel := second ap_info in
      (* the return code of the PHY-mode query is discarded *)
      b <- call P_esp_wifi_sta_get_negotiated_phymode
                (esp_wifi_sta_get_negotiated_phymode env) ;;
      let phy_mode := snd b in
      let nominal := nominal_rate phy_mode secondary_channel in
      ret (ESP_OK, Some (derate nominal (signal_factor (rssi ap_info))))
  end.

Definition ESP32Metrics_GetLogLevel (env : providers) (level : pointer)
  : M (esp_err_t * option esp_log_level_t) :=
  enter Op_GetLogLevel ;;
  s <- get ;;
  if negb (is_initialized s) then ret (ESP_ERR_INVALID_STATE, None)
  else match level with
  | NULL => ret (ESP_ERR_INVALID_ARG, None)
  | Valid =>
    l <- call P_esp_log_level_get (esp_log_level_get env) ;;
    ret (ESP_OK, Some l)
  end.

Definition ESP32Metrics_GetErrorCount (count : pointer)
  : M (esp_err_t * option Z) :=
  enter Op_GetErrorCount ;;
  s <- get ;;
  if negb (is_initialized s) then ret (ESP_ERR_INVALID_STATE, None)
  else match count with
  | NULL => ret (ESP_ERR_INVALID_ARG, None)
  | Valid => ret (ESP_OK, Some (error_count s))
  end.

Definition ESP32Metrics_IncrementErrorCount : M esp_err_t :=
  enter Op_IncrementErrorCount ;;
  s <- get ;;
  if negb (is_initialized s) then ret ESP_ERR_INVALID_STATE
  else
    modify (set_error_count (Int.incr32 (error_count s))) ;;
    ret ESP_OK.

(** What the untyped output slot of [ESP32Metrics_GetMetric] holds: the
    value last stored in it, tagged with the C type it was stored at. *)
Inductive slot :=
| Slot_float (v : F32.t)
| Slot_uint64 (v : Z)
| Slot_int8 (v : Z)
| Slot_uint32 (v : Z)
| Slot_status (v : ESP32WifiStatus)
| Slot_reason (v : ESP32RebootReason)
| Slot_level (v : esp_log_level_t).

(** The slot seen through a float pointer.  A slot holding a float
    gives that float.  The targets are little-endian, so a slot holding
    a [uint32_t] or a [uint64_t] gives the float whose representation
    is its 32 low-order bits.  Any other slot gives what the providers
    record says its bytes read as.  Only [ESP32Metrics_GetTemperature]
    ever reads its output object, and only when the sensor reports
    success without storing a reading. *)
Definition slot_float (env : providers) (v : slot) : F32.t :=
  match v with
  | Slot_float f => f
  | Slot_uint64 b | Slot_uint32 b => F32.of_bits b
  | _ => slot_bytes_as_float env
  end.

(** Run a typed getter on the slot: what it stores is tagged with the
    type of its output parameter. *)
Definition on_slot {A} (tag : A -> slot) (g : M (esp_err_t * option A))
  : M (esp_err_t * option slot) :=
  a <- g ;;
  ret (fst a, option_map tag (snd a)).

(** Modelled from the spec: the header ESP32Metrics.h is not among the
    sources; the enumerators of the closed metric enumeration are
    numbered from 0 in the order of the case labels.  Every other [int]
    is outside the enumeration. *)
Definition metric_of_int (type : Z) : option ESP32MetricType :=
  match type with
  | 0 => Some ESP32_METRIC_CPU_USAGE
  | 1 => Some ESP32_METRIC_UPTIME
  | 2 => Some ESP32_METRIC_WIFI_SIGNAL
  | 3 => Some ESP32_METRIC_WIFI_STATUS
  | 4 => Some ESP32_METRIC_TEMPERATURE
  | 5 => Some ESP32_METRIC_BROWNOUT_COUNT
  | 6 => Some ESP32_METRIC_REBOOT_REASON
  | 7 => Some ESP32_METRIC_WIFI_DATA_RATE
  | 8 => Some ESP32_METRIC_LOG_LEVEL
  | 9 => Some ESP32_METRIC_ERROR_COUNT
  | _ => None
  end.

(** [value] is [None] for [NULL], [Some old] for a slot holding [old];
    the result carries what the call stored in the slot, if anything. *)
Definition ESP32Metrics_GetMetric (env : providers) (type : Z) (value : option slot)
  : M (esp_err_t * option slot) :=
  enter Op_GetMetric ;;
  s <- get ;;
  if negb (is_initialized s) then ret (ESP_ERR_INVALID_STATE, None)
  else match value with
  | None => ret (ESP_ERR_INVALID_ARG, None)
  | Some old =>
    match metric_of_int type with
    | Some ESP32_METRIC_CPU_USAGE =>
        on_slot Slot_float (ESP32Metrics_GetCpuUsage env Valid)
    | Some ESP32_METRIC_UPTIME =>
        on_slot Slot_uint64 (ESP32Metrics_GetUptime env Valid)
    | Some ESP32_METRIC_WIFI_SIGNAL =>
        on_slot Slot_int8 (ESP32Metrics_GetWifiSignal env Valid)
    | Some ESP32_METRIC_WIFI_STATUS =>
        on_slot Slot_status (ESP32Metrics_GetWifiStatus env Valid)
    | Some ESP32_METRIC_TEMPERATURE =>
        on_slot Slot_float
                (ESP32Metrics_GetTemperature env (Some (slot_float env old)))
    | Some ESP32_METRIC_BROWNOUT_COUNT =>
        on_slot Slot_uint32 (ESP32Metrics_GetBrownoutCount Valid)
    | Some ESP32_METRIC_REBOOT_REASON =>
        on_slot Slot_reason (ESP32Metrics_GetRebootReason Valid)
    | Some ESP32_METRIC_WIFI_DATA_RATE =>
        on_slot Slot_float (ESP32Metrics_GetWifiDataRate env Valid)
    | Some ESP32_METRIC_LOG_LEVEL =>
        on_slot Slot_level (ESP32Metrics_GetLogLevel env Valid)
    | Some ESP32_METRIC_ERROR_COUNT =>
        on_slot Slot_uint32 (ESP32Metrics_GetErrorCount Valid)
    | None => ret (ESP_ERR_INVALID_ARG, None)
    end
  end.

(** ** Reachable states

    The states the static record can be in: the zero-filled initial
    state, and every state a public function leaves behind. *)
Inductive step : ESP32Metrics_t -> ESP32Metrics_t -> Prop :=
| step_Init env s : step s (state_after (ESP32Metrics_Init env) s)
| step_Deinit s : step s (state_after ESP32Metrics_Deinit s)
| step_GetVersion v s : step s (state_after (ESP32Metrics_GetVersion v) s)
| step_GetCpuUsage env p s : step s (state_after (ESP32Metrics_GetCpuUsage env p) s)
| step_GetUptime env p s : step s (state_after (ESP32Metrics_GetUptime env p) s)
| step_GetWifiSignal env p s : step s (state_after (ESP32Metrics_GetWifiSignal env p) s)
| step_GetWifiStatus env p s : step s (state_after (ESP32Metrics_GetWifiStatus env p) s)
| step_GetTemperature env p s : step s (state_after (ESP32Metrics_GetTemperature env p) s)
| step_GetBrownoutCount p s : step s (state_after (ESP32Metrics_GetBrownoutCount p) s)
| step_GetRebootReason p s : step s (state_after (ESP32Metrics_GetRebootReason p) s)
| step_GetWifiDataRate env p s : step s (state_after (ESP32Metrics_GetWifiDataRate env p) s)
| step_GetLogLevel env p s : step s (state_after (ESP32Metrics_GetLogLevel env p) s)
| step_GetErrorCount p s : step s (state_after (ESP32Metrics_GetErrorCount p) s)
| step_IncrementErrorCount s : step s (state_after ESP32Metrics_IncrementErrorCount s)
| step_GetMetric env t p s : step s (state_after (ESP32Metrics_GetMetric env t p) s).

Inductive reachable : ESP32Metrics_t -> Prop :=
| reachable_initial : reachable s_metrics_initial
| reachable_step s s' : reachable s -> step s s' -> reachable s'.

(** ** Concrete states and providers

    Inputs on which the functions are evaluated below. *)

(** A state that has been initialised and holds a previous sample
    [(prev_total, prev_idle)]. *)
Definition sampled_state (prev_total prev_idle : Z) : ESP32Metrics_t :=
  set_prev_idle_time prev_idle
    (set_prev_total_run_time prev_total
       (set_is_initialized true s_metrics_initial)).

(** Providers for a scheduler snapshot: the allocation succeeds, the
    task list is [tasks] and the total run time is [total]; nothing else
    is available (no sensor, no radio). *)
Definition snapshot_env (allocated : bool) (tasks : list TaskStatus_t) (total : Z)
  : providers := {|
  esp_timer_get_time := 0;
  temp_sensor_config := ESP_FAIL;
  temp_sensor_start := ESP_FAIL;
  temp_sensor_read_celsius := (ESP_FAIL, None);
  esp_reset_reason := 1;
  uxTaskGetNumberOfTasks := Z.of_nat (List.length tasks);
  malloc := allocated;
  uxTaskGetSystemState := (tasks, Some total);
  esp_wifi_sta_get_ap_info :=
    (ESP_FAIL, {| primary := 0; second := WIFI_SECOND_CHAN_NONE; rssi := 0 |});
  esp_wifi_get_mode := (ESP_FAIL, WIFI_MODE_NULL);
  esp_wifi_sta_get_negotiated_phymode := (ESP_FAIL, WIFI_PHY_MODE_11B);
  esp_log_level_get := ESP_LOG_INFO;
  slot_bytes_as_float := F32.zero
|}.

Definition two_tasks (idle main : Z) : list TaskStatus_t :=
  [ {| pcTaskName := "main"; ulRunTimeCounter := main |};
    {| pcTaskName := "IDLE"; ulRunTimeCounter := idle |} ].


(** Providers for the temperature sensor and the reset-cause reader:
    the outcomes of configuring, starting and reading the sensor, and
    the reset code; the radio is down. *)
Definition sensor_env (config start : esp_err_t) (read : esp_err_t * option F32.t)
                      (reset : Z) : providers := {|
  esp_timer_get_time := 5000000;
  temp_sensor_config := config;
  temp_sensor_start := start;
  temp_sensor_read_celsius := read;
  esp_reset_reason := reset;
  uxTaskGetNumberOfTasks := 0;
  malloc := false;
  uxTaskGetSystemState := ([], None);
  esp_wifi_sta_get_ap_info :=
    (ESP_FAIL, {| primary := 0; second := WIFI_SECOND_CHAN_NONE; rssi := 0 |});
  esp_wifi_get_mode := (ESP_FAIL, WIFI_MODE_NULL);
  esp_wifi_sta_get_negotiated_phymode := (ESP_FAIL, WIFI_PHY_MODE_11B);
  esp_log_level_get := ESP_LOG_INFO;
  slot_bytes_as_float := F32.zero
|}.

(** Providers for the radio: the answers of the mode query, of the
    access-point record query and of the PHY-mode query. *)
Definition wifi_env (mode : esp_err_t * wifi_mode_t)
                    (ap : esp_err_t * wifi_ap_record_t)
                    (phy : esp_err_t * wifi_phy_mode_t) : providers := {|
  esp_timer_get_time := 5000000;
  temp_sensor_config := ESP_FAIL;
  temp_sensor_start := ESP_FAIL;
  temp_sensor_read_celsius := (ESP_FAIL, None);
  esp_reset_reason := 1;
  uxTaskGetNumberOfTasks := 0;
  malloc := false;
  uxTaskGetSystemState := ([], None);
  esp_wifi_sta_get_ap_info := ap;
  esp_wifi_get_mode := mode;
  esp_wifi_sta_get_negotiated_phymode := phy;
  esp_log_level_get := ESP_LOG_INFO;
  slot_bytes_as_float := F32.zero
|}.

(** An access-point record on channel 6. *)
Definition ap_record (width : wifi_second_chan_t) (dBm : Z) : wifi_ap_record_t :=
  {| primary := 6; second := width; rssi := dBm |}.

(** 25.0 and 31.5 degrees Celsius. *)
Definition celsius_25 : F32.t := F32.of_Z 25.
Definition celsius_31_5 : F32.t := binary_normalize F32.prec F32.emax 63 (-1) false.

(** Power-on boot, sensor present and read at 25 degrees: the state
    after the first [ESP32Metrics_Init]. *)
Definition booted_state : ESP32Metrics_t :=
  state_after (ESP32Metrics_Init (sensor_env ESP_OK ESP_OK (ESP_OK, Some celsius_25) 1))
              s_metrics_initial.

(** Power-on boot on a board whose sensor does not start. *)
Definition booted_without_sensor : ESP32Metrics_t :=
  state_after (ESP32Metrics_Init (sensor_env ESP_OK ESP_FAIL (ESP_FAIL, None) 1))
              s_metrics_initial.

(** The scheduler was wholly idle between two samples: both counters
    advance by 671091 ticks. *)
Definition idle_interval_state : ESP32Metrics_t := sampled_state 1 0.
Definition idle_interval_env : providers :=
  snapshot_env true (two_tasks 671091 1) 671092.

(** A boot whose reset cause is a brownout; the sensor does not start. *)
Definition brownout_env : providers :=
  sensor_env ESP_OK ESP_FAIL (ESP_FAIL, None) ESP_RST_BROWNOUT.

Definition brownout_booted : ESP32Metrics_t :=
  state_after (ESP32Metrics_Init brownout_env) s_metrics_initial.

(** The state [ESP32Metrics_Init] leaves when it finds the module not
    initialised. *)
Definition initialised_from (env : providers) (s : ESP32Metrics_t) : ESP32Metrics_t :=
  let started := (temp_sensor_config env =? ESP_OK) && (temp_sensor_start env =? ESP_OK) in
  let r := esp_reset_reason env in
  {| is_initialized := true;
     brownout_count := if r =? ESP_RST_BROWNOUT then 1 else 0;
     error_count := 0;
     last_uptime := Int.wrap64 (Z.quot (esp_timer_get_time env) 1000);
     temp_sensor_enabled := started;
     last_temperature :=
       if started then
         match snd (temp_sensor_read_celsius env) with
         | Some v => v
         | None => last_temperature s
         end
       else F32.NAN;
     reboot_reason :=
       {| code := r;
          reason := if (0 <=? r) && (r <? 12)
                    then List.nth (Z.to_nat r) s_reset_reason_strings EmptyString
                    else "Unknown reason"%string |};
     prev_total_run_time := 0;
     prev_idle_time := 0 |}.


(** The sensor is configured and started, but the seeding read of
    [ESP32Metrics_Init] fails without storing anything. *)
Definition seed_failure_env : providers :=
  sensor_env ESP_OK ESP_OK (ESP_FAIL, None) 1.

Definition seed_failure_state : ESP32Metrics_t :=
  state_after (ESP32Metrics_Init seed_failure_env) s_metrics_initial.

(** A later read that fails, and one that yields 31.5 degrees. *)
Definition read_failure_env : providers :=
  sensor_env ESP_OK ESP_OK (ESP_ERR_INVALID_STATE, None) 1.
Definition read_31_5_env : providers :=
  sensor_env ESP_OK ESP_OK (ESP_OK, Some celsius_31_5) 1.

(** Station mode, associated at -60 dBm on a 20 MHz channel; the
    PHY-mode query fails and leaves [stale] in the local variable. *)
Definition phymode_failure_env (stale : wifi_phy_mode_t) : providers :=
  wifi_env (ESP_OK, WIFI_MODE_STA)
           (ESP_OK, ap_record WIFI_SECOND_CHAN_NONE (-60))
           (ESP_FAIL, stale).

(** Station mode, not associated. *)
Definition not_connected_env : providers :=
  wifi_env (ESP_OK, WIFI_MODE_STA)
           (ESP_ERR_WIFI_NOT_CONNECT, ap_record WIFI_SECOND_CHAN_NONE 0)
           (ESP_FAIL, WIFI_PHY_MODE_11B).

(** Station mode, the record query fails for another reason. *)
Definition record_failure_env : providers :=
  wifi_env (ESP_OK, WIFI_MODE_STA)
           (ESP_FAIL, ap_record WIFI_SECOND_CHAN_NONE 0)
           (ESP_FAIL, WIFI_PHY_MODE_11B).

(** Station mode, associated at [dBm] with the given PHY mode and
    channel width. *)
Definition connected_env (phy : wifi_phy_mode_t) (width : wifi_second_chan_t)
                         (dBm : Z) : providers :=
  wifi_env (ESP_OK, WIFI_MODE_STA) (ESP_OK, ap_record width dBm) (ESP_OK, phy).

(** The status [ESP32Metrics_GetWifiStatus] derives from a radio mode
    and the return code of the access-point record query. *)
Definition classify_status (mode : wifi_mode_t) (record : esp_err_t) : ESP32WifiStatus :=
  match mode with
  | WIFI_MODE_NULL | WIFI_MODE_AP => ESP32_WIFI_DISCONNECTED
  | _ =>
      if record =? ESP_OK then ESP32_WIFI_CONNECTED
      else if record =? ESP_ERR_WIFI_NOT_CONNECT then ESP32_WIFI_DISCONNECTED
      else ESP32_WIFI_NOT_INITIALIZED
  end.

(** ** Sequencing and derived notions

    Definitions used to state properties of sequences of calls. *)

(** A computation is framed when it neither reads nor erases the event
    log it is started with: it behaves as on an empty log and appends
    its own events. *)
Definition framed {A} (m : M A) : Prop :=
  forall w : world,
    m w = (result m (s_metrics w),
           {| s_metrics := state_after m (s_metrics w);
              events := events w ++ log_of m (s_metrics w) |}).

(** The label [update_reboot_reason] attaches to a reset code. *)
Definition reset_reason_label (r : Z) : string :=
  if (0 <=? r) && (r <? Z.of_nat (List.length s_reset_reason_strings))
  then List.nth (Z.to_nat r) s_reset_reason_strings EmptyString
  else "Unknown reason"%string.

(** What holds of the static record in every reachable state. *)
Record consistent (s : ESP32Metrics_t) : Prop := {
  sensor_off_when_deinitialized :
    is_initialized s = false -> temp_sensor_enabled s = false;
  brownout_matches_reset_code :
    brownout_count s = if code (reboot_reason s) =? ESP_RST_BROWNOUT then 1 else 0;
  label_matches_reset_code :
    is_initialized s = true ->
    reason (reboot_reason s) = reset_reason_label (code (reboot_reason s));
  no_sensor_means_NaN :
    is_initialized s = true -> temp_sensor_enabled s = false ->
    last_temperature s = F32.NAN
}.

(** [n] calls of [ESP32Metrics_IncrementErrorCount] in a row. *)
Fixpoint increments (n : nat) : M unit :=
  match n with
  | O => ret tt
  | S k => ESP32Metrics_IncrementErrorCount ;; increments k
  end.

(** The changes a call other than [Init] and [Deinit] can make to the
    static record: none, a new scheduler sample, a new uptime, a new
    cached temperature, one more error. *)
Inductive getter_effect (s : ESP32Metrics_t) : ESP32Metrics_t -> Prop :=
| effect_none : getter_effect s s
| effect_sample (total idle : Z) :
    is_initialized s = true ->
    getter_effect s (set_prev_idle_time idle (set_prev_total_run_time total s))
| effect_uptime (t : Z) :
    is_initialized s = true ->
    getter_effect s (set_last_uptime (Int.wrap64 t) s)
| effect_temperature (v : F32.t) :
    is_initialized s = true ->
    temp_sensor_enabled s = true ->
    getter_effect s (set_last_temperature v s)
| effect_error :
    is_initialized s = true ->
    getter_effect s (set_error_count (Int.incr32 (error_count s)) s).

(** The state [ESP32Metrics_Deinit] leaves. *)
Definition deinitialised_from (s : ESP32Metrics_t) : ESP32Metrics_t :=
  if is_initialized s
  then set_is_initialized false
         (if temp_sensor_enabled s then set_temp_sensor_enabled false s else s)
  else s.

(** The state after [Init] then [Deinit] on the board of
    [booted_state]. *)
Definition shut_down_state : ESP32Metrics_t :=
  state_after ESP32Metrics_Deinit booted_state.

(** Providers whose only meaningful answer is the clock. *)
Definition clock_env (microseconds : Z) : providers := {|
  esp_timer_get_time := microseconds;
  temp_sensor_config := ESP_FAIL;
  temp_sensor_start := ESP_FAIL;
  temp_sensor_read_celsius := (ESP_FAIL, None);
  esp_reset_reason := 1;
  uxTaskGetNumberOfTasks := 0;
  malloc := false;
  uxTaskGetSystemState := ([], None);
  esp_wifi_sta_get_ap_info :=
    (ESP_FAIL, {| primary := 0; second := WIFI_SECOND_CHAN_NONE; rssi := 0 |});
  esp_wifi_get_mode := (ESP_FAIL, WIFI_MODE_NULL);
  esp_wifi_sta_get_negotiated_phymode := (ESP_FAIL, WIFI_PHY_MODE_11B);
  esp_log_level_get := ESP_LOG_INFO;
  slot_bytes_as_float := F32.zero
|}.

(** Every value of an [int8_t], in increasing order. *)
Definition int8_values : list Z :=
  List.map (fun n => Z.of_nat n - 128) (List.seq 0 256).

(** The rates the [switch] of [ESP32Metrics_GetWifiDataRate] assigns. *)
Definition nominal_rates : list F32.t :=
  [F32.half; F32.of_Z 72; F32.of_Z 144; F32.of_Z 96; F32.of_Z 200; F32.of_Z 11].

(** The rate reported for a nominal rate at a signal strength. *)
Definition rate_at (nominal : F32.t) (dBm : Z) : F32.t :=
  derate nominal (signal_factor dBm).

(** Two floats with the same representation. *)
Definition float_same (x y : spec_float) : bool :=
  match x, y with
  | S754_zero a, S754_zero b => Bool.eqb a b
  | S754_infinity a, S754_infinity b => Bool.eqb a b
  | S754_nan, S754_nan => true
  | S754_finite a m e, S754_finite b n f => Bool.eqb a b && Pos.eqb m n && Z.eqb e f
  | _, _ => false
  end.

(** Checks run over all of [int8_values] and [nominal_rates]: the rate
    lies between half the nominal rate and the nominal rate; it is the
    nominal rate from -90 dBm up and half of it from -110 dBm down; it
    does not decrease when the signal gets stronger. *)
Definition rate_within_bounds (nominal : F32.t) (dBm : Z) : bool :=
  F32.leb (F32.mul nominal F32.half) (rate_at nominal dBm)
  && F32.leb (rate_at nominal dBm) nominal.

Definition rate_positive (nominal : F32.t) (dBm : Z) : bool :=
  F32.ltb F32.zero (rate_at nominal dBm).

Definition rate_plateaus (nominal : F32.t) (dBm : Z) : bool :=
  (if -90 <=? dBm then float_same (rate_at nominal dBm) nominal else true)
  && (if dBm <=? -110
      then float_same (rate_at nominal dBm) (F32.mul nominal F32.half)
      else true).

(** The table of the rates of a nominal rate over [int8_values], and
    the check that it is sorted: a stronger signal never has a lower
    rate. *)
Definition rate_table (nominal : F32.t) : list (Z * F32.t) :=
  List.map (fun dBm => (dBm, rate_at nominal dBm)) int8_values.

Definition table_sorted (table : list (Z * F32.t)) : bool :=
  List.forallb (fun weak =>
                  List.forallb (fun strong =>
                                  if fst weak <=? fst strong
                                  then F32.leb (snd weak) (snd strong)
                                  else true)
                               table)
               table.

Definition for_all_rates (check : F32.t -> Z -> bool) : bool :=
  List.forallb (fun dBm => List.forallb (fun nominal => check nominal dBm) nominal_rates)
               int8_values.

(** ** The test application (test/ESP32MetricsTest)

    The test functions run against the module.  Their state is the
    module's world, the three static counters and the number of module
    calls made so far; the providers answer the [n]-th module call of a
    run with [board n]. *)

Record harness := {
  module : world;
  calls_made : nat;
  tests_run : Z;
  tests_passed : Z;
  tests_failed : Z
}.

(** A statement of a test function either goes on with a value ([inl])
    or has returned from the function with a verdict ([inr]). *)
Definition T (A : Type) : Type := harness -> (A + bool) * harness.

Definition tret {A} (a : A) : T A := fun h => (inl a, h).

Definition tbind {A B} (m : T A) (k : A -> T B) : T B :=
  fun h =>
    match m h with
    | (inl a, h') => k a h'
    | (inr verdict, h') => (inr verdict, h')
    end.

(** [return b;] *)
Definition treturn {A} (b : bool) : T A := fun h => (inr b, h).

Declare Scope harness_scope.
Delimit Scope harness_scope with harness.

Notation "x <- m ;; k" := (tbind m (fun x => k))
  (at level 61, m at next level, right associativity) : harness_scope.
Notation "m ;; k" := (tbind m (fun _ => k))
  (at level 61, right associativity) : harness_scope.

(** A call into the module: the providers are those of the current call
    number. *)
Definition module_call {A} (board : nat -> providers) (op : providers -> M A) : T A :=
  fun h =>
    let (a, w) := op (board (calls_made h)) (module h) in
    (inl a,
     {| module := w;
        calls_made := S (calls_made h);
        tests_run := tests_run h;
        tests_passed := tests_passed h;
        tests_failed := tests_failed h |}).

(** [ESP_LOGI], [ESP_LOGW], [ESP_LOGE] of the test application. *)
Definition tlog : T unit :=
  fun h =>
    (inl tt,
     {| module := snd (esp_log (module h));
        calls_made := calls_made h;
        tests_run := tests_run h;
        tests_passed := tests_passed h;
        tests_failed := tests_failed h |}).

(** [vTaskDelay(...)]: nothing the model observes. *)
Definition vTaskDelay : T unit := tret tt.

Definition incr_tests_run : T unit :=
  fun h =>
    (inl tt,
     {| module := module h; calls_made := calls_made h;
        tests_run := tests_run h + 1;
        tests_passed := tests_passed h;
        tests_failed := tests_failed h |}).

Definition incr_tests_passed : T unit :=
  fun h =>
    (inl tt,
     {| module := module h; calls_made := calls_made h;
        tests_run := tests_run h;
        tests_passed := tests_passed h + 1;
        tests_failed := tests_failed h |}).

Definition incr_tests_failed : T unit :=
  fun h =>
    (inl tt,
     {| module := module h; calls_made := calls_made h;
        tests_run := tests_run h;
        tests_passed := tests_passed h;
        tests_failed := tests_failed h + 1 |}).

(** The macro [TEST_ASSERT(condition, message)]: on a false condition
    it logs, counts a failure and returns [false]; otherwise it returns
    [true].  Either way it returns from the enclosing function. *)
Definition TEST_ASSERT (condition : bool) : T unit :=
  (if negb condition
   then (tlog ;; incr_tests_failed ;; treturn false)
   else treturn true)%harness.

(** The value of a local variable after a getter was handed its
    address: what the getter stored, else the initialiser. *)
Definition local {A} (initialiser : A) (stored : option A) : A :=
  match stored with
  | Some v => v
  | None => initialiser
  end.

Definition test_init_deinit (board : nat -> providers) : T unit :=
  (r <- module_call board ESP32Metrics_Init ;;
   TEST_ASSERT (r =? ESP_OK) ;;
   r <- module_call board (fun _ => ESP32Metrics_Deinit) ;;
   TEST_ASSERT (r =? ESP_OK) ;;
   r <- module_call board ESP32Metrics_Init ;;
   TEST_ASSERT (r =? ESP_OK) ;;
   treturn true)%harness.

Definition test_version (board : nat -> providers) (ESP32METRICS_VERSION : string)
  : T unit :=
  (version <- module_call board
                (fun _ => ESP32Metrics_GetVersion ESP32METRICS_VERSION) ;;
   TEST_ASSERT (match version with Some _ => true | None => false end) ;;
   TEST_ASSERT (match version with
                | Some v => String.eqb v ESP32METRICS_VERSION
                | None => false
                end) ;;
   tlog ;;
   treturn true)%harness.

Definition test_cpu_usage (board : nat -> providers) : T unit :=
  (a <- module_call board (fun env => ESP32Metrics_GetCpuUsage env Valid) ;;
   let usage := local F32.zero (snd a) in
   TEST_ASSERT (fst a =? ESP_OK) ;;
   TEST_ASSERT (F32.leb F32.zero usage && F32.leb usage (F32.of_Z 100)) ;;
   tlog ;;
   b <- module_call board (fun env => ESP32Metrics_GetCpuUsage env NULL) ;;
   TEST_ASSERT (fst b =? ESP_ERR_INVALID_ARG) ;;
   treturn true)%harness.

Definition test_uptime (board : nat -> providers) : T unit :=
  (a <- module_call board (fun env => ESP32Metrics_GetUptime env Valid) ;;
   let uptime := local 0 (snd a) in
   TEST_ASSERT (fst a =? ESP_OK) ;;
   TEST_ASSERT (0 <? uptime) ;;
   tlog ;;
   vTaskDelay ;;
   b <- module_call board (fun env => ESP32Metrics_GetUptime env Valid) ;;
   let uptime2 := local 0 (snd b) in
   TEST_ASSERT (fst b =? ESP_OK) ;;
   TEST_ASSERT (uptime <? uptime2) ;;
   tlog ;;
   treturn true)%harness.

Definition test_wifi_metrics (board : nat -> providers) : T unit :=
  (a <- module_call board (fun env => ESP32Metrics_GetWifiStatus env Valid) ;;
   TEST_ASSERT (fst a =? ESP_OK) ;;
   tlog ;;
   b <- module_call board (fun env => ESP32Metrics_GetWifiSignal env Valid) ;;
   let rssi := local 0 (snd b) in
   (if fst b =? ESP_OK
    then tlog ;; TEST_ASSERT (rssi <? 0)
    else tlog) ;;
   c <- module_call board (fun env => ESP32Metrics_GetWifiDataRate env Valid) ;;
   let data_rate := local F32.zero (snd c) in
   (if fst c =? ESP_OK
    then tlog ;; TEST_ASSERT (F32.leb F32.zero data_rate)
    else tlog) ;;
   treturn true)%harness.

Definition test_temperature (board : nat -> providers) : T unit :=
  (a <- module_call board
          (fun env => ESP32Metrics_GetTemperature env (Some F32.zero)) ;;
   let temp := local F32.zero (snd a) in
   (if fst a =? ESP_OK then
      tlog ;;
      TEST_ASSERT (negb (F32.is_nan temp)) ;;
      TEST_ASSERT (F32.leb (F32.of_Z (-10)) temp && F32.leb temp (F32.of_Z 80))
    else if fst a =? ESP_ERR_NOT_SUPPORTED then tlog
    else TEST_ASSERT false) ;;
   treturn true)%harness.

Definition test_reboot_reason (board : nat -> providers) : T unit :=
  (a <- module_call board (fun _ => ESP32Metrics_GetRebootReason Valid) ;;
   TEST_ASSERT (fst a =? ESP_OK) ;;
   (* the label is a string literal, never a null pointer *)
   TEST_ASSERT true ;;
   tlog ;;
   treturn true)%harness.

Definition test_brownout_and_errors (board : nat -> providers) : T unit :=
  (a <- module_call board (fun _ => ESP32Metrics_GetBrownoutCount Valid) ;;
   TEST_ASSERT (fst a =? ESP_OK) ;;
   tlog ;;
   b <- module_call board (fun _ => ESP32Metrics_GetErrorCount Valid) ;;
   let error_count := local 0 (snd b) in
   TEST_ASSERT (fst b =? ESP_OK) ;;
   tlog ;;
   r <- module_call board (fun _ => ESP32Metrics_IncrementErrorCount) ;;
   TEST_ASSERT (r =? ESP_OK) ;;
   c <- module_call board (fun _ => ESP32Metrics_GetErrorCount Valid) ;;
   let new_error_count := local 0 (snd c) in
   TEST_ASSERT (fst c =? ESP_OK) ;;
   TEST_ASSERT (new_error_count =? Int.incr32 error_count) ;;
   tlog ;;
   treturn true)%harness.

Definition test_log_level (board : nat -> providers) : T unit :=
  (a <- module_call board (fun env => ESP32Metrics_GetLogLevel env Valid) ;;
   TEST_ASSERT (fst a =? ESP_OK) ;;
   tlog ;;
   treturn true)%harness.

(** The metric types are passed as the numbers [metric_of_int] gives
    the enumerators; 99 is the test's invalid type. *)
Definition test_generic_api (board : nat -> providers) : T unit :=
  (a <- module_call board
          (fun env => ESP32Metrics_GetMetric env 0 (Some (Slot_float F32.zero))) ;;
   TEST_ASSERT (fst a =? ESP_OK) ;;
   tlog ;;
   b <- module_call board
          (fun env => ESP32Metrics_GetMetric env 1 (Some (Slot_uint64 0))) ;;
   TEST_ASSERT (fst b =? ESP_OK) ;;
   tlog ;;
   c <- module_call board
          (fun env => ESP32Metrics_GetMetric env 99
                        (Some (local (Slot_uint64 0) (snd b)))) ;;
   TEST_ASSERT (fst c =? ESP_ERR_INVALID_ARG) ;;
   treturn true)%harness.

(** Calling a test function: its verdict becomes a value. *)
Definition verdict_of (test : T unit) : T bool :=
  fun h =>
    match test h with
    | (inr verdict, h') => (inl verdict, h')
    | (inl _, h') => (inl true, h')
    end.

(** The macro [RUN_TEST(test_function, test_name)]. *)
Definition RUN_TEST (test : T unit) : T unit :=
  (tlog ;;
   incr_tests_run ;;
   passed <- verdict_of test ;;
   (if passed then tlog ;; incr_tests_passed else tlog) ;;
   vTaskDelay)%harness.

Definition print_test_summary : T unit :=
  (tlog ;; tlog ;; tlog ;; tlog ;; tlog ;; tlog ;; tlog ;; tlog ;;
   h <- (fun h => (inl h, h)) ;;
   (if tests_failed h =? 0 then tlog else tlog))%harness.

(** [app_main] of the test application. *)
Definition test_app_main (board : nat -> providers) (ESP32METRICS_VERSION : string)
  : T unit :=
  (tlog ;; tlog ;; tlog ;; tlog ;; tlog ;;
   vTaskDelay ;;
   RUN_TEST (test_init_deinit board) ;;
   RUN_TEST (test_version board ESP32METRICS_VERSION) ;;
   RUN_TEST (test_cpu_usage board) ;;
   RUN_TEST (test_uptime board) ;;
   RUN_TEST (test_wifi_metrics board) ;;
   RUN_TEST (test_temperature board) ;;
   RUN_TEST (test_reboot_reason board) ;;
   RUN_TEST (test_brownout_and_errors board) ;;
   RUN_TEST (test_log_level board) ;;
   RUN_TEST (test_generic_api board) ;;
   print_test_summary ;;
   _ <- module_call board (fun _ => ESP32Metrics_Deinit) ;;
   tlog)%harness.

(** The state of the test application at start-up. *)
Definition harness_initial : harness :=
  {| module := {| s_metrics := s_metrics_initial; events := [] |};
     calls_made := 0;
     tests_run := 0;
     tests_passed := 0;
     tests_failed := 0 |}.

(** A test function that always returns a verdict, after exactly
    [calls] module calls, having counted a failure exactly when the
    verdict is [false] and having left the other counters alone. *)
Definition returns_after (calls : nat) (test : T unit) : Prop :=
  forall h, exists verdict h',
    test h = (inr verdict, h') /\
    calls_made h' = (calls + calls_made h)%nat /\
    tests_run h' = tests_run h /\
    tests_passed h' = tests_passed h /\
    tests_failed h' = tests_failed h + (if verdict then 0 else 1).

(** A statement that goes on, after [calls] module calls, having run
    [tests] tests, each counted as passed or as failed. *)
Definition runs_tests (calls : nat) (tests : Z) (stmt : T unit) : Prop :=
  forall h, exists h',
    stmt h = (inl tt, h') /\
    calls_made h' = (calls + calls_made h)%nat /\
    tests_run h' = tests_run h + tests /\
    tests_passed h' + tests_failed h' = tests_passed h + tests_failed h + tests /\
    tests_passed h <= tests_passed h' /\
    tests_failed h <= tests_failed h'.

(** A statement after which the module is not initialised. *)
Definition ends_deinitialized (stmt : T unit) : Prop :=
  forall h, is_initialized (s_metrics (module (snd (stmt h)))) = false.

(** A test application started while the scheduler was wholly idle (the
    inputs of [idle_interval_state] and [idle_interval_env]). *)
Definition idle_interval_harness : harness :=
  {| module := {| s_metrics := idle_interval_state; events := [] |};
     calls_made := 0;
     tests_run := 2;
     tests_passed := 2;
     tests_failed := 0 |}.

(** A test function run on an initialised module: it returns a
    verdict, leaves the module initialised, counts a failure exactly
    when the verdict is [false], and, when [sure], always passes. *)
Definition session_test (sure : bool) (test : T unit) : Prop :=
  forall h,
    is_initialized (s_metrics (module h)) = true ->
    exists verdict h',
      test h = (inr verdict, h') /\
      is_initialized (s_metrics (module h')) = true /\
      tests_failed h' = tests_failed h + (if verdict then 0 else 1) /\
      (sure = true -> verdict = true).

(** A statement run on an initialised module: it goes on, leaves the
    module initialised and counts at most [failures] more failures. *)
Definition session_statement (failures : Z) (stmt : T unit) : Prop :=
  forall h,
    is_initialized (s_metrics (module h)) = true ->
    exists h',
      stmt h = (inl tt, h') /\
      is_initialized (s_metrics (module h')) = true /\
      tests_failed h <= tests_failed h' <= tests_failed h + failures.

(** A board whose sensor reports success without storing a reading,
    and on which the four bytes at a one-byte slot read as 31.5. *)
Definition silent_sensor_env : providers := {|
  esp_timer_get_time := 5000000;
  temp_sensor_config := ESP_OK;
  temp_sensor_start := ESP_OK;
  temp_sensor_read_celsius := (ESP_OK, None);
  esp_reset_reason := 1;
  uxTaskGetNumberOfTasks := 0;
  malloc := false;
  uxTaskGetSystemState := ([], None);
  esp_wifi_sta_get_ap_info :=
    (ESP_FAIL, {| primary := 0; second := WIFI_SECOND_CHAN_NONE; rssi := 0 |});
  esp_wifi_get_mode := (ESP_FAIL, WIFI_MODE_NULL);
  esp_wifi_sta_get_negotiated_phymode := (ESP_FAIL, WIFI_PHY_MODE_11B);
  esp_log_level_get := ESP_LOG_INFO;
  slot_bytes_as_float := celsius_31_5
|}.

(** A board on which every provider succeeds: sensor at 25 degrees,
    station associated at -60 dBm, one busy and one idle task. *)
Definition healthy_env : providers := {|
  esp_timer_get_time := 5000000;
  temp_sensor_config := ESP_OK;
  temp_sensor_start := ESP_OK;
  temp_sensor_read_celsius := (ESP_OK, Some celsius_25);
  esp_reset_reason := 1;
  uxTaskGetNumberOfTasks := 2;
  malloc := true;
  uxTaskGetSystemState := (two_tasks 700 300, Some 1000);
  esp_wifi_sta_get_ap_info := (ESP_OK, ap_record WIFI_SECOND_CHAN_NONE (-60));
  esp_wifi_get_mode := (ESP_OK, WIFI_MODE_STA);
  esp_wifi_sta_get_negotiated_phymode := (ESP_OK, WIFI_PHY_MODE_HT);
  esp_log_level_get := ESP_LOG_INFO;
  slot_bytes_as_float := F32.zero
|}.
(** ** Proof support *)

(** Expose the state-passing structure of a monadic computation. *)
Ltac unfold_monad :=
  unfold result, state_after, log_of, run, on_slot, read_celsius, esp_log,
         call, enter, bind, ret, get, modify, emit in *.

Lemma eqb_ESP_OK_false (e : esp_err_t) : e <> ESP_OK -> (e =? ESP_OK) = false.
Proof. intros H. apply Z.eqb_neq. exact H. Qed.

(** ** CPU usage estimator *)

Example find_idle_two_tasks : find_idle (two_tasks 700 300) = 700.
Proof. reflexivity. Qed.

Example find_idle_absent :
  find_idle [ {| pcTaskName := "main"; ulRunTimeCounter := 5 |} ] = 0.
Proof. reflexivity. Qed.

(** Half of the interval idle: 50 percent. *)
Example cpu_usage_half : cpu_usage 1000 500 2000 1000 = F32.of_Z 50.
Proof. vm_compute. reflexivity. Qed.

(** The total counter wrapped around between the two samples. *)
Example cpu_usage_wrapped :
  cpu_usage (2 ^ 32 - 100) 0 100 50 = F32.of_Z 75.
Proof. vm_compute. reflexivity. Qed.

(** What [ESP32Metrics_GetCpuUsage] does once the state is initialised
    and the output pointer is valid. *)
Lemma GetCpuUsage_run (env : providers) (s : ESP32Metrics_t) :
  is_initialized s = true ->
  run (ESP32Metrics_GetCpuUsage env Valid) s =
  if malloc env then
    ((ESP_OK,
      Some (cpu_usage (prev_total_run_time s) (prev_idle_time s)
                      (stored_total (snd (uxTaskGetSystemState env)))
                      (find_idle (fst (uxTaskGetSystemState env))))),
     {| s_metrics :=
          set_prev_idle_time (find_idle (fst (uxTaskGetSystemState env)))
            (set_prev_total_run_time (stored_total (snd (uxTaskGetSystemState env))) s);
        events := [Entered Op_GetCpuUsage; Called P_uxTaskGetNumberOfTasks;
                   Called P_malloc; Called P_uxTaskGetSystemState;
                   Called P_free] |})
  else
    ((ESP_ERR_NO_MEM, None),
     {| s_metrics := s;
        events := [Entered Op_GetCpuUsage; Called P_uxTaskGetNumberOfTasks;
                   Called P_malloc] |}).
Proof.
  intros Hinit. unfold ESP32Metrics_GetCpuUsage. unfold_monad. cbn.
  rewrite Hinit. cbn. destruct (malloc env); reflexivity.
Qed.

(** C9: in an initialised state without a prior sample
    ([prev_total_run_time = 0]), a call with a valid output pointer
    whose scratch allocation succeeds returns [ESP_OK], stores exactly
    [0.0f] in the output and makes the current snapshot the new
    baseline. *)
Theorem GetCpuUsage_first_sample (env : providers) (s : ESP32Metrics_t) :
  is_initialized s = true ->
  prev_total_run_time s = 0 ->
  malloc env = true ->
  result (ESP32Metrics_GetCpuUsage env Valid) s = (ESP_OK, Some F32.zero) /\
  prev_total_run_time (state_after (ESP32Metrics_GetCpuUsage env Valid) s)
    = stored_total (snd (uxTaskGetSystemState env)) /\
  prev_idle_time (state_after (ESP32Metrics_GetCpuUsage env Valid) s)
    = find_idle (fst (uxTaskGetSystemState env)).
Proof.
  intros Hinit Hprev Halloc.
  unfold result, state_after. rewrite (GetCpuUsage_run env s Hinit), Halloc.
  cbn [fst snd s_metrics]. rewrite Hprev.
  repeat split.
Qed.

Lemma GetCpuUsage_first_sample_witness :
  result (ESP32Metrics_GetCpuUsage (snapshot_env true (two_tasks 700 300) 1000) Valid)
         (sampled_state 0 0) = (ESP_OK, Some F32.zero) /\
  prev_total_run_time
    (state_after (ESP32Metrics_GetCpuUsage (snapshot_env true (two_tasks 700 300) 1000) Valid)
                 (sampled_state 0 0)) = 1000 /\
  prev_idle_time
    (state_after (ESP32Metrics_GetCpuUsage (snapshot_env true (two_tasks 700 300) 1000) Valid)
                 (sampled_state 0 0)) = 700.
Proof.
  apply (GetCpuUsage_first_sample (snapshot_env true (two_tasks 700 300) 1000)
                                  (sampled_state 0 0));
    reflexivity.
Defined.

(** C4: in an initialised state with a valid output pointer, a failed
    scratch allocation makes the call return [ESP_ERR_NO_MEM] with the
    whole record, hence the stored sample, unchanged and nothing stored
    in the output; on every other path the call returns [ESP_OK] and the
    stored sample is the current snapshot, whatever branch computed the
    usage. *)
Theorem GetCpuUsage_sample_update (env : providers) (s : ESP32Metrics_t) :
  is_initialized s = true ->
  let s' := state_after (ESP32Metrics_GetCpuUsage env Valid) s in
  let r := result (ESP32Metrics_GetCpuUsage env Valid) s in
  if malloc env then
    fst r = ESP_OK /\
    prev_total_run_time s' = stored_total (snd (uxTaskGetSystemState env)) /\
    prev_idle_time s' = find_idle (fst (uxTaskGetSystemState env))
  else
    r = (ESP_ERR_NO_MEM, None) /\ s' = s.
Proof.
  intros Hinit s' r. subst s' r.
  unfold result, state_after. rewrite (GetCpuUsage_run env s Hinit).
  destruct (malloc env); cbn; repeat split.
Qed.

Lemma GetCpuUsage_sample_update_witness :
  (result (ESP32Metrics_GetCpuUsage (snapshot_env false (two_tasks 700 300) 1000) Valid)
          (sampled_state 400 100) = (ESP_ERR_NO_MEM, None) /\
   state_after (ESP32Metrics_GetCpuUsage (snapshot_env false (two_tasks 700 300) 1000) Valid)
               (sampled_state 400 100) = sampled_state 400 100) /\
  (fst (result (ESP32Metrics_GetCpuUsage (snapshot_env true (two_tasks 700 300) 1000) Valid)
               (sampled_state 400 100)) = ESP_OK /\
   prev_total_run_time
     (state_after (ESP32Metrics_GetCpuUsage (snapshot_env true (two_tasks 700 300) 1000) Valid)
                  (sampled_state 400 100)) = 1000 /\
   prev_idle_time
     (state_after (ESP32Metrics_GetCpuUsage (snapshot_env true (two_tasks 700 300) 1000) Valid)
                  (sampled_state 400 100)) = 700).
Proof.
  split.
  - apply (GetCpuUsage_sample_update (snapshot_env false (two_tasks 700 300) 1000)
                                     (sampled_state 400 100)).
    reflexivity.
  - apply (GetCpuUsage_sample_update (snapshot_env true (two_tasks 700 300) 1000)
                                     (sampled_state 400 100)).
    reflexivity.
Defined.

(** The usage of the wholly idle interval: the product [671091 * 100]
    is a tie between two floats and rounds up to 67109104, the quotient
    by 671091 rounds to the float above 100, and the difference is
    [-2^-17]. *)
Example idle_interval_product :
  F32.mul (F32.of_Z 671091) (F32.of_Z 100) = F32.of_Z 67109104.
Proof. vm_compute. reflexivity. Qed.

Example idle_interval_quotient :
  F32.div (F32.of_Z 67109104) (F32.of_Z 671091) = S754_finite false 13107201 (-17).
Proof. vm_compute. reflexivity. Qed.

(** The same happens with the idle task strictly below the total:
    [idle_delta = 1753181346 < total_delta = 1753181373] convert to the
    same float. *)
Example cpu_usage_nearly_idle_negative :
  cpu_usage 1 0 1753181374 1753181346 = S754_finite true 8388608 (-40).
Proof. vm_compute. reflexivity. Qed.

(** C1: evaluation at a snapshot pair with [total_delta = idle_delta =
    671091], in an initialised state with a prior sample and a valid
    output pointer.  The deltas satisfy [0 < total_delta] and
    [0 <= idle_delta <= total_delta]; the call returns [ESP_OK] and
    stores [-2^-17], which is below [0.0f], outside [[0, 100]]. *)
Theorem GetCpuUsage_idle_interval_negative :
  is_initialized idle_interval_state = true /\
  0 < prev_total_run_time idle_interval_state /\
  0 < Int.sub32 (stored_total (snd (uxTaskGetSystemState idle_interval_env)))
                (prev_total_run_time idle_interval_state) /\
  0 <= Int.sub32 (find_idle (fst (uxTaskGetSystemState idle_interval_env)))
                 (prev_idle_time idle_interval_state)
    <= Int.sub32 (stored_total (snd (uxTaskGetSystemState idle_interval_env)))
                 (prev_total_run_time idle_interval_state) /\
  result (ESP32Metrics_GetCpuUsage idle_interval_env Valid) idle_interval_state
    = (ESP_OK, Some (S754_finite true 8388608 (-40))) /\
  F32.ltb (S754_finite true 8388608 (-40)) F32.zero = true /\
  F32.between F32.zero (F32.of_Z 100) (S754_finite true 8388608 (-40)) = false.
Proof.
  repeat split; try reflexivity; vm_compute; intros H; discriminate H.
Qed.

(** ** Lifecycle *)

Lemma Init_state (env : providers) (s : ESP32Metrics_t) :
  is_initialized s = false ->
  state_after (ESP32Metrics_Init env) s = initialised_from env s /\
  result (ESP32Metrics_Init env) s = ESP_OK.
Proof.
  intros Hinit. unfold ESP32Metrics_Init, update_reboot_reason, initialised_from.
  unfold_monad. cbn. rewrite Hinit.
  destruct (temp_sensor_config env =? ESP_OK); cbn;
    [destruct (temp_sensor_start env =? ESP_OK); cbn |];
    destruct (esp_reset_reason env =? ESP_RST_BROWNOUT); cbn; split; reflexivity.
Qed.

Lemma Init_idempotent (env : providers) (s : ESP32Metrics_t) :
  is_initialized s = true ->
  run (ESP32Metrics_Init env) s
  = (ESP_OK, {| s_metrics := s; events := [Entered Op_Init] |}).
Proof.
  intros Hinit. unfold ESP32Metrics_Init. unfold_monad. cbn. rewrite Hinit.
  reflexivity.
Qed.

Lemma Deinit_state (s : ESP32Metrics_t) :
  result ESP32Metrics_Deinit s = ESP_OK /\
  state_after ESP32Metrics_Deinit s
  = if is_initialized s
    then set_is_initialized false
           (if temp_sensor_enabled s then set_temp_sensor_enabled false s else s)
    else s.
Proof.
  unfold ESP32Metrics_Deinit. unfold_monad. cbn.
  destruct (is_initialized s); cbn; [destruct (temp_sensor_enabled s) |];
    split; reflexivity.
Qed.

Lemma Deinit_not_initialized (s : ESP32Metrics_t) :
  is_initialized (state_after ESP32Metrics_Deinit s) = false.
Proof.
  destruct (Deinit_state s) as [_ ->].
  destruct (is_initialized s) eqn:E; [destruct (temp_sensor_enabled s) | exact E];
    reflexivity.
Qed.

(** The computations below never look at the event log, so the state
    after a sequence is the state after its second part, started in the
    state after its first part. *)
Lemma Init_log_irrelevant (env : providers) (w : world) :
  s_metrics (snd (ESP32Metrics_Init env w))
  = state_after (ESP32Metrics_Init env) (s_metrics w) /\
  fst (ESP32Metrics_Init env w) = result (ESP32Metrics_Init env) (s_metrics w).
Proof.
  unfold ESP32Metrics_Init, update_reboot_reason. unfold_monad. cbn.
  destruct (is_initialized (s_metrics w)); cbn; [split; reflexivity |].
  destruct (temp_sensor_config env =? ESP_OK); cbn;
    [destruct (temp_sensor_start env =? ESP_OK); cbn |];
    destruct (esp_reset_reason env =? ESP_RST_BROWNOUT); cbn; split; reflexivity.
Qed.

Lemma Deinit_then_Init_state (env : providers) (s : ESP32Metrics_t) :
  state_after (ESP32Metrics_Deinit ;; ESP32Metrics_Init env) s
  = initialised_from env (state_after ESP32Metrics_Deinit s).
Proof.
  destruct (Init_state env (state_after ESP32Metrics_Deinit s)
                       (Deinit_not_initialized s)) as [<- _].
  unfold state_after at 1. unfold run, bind.
  destruct (ESP32Metrics_Deinit {| s_metrics := s; events := [] |}) as [r w] eqn:E.
  destruct (Init_log_irrelevant env w) as [-> _].
  replace (state_after ESP32Metrics_Deinit s) with (s_metrics w);
    [reflexivity | unfold state_after, run; rewrite E; reflexivity].
Qed.

(** The end-to-end scenario of the counters: [Init], three increments,
    [Deinit], [Init] after a power-on reset. *)
Example counter_scenario :
  let env := sensor_env ESP_OK ESP_OK (ESP_OK, Some celsius_25) 1 in
  result (ESP32Metrics_Init env ;; ESP32Metrics_GetErrorCount Valid) s_metrics_initial
    = (ESP_OK, Some 0) /\
  result (ESP32Metrics_Init env ;;
          ESP32Metrics_IncrementErrorCount ;;
          ESP32Metrics_IncrementErrorCount ;;
          ESP32Metrics_IncrementErrorCount ;;
          ESP32Metrics_GetErrorCount Valid) s_metrics_initial
    = (ESP_OK, Some 3) /\
  result (ESP32Metrics_Init env ;;
          ESP32Metrics_IncrementErrorCount ;;
          ESP32Metrics_IncrementErrorCount ;;
          ESP32Metrics_IncrementErrorCount ;;
          ESP32Metrics_Deinit ;;
          ESP32Metrics_Init env ;;
          ESP32Metrics_GetErrorCount Valid) s_metrics_initial
    = (ESP_OK, Some 0).
Proof. repeat split. Qed.

(** C2, as the code has it: after [Deinit(); Init()], from any state,
    [error_count] is 0 and [brownout_count] is 0 unless the reset cause
    read by [Init] is [ESP_RST_BROWNOUT], in which case it is 1; the
    next [GetErrorCount] returns [ESP_OK] with 0 and the next
    [GetBrownoutCount] returns [ESP_OK] with that count. *)
Theorem Deinit_Init_counters (env : providers) (s : ESP32Metrics_t) :
  let s' := state_after (ESP32Metrics_Deinit ;; ESP32Metrics_Init env) s in
  let b := if esp_reset_reason env =? ESP_RST_BROWNOUT then 1 else 0 in
  error_count s' = 0 /\
  brownout_count s' = b /\
  result (ESP32Metrics_GetErrorCount Valid) s' = (ESP_OK, Some 0) /\
  result (ESP32Metrics_GetBrownoutCount Valid) s' = (ESP_OK, Some b).
Proof.
  intros s' b. subst s' b. rewrite Deinit_then_Init_state.
  repeat split.
Qed.

(** C2, as stated, fails after a brownout: the state reached by a first
    [Init] is reachable, and [Deinit(); Init()] from it leaves
    [brownout_count = 1], which the next [GetBrownoutCount] returns. *)
Lemma Deinit_Init_brownout_count_is_one :
  reachable brownout_booted /\
  brownout_count
    (state_after (ESP32Metrics_Deinit ;; ESP32Metrics_Init brownout_env) brownout_booted)
    = 1 /\
  result (ESP32Metrics_GetBrownoutCount Valid)
    (state_after (ESP32Metrics_Deinit ;; ESP32Metrics_Init brownout_env) brownout_booted)
    = (ESP_OK, Some 1) /\
  ~ (error_count
       (state_after (ESP32Metrics_Deinit ;; ESP32Metrics_Init brownout_env) brownout_booted)
       = 0 /\
     brownout_count
       (state_after (ESP32Metrics_Deinit ;; ESP32Metrics_Init brownout_env) brownout_booted)
       = 0).
Proof.
  split; [| split; [| split]].
  - unfold brownout_booted. eapply reachable_step.
    + apply reachable_initial.
    + apply step_Init.
  - reflexivity.
  - reflexivity.
  - intros [_ H]. vm_compute in H. discriminate H.
Qed.

(** ** Temperature reader *)

Lemma Init_seeds_temperature (env : providers) (s : ESP32Metrics_t) (v : F32.t) :
  is_initialized s = false ->
  temp_sensor_config env = ESP_OK ->
  temp_sensor_start env = ESP_OK ->
  temp_sensor_read_celsius env = (ESP_OK, Some v) ->
  last_temperature (state_after (ESP32Metrics_Init env) s) = v /\
  temp_sensor_enabled (state_after (ESP32Metrics_Init env) s) = true.
Proof.
  intros Hinit Hc Hs Hr. destruct (Init_state env s Hinit) as [-> _].
  unfold initialised_from. cbn. rewrite Hc, Hs, Hr. split; reflexivity.
Qed.

Lemma Init_without_sensor (env : providers) (s : ESP32Metrics_t) :
  is_initialized s = false ->
  temp_sensor_config env <> ESP_OK \/ temp_sensor_start env <> ESP_OK ->
  last_temperature (state_after (ESP32Metrics_Init env) s) = F32.NAN /\
  temp_sensor_enabled (state_after (ESP32Metrics_Init env) s) = false.
Proof.
  intros Hinit H. destruct (Init_state env s Hinit) as [-> _].
  unfold initialised_from. cbn.
  destruct H as [H | H]; rewrite (eqb_ESP_OK_false _ H);
    rewrite ?andb_false_r; split; reflexivity.
Qed.

Lemma GetTemperature_disabled (env : providers) (s : ESP32Metrics_t) (old : F32.t) :
  is_initialized s = true ->
  temp_sensor_enabled s = false ->
  run (ESP32Metrics_GetTemperature env (Some old)) s
  = ((ESP_ERR_NOT_SUPPORTED, Some F32.NAN),
     {| s_metrics := s; events := [Entered Op_GetTemperature] |}).
Proof.
  intros Hinit Hen. unfold ESP32Metrics_GetTemperature. unfold_monad. cbn.
  rewrite Hinit, Hen. reflexivity.
Qed.

(** What [GetTemperature] does on a live read: in an initialised state
    with the sensor enabled and a valid output pointer, a read that
    fails makes it return the sensor's failure code, store the cached
    [last_temperature] in the output and leave the record unchanged; a
    read that succeeds makes it return [ESP_OK], with the value the
    read left in the output object stored into [last_temperature] and
    returned.  Whether the cached value is a past reading or NaN is up
    to the state the call starts in. *)
Theorem GetTemperature_live_read (env : providers) (s : ESP32Metrics_t) (old : F32.t) :
  is_initialized s = true ->
  temp_sensor_enabled s = true ->
  let e := fst (temp_sensor_read_celsius env) in
  let v := match snd (temp_sensor_read_celsius env) with
           | Some v => v
           | None => old
           end in
  let r := result (ESP32Metrics_GetTemperature env (Some old)) s in
  let s' := state_after (ESP32Metrics_GetTemperature env (Some old)) s in
  if e =? ESP_OK
  then r = (ESP_OK, Some v) /\ s' = set_last_temperature v s
  else r = (e, Some (last_temperature s)) /\ s' = s.
Proof.
  intros Hinit Hen e v r s'. subst e v r s'.
  unfold ESP32Metrics_GetTemperature. unfold_monad. cbn.
  rewrite Hinit, Hen. cbn.
  destruct (Z.eqb_spec (fst (temp_sensor_read_celsius env)) ESP_OK) as [E | E]; cbn.
  - rewrite E. split; reflexivity.
  - split; reflexivity.
Qed.

Lemma GetTemperature_live_read_witness :
  (result (ESP32Metrics_GetTemperature read_failure_env (Some F32.zero)) booted_state
     = (ESP_ERR_INVALID_STATE, Some celsius_25) /\
   state_after (ESP32Metrics_GetTemperature read_failure_env (Some F32.zero)) booted_state
     = booted_state) /\
  (result (ESP32Metrics_GetTemperature read_31_5_env (Some F32.zero)) booted_state
     = (ESP_OK, Some celsius_31_5) /\
   state_after (ESP32Metrics_GetTemperature read_31_5_env (Some F32.zero)) booted_state
     = set_last_temperature celsius_31_5 booted_state).
Proof.
  split.
  - apply (GetTemperature_live_read read_failure_env booted_state F32.zero);
      reflexivity.
  - apply (GetTemperature_live_read read_31_5_env booted_state F32.zero);
      reflexivity.
Defined.

(** The cache holds the last successful reading: a read of 31.5 degrees
    followed by a failing read hands 31.5 out again. *)
Example GetTemperature_failure_after_success :
  result (ESP32Metrics_GetTemperature read_31_5_env (Some F32.zero) ;;
          ESP32Metrics_GetTemperature read_failure_env (Some F32.zero))
         booted_state
  = (ESP_ERR_INVALID_STATE, Some celsius_31_5).
Proof. reflexivity. Qed.

(** C3: evaluation at a failing live read right after a first [Init]
    whose sensor started and whose seeding read failed.  The state is
    reachable, initialised, with the sensor enabled, and no sensor read
    has succeeded: the seeding read returned [ESP_FAIL] and the live
    read returns [ESP_ERR_INVALID_STATE].  [GetTemperature] returns that
    failure code and leaves the record unchanged, but the value it
    stores in the output is [0.0f], the zero fill of the static record:
    neither a value ever read from the sensor nor NaN. *)
Theorem GetTemperature_failure_hands_out_zero_fill :
  reachable seed_failure_state /\
  is_initialized seed_failure_state = true /\
  temp_sensor_enabled seed_failure_state = true /\
  temp_sensor_read_celsius seed_failure_env = (ESP_FAIL, None) /\
  temp_sensor_read_celsius read_failure_env = (ESP_ERR_INVALID_STATE, None) /\
  log_of (ESP32Metrics_Init seed_failure_env ;;
          ESP32Metrics_GetTemperature read_failure_env (Some celsius_25))
         s_metrics_initial
    = [Entered Op_Init; Called P_esp_timer_get_time; Called P_temp_sensor_config;
       Called P_temp_sensor_start; Called P_temp_sensor_read_celsius;
       Called P_esp_reset_reason; Called P_esp_log_write;
       Entered Op_GetTemperature; Called P_temp_sensor_read_celsius] /\
  run (ESP32Metrics_GetTemperature read_failure_env (Some celsius_25)) seed_failure_state
    = ((ESP_ERR_INVALID_STATE, Some F32.zero),
       {| s_metrics := seed_failure_state;
          events := [Entered Op_GetTemperature; Called P_temp_sensor_read_celsius] |}) /\
  F32.is_nan F32.zero = false /\
  F32.zero <> F32.NAN.
Proof.
  split.
  - unfold seed_failure_state. eapply reachable_step.
    + apply reachable_initial.
    + apply step_Init.
  - repeat split. intros H. discriminate H.
Qed.

(** C6: evaluation at a first [Init] whose sensor starts but whose
    seeding read fails.  The state is reachable, initialised, with the
    sensor enabled; the only sensor read so far has failed, yet
    [last_temperature] is [0.0f], the zero fill of the static record,
    not NaN; a later failing [GetTemperature] hands that [0.0f] out. *)
Theorem Init_seed_failure_keeps_zero_fill :
  reachable seed_failure_state /\
  is_initialized seed_failure_state = true /\
  temp_sensor_enabled seed_failure_state = true /\
  fst (temp_sensor_read_celsius seed_failure_env) = ESP_FAIL /\
  log_of (ESP32Metrics_Init seed_failure_env) s_metrics_initial
    = [Entered Op_Init; Called P_esp_timer_get_time; Called P_temp_sensor_config;
       Called P_temp_sensor_start; Called P_temp_sensor_read_celsius;
       Called P_esp_reset_reason; Called P_esp_log_write] /\
  last_temperature seed_failure_state = F32.zero /\
  F32.is_nan (last_temperature seed_failure_state) = false /\
  result (ESP32Metrics_GetTemperature read_failure_env (Some celsius_25))
         seed_failure_state
    = (ESP_ERR_INVALID_STATE, Some F32.zero).
Proof.
  split.
  - unfold seed_failure_state. eapply reachable_step.
    + apply reachable_initial.
    + apply step_Init.
  - repeat split.
Qed.

(** ** Wireless estimator *)

Example nominal_rate_long_range :
  nominal_rate WIFI_PHY_MODE_LR WIFI_SECOND_CHAN_NONE = F32.half.
Proof. reflexivity. Qed.

Example nominal_rate_vht_40 :
  nominal_rate WIFI_PHY_MODE_VHT WIFI_SECOND_CHAN_ABOVE = F32.of_Z 200.
Proof. reflexivity. Qed.

(** A strong signal leaves the nominal rate as it is. *)
Example rate_strong_signal :
  derate (F32.of_Z 72) (signal_factor (-60)) = F32.of_Z 72.
Proof. vm_compute. reflexivity. Qed.

(** At -110 dBm the factor is 1 - 20/40 = 0.5. *)
Example rate_weak_signal :
  derate (F32.of_Z 200) (signal_factor (-110)) = F32.of_Z 100.
Proof. vm_compute. reflexivity. Qed.

(** Below -110 dBm the factor is floored at 0.5. *)
Example rate_floor :
  derate (F32.of_Z 200) (signal_factor (-128)) = F32.of_Z 100.
Proof. vm_compute. reflexivity. Qed.

Lemma GetWifiDataRate_run (env : providers) (s : ESP32Metrics_t) :
  is_initialized s = true ->
  run (ESP32Metrics_GetWifiDataRate env Valid) s =
  if fst (esp_wifi_sta_get_ap_info env) =? ESP_OK then
    ((ESP_OK,
      Some (derate (nominal_rate (snd (esp_wifi_sta_get_negotiated_phymode env))
                                 (second (snd (esp_wifi_sta_get_ap_info env))))
                   (signal_factor (rssi (snd (esp_wifi_sta_get_ap_info env)))))),
     {| s_metrics := s;
        events := [Entered Op_GetWifiDataRate; Called P_esp_wifi_sta_get_ap_info;
                   Called P_esp_wifi_sta_get_negotiated_phymode] |})
  else
    ((fst (esp_wifi_sta_get_ap_info env), Some F32.zero),
     {| s_metrics := s;
        events := [Entered Op_GetWifiDataRate; Called P_esp_wifi_sta_get_ap_info] |}).
Proof.
  intros Hinit. unfold ESP32Metrics_GetWifiDataRate. unfold_monad. cbn.
  rewrite Hinit. cbn.
  destruct (fst (esp_wifi_sta_get_ap_info env) =? ESP_OK); reflexivity.
Qed.

(** A failed access-point record query is propagated, with [0.0f] in the
    output. *)
Lemma GetWifiDataRate_record_failure (env : providers) (s : ESP32Metrics_t) :
  is_initialized s = true ->
  fst (esp_wifi_sta_get_ap_info env) <> ESP_OK ->
  result (ESP32Metrics_GetWifiDataRate env Valid) s
  = (fst (esp_wifi_sta_get_ap_info env), Some F32.zero).
Proof.
  intros Hinit Hap. unfold result. rewrite (GetWifiDataRate_run env s Hinit).
  rewrite (eqb_ESP_OK_false _ Hap). reflexivity.
Qed.

(** When the record query succeeds the rate is the nominal rate of the
    PHY mode held by the local variable, derated by the signal factor. *)
Lemma GetWifiDataRate_record_ok (env : providers) (s : ESP32Metrics_t) :
  is_initialized s = true ->
  fst (esp_wifi_sta_get_ap_info env) = ESP_OK ->
  result (ESP32Metrics_GetWifiDataRate env Valid) s
  = (ESP_OK,
     Some (derate (nominal_rate (snd (esp_wifi_sta_get_negotiated_phymode env))
                                (second (snd (esp_wifi_sta_get_ap_info env))))
                  (signal_factor (rssi (snd (esp_wifi_sta_get_ap_info env)))))).
Proof.
  intros Hinit Hap. unfold result. rewrite (GetWifiDataRate_run env s Hinit).
  rewrite Hap. reflexivity.
Qed.

(** C5: evaluation at a call, initialised and with a valid output
    pointer, whose access-point record query succeeds and whose PHY-mode
    query fails with [ESP_FAIL].  Whatever the local [phy_mode] then
    holds, the call returns [ESP_OK], not the failure, and the output is
    the rate computed from that stale mode, not [0.0f]. *)
Theorem GetWifiDataRate_phymode_failure_ignored (stale : wifi_phy_mode_t) :
  fst (esp_wifi_sta_get_negotiated_phymode (phymode_failure_env stale)) = ESP_FAIL /\
  result (ESP32Metrics_GetWifiDataRate (phymode_failure_env stale) Valid) booted_state
    = (ESP_OK, Some (nominal_rate stale WIFI_SECOND_CHAN_NONE)) /\
  nominal_rate stale WIFI_SECOND_CHAN_NONE <> F32.zero.
Proof.
  split; [reflexivity | split].
  - unfold result.
    rewrite (GetWifiDataRate_run (phymode_failure_env stale) booted_state eq_refl).
    cbn [phymode_failure_env wifi_env esp_wifi_sta_get_ap_info
         esp_wifi_sta_get_negotiated_phymode fst snd]. 
    destruct stale; vm_compute; reflexivity.
  - destruct stale; vm_compute; intros H; discriminate H.
Qed.

Lemma GetWifiStatus_run (env : providers) (s : ESP32Metrics_t) :
  is_initialized s = true ->
  fst (esp_wifi_get_mode env) = ESP_OK ->
  result (ESP32Metrics_GetWifiStatus env Valid) s
  = (ESP_OK,
     Some (classify_status (snd (esp_wifi_get_mode env))
                           (fst (esp_wifi_sta_get_ap_info env)))) /\
  state_after (ESP32Metrics_GetWifiStatus env Valid) s = s.
Proof.
  intros Hinit Hmode. unfold ESP32Metrics_GetWifiStatus, classify_status.
  unfold_monad. cbn. rewrite Hinit, Hmode. cbn.
  destruct (snd (esp_wifi_get_mode env)); cbn;
    try (split; reflexivity);
    destruct (fst (esp_wifi_sta_get_ap_info env) =? ESP_OK); cbn;
    try (split; reflexivity);
    destruct (fst (esp_wifi_sta_get_ap_info env) =? ESP_ERR_WIFI_NOT_CONNECT);
    split; reflexivity.
Qed.

(** C10: in an initialised state with a valid output pointer, when the
    radio-mode query succeeds [GetWifiStatus] returns [ESP_OK] whatever
    the access-point record query answers and leaves the record
    unchanged; a failure [e] of the record query (made in every mode but
    [WIFI_MODE_NULL] and [WIFI_MODE_AP]) only selects the status stored:
    disconnected for [ESP_ERR_WIFI_NOT_CONNECT], not-initialised for any
    other failure. *)
Theorem GetWifiStatus_record_failure_not_propagated
        (env : providers) (s : ESP32Metrics_t) :
  is_initialized s = true ->
  fst (esp_wifi_get_mode env) = ESP_OK ->
  let mode := snd (esp_wifi_get_mode env) in
  let e := fst (esp_wifi_sta_get_ap_info env) in
  let r := result (ESP32Metrics_GetWifiStatus env Valid) s in
  fst r = ESP_OK /\
  state_after (ESP32Metrics_GetWifiStatus env Valid) s = s /\
  snd r = Some
    match mode with
    | WIFI_MODE_NULL | WIFI_MODE_AP => ESP32_WIFI_DISCONNECTED
    | _ =>
        if e =? ESP_OK then ESP32_WIFI_CONNECTED
        else if e =? ESP_ERR_WIFI_NOT_CONNECT then ESP32_WIFI_DISCONNECTED
        else ESP32_WIFI_NOT_INITIALIZED
    end.
Proof.
  intros Hinit Hmode mode e r. subst mode e r.
  destruct (GetWifiStatus_run env s Hinit Hmode) as [-> ->].
  repeat split.
Qed.

Lemma GetWifiStatus_record_failure_not_propagated_witness :
  (result (ESP32Metrics_GetWifiStatus not_connected_env Valid) booted_state
     = (ESP_OK, Some ESP32_WIFI_DISCONNECTED)) /\
  (result (ESP32Metrics_GetWifiStatus record_failure_env Valid) booted_state
     = (ESP_OK, Some ESP32_WIFI_NOT_INITIALIZED)) /\
  (result (ESP32Metrics_GetWifiStatus
             (connected_env WIFI_PHY_MODE_HT WIFI_SECOND_CHAN_NONE (-60)) Valid)
          booted_state
     = (ESP_OK, Some ESP32_WIFI_CONNECTED)).
Proof.
  pose proof (GetWifiStatus_record_failure_not_propagated
                not_connected_env booted_state eq_refl eq_refl) as H1.
  pose proof (GetWifiStatus_record_failure_not_propagated
                record_failure_env booted_state eq_refl eq_refl) as H2.
  pose proof (GetWifiStatus_record_failure_not_propagated
                (connected_env WIFI_PHY_MODE_HT WIFI_SECOND_CHAN_NONE (-60))
                booted_state eq_refl eq_refl) as H3.
  cbv zeta in H1, H2, H3.
  destruct H1 as (A1 & _ & B1), H2 as (A2 & _ & B2), H3 as (A3 & _ & B3).
  repeat split; apply injective_projections; first [exact A1 | exact B1 | exact A2 | exact B2 | exact A3 | exact B3].
Defined.

(** ** Dispatch and the initialisation guard *)

(** The test suite's invalid metric type. *)
Example metric_of_int_99 : metric_of_int 99 = None.
Proof. reflexivity. Qed.

Example metric_of_int_negative : metric_of_int (-1) = None.
Proof. reflexivity. Qed.

(** Dispatch of a metric inside the enumeration enters the getter and
    stores its result in the slot. *)
Example GetMetric_error_count :
  run (ESP32Metrics_GetMetric (sensor_env ESP_OK ESP_OK (ESP_OK, Some celsius_25) 1)
                              9 (Some (Slot_uint32 77)))
      booted_state
  = ((ESP_OK, Some (Slot_uint32 0)),
     {| s_metrics := booted_state;
        events := [Entered Op_GetMetric; Entered Op_GetErrorCount] |}).
Proof. reflexivity. Qed.

(** C7: in an initialised state, [GetMetric] on a non-null slot with a
    type outside the metric enumeration returns [ESP_ERR_INVALID_ARG],
    stores nothing in the slot, leaves the record unchanged, and its
    event log holds only its own entry: no getter was entered and no
    provider was called. *)
Theorem GetMetric_unknown_type
        (env : providers) (s : ESP32Metrics_t) (type : Z) (old : slot) :
  is_initialized s = true ->
  metric_of_int type = None ->
  result (ESP32Metrics_GetMetric env type (Some old)) s = (ESP_ERR_INVALID_ARG, None) /\
  state_after (ESP32Metrics_GetMetric env type (Some old)) s = s /\
  log_of (ESP32Metrics_GetMetric env type (Some old)) s = [Entered Op_GetMetric].
Proof.
  intros Hinit Htype. unfold ESP32Metrics_GetMetric. unfold_monad. cbn.
  rewrite Hinit, Htype. cbn. repeat split.
Qed.

Lemma GetMetric_unknown_type_witness :
  result (ESP32Metrics_GetMetric read_31_5_env 99 (Some (Slot_uint64 0))) booted_state
    = (ESP_ERR_INVALID_ARG, None) /\
  state_after (ESP32Metrics_GetMetric read_31_5_env 99 (Some (Slot_uint64 0))) booted_state
    = booted_state /\
  log_of (ESP32Metrics_GetMetric read_31_5_env 99 (Some (Slot_uint64 0))) booted_state
    = [Entered Op_GetMetric].
Proof.
  apply (GetMetric_unknown_type read_31_5_env booted_state 99 (Slot_uint64 0));
    reflexivity.
Defined.

(** C8: while [is_initialized] is false, each of the twelve operations
    returns [ESP_ERR_INVALID_STATE] for every argument, a null output
    pointer included: the initialisation check comes before the pointer
    check, and the code returned is not [ESP_ERR_INVALID_ARG]. *)
Theorem not_initialized_is_invalid_state (env : providers) (s : ESP32Metrics_t) :
  is_initialized s = false ->
  (forall p, fst (result (ESP32Metrics_GetCpuUsage env p) s) = ESP_ERR_INVALID_STATE) /\
  (forall p, fst (result (ESP32Metrics_GetUptime env p) s) = ESP_ERR_INVALID_STATE) /\
  (forall p, fst (result (ESP32Metrics_GetWifiSignal env p) s) = ESP_ERR_INVALID_STATE) /\
  (forall p, fst (result (ESP32Metrics_GetWifiStatus env p) s) = ESP_ERR_INVALID_STATE) /\
  (forall p, fst (result (ESP32Metrics_GetWifiDataRate env p) s) = ESP_ERR_INVALID_STATE) /\
  (forall p, fst (result (ESP32Metrics_GetTemperature env p) s) = ESP_ERR_INVALID_STATE) /\
  (forall p, fst (result (ESP32Metrics_GetBrownoutCount p) s) = ESP_ERR_INVALID_STATE) /\
  (forall p, fst (result (ESP32Metrics_GetErrorCount p) s) = ESP_ERR_INVALID_STATE) /\
  result ESP32Metrics_IncrementErrorCount s = ESP_ERR_INVALID_STATE /\
  (forall p, fst (result (ESP32Metrics_GetRebootReason p) s) = ESP_ERR_INVALID_STATE) /\
  (forall p, fst (result (ESP32Metrics_GetLogLevel env p) s) = ESP_ERR_INVALID_STATE) /\
  (forall t p, fst (result (ESP32Metrics_GetMetric env t p) s) = ESP_ERR_INVALID_STATE) /\
  ESP_ERR_INVALID_STATE <> ESP_ERR_INVALID_ARG.
Proof.
  intros Hinit.
  unfold ESP32Metrics_GetCpuUsage, ESP32Metrics_GetUptime, ESP32Metrics_GetWifiSignal,
         ESP32Metrics_GetWifiStatus, ESP32Metrics_GetWifiDataRate,
         ESP32Metrics_GetTemperature, ESP32Metrics_GetBrownoutCount,
         ESP32Metrics_GetErrorCount, ESP32Metrics_IncrementErrorCount,
         ESP32Metrics_GetRebootReason, ESP32Metrics_GetLogLevel,
         ESP32Metrics_GetMetric.
  unfold_monad. cbn. rewrite Hinit. cbn.
  repeat split. intros H. discriminate H.
Qed.

Lemma not_initialized_is_invalid_state_witness :
  fst (result (ESP32Metrics_GetCpuUsage read_31_5_env NULL) s_metrics_initial)
    = ESP_ERR_INVALID_STATE /\
  fst (result (ESP32Metrics_GetTemperature read_31_5_env None) s_metrics_initial)
    = ESP_ERR_INVALID_STATE /\
  result ESP32Metrics_IncrementErrorCount s_metrics_initial = ESP_ERR_INVALID_STATE /\
  fst (result (ESP32Metrics_GetMetric read_31_5_env 0 None) s_metrics_initial)
    = ESP_ERR_INVALID_STATE.
Proof.
  destruct (not_initialized_is_invalid_state read_31_5_env s_metrics_initial eq_refl)
    as (H1 & _ & _ & _ & _ & H6 & _ & _ & H9 & _ & _ & H12 & _).
  exact (conj (H1 NULL) (conj (H6 None) (conj H9 (H12 0 None)))).
Defined.

(** ** Sequences of calls *)

Lemma framed_ret {A} (a : A) : framed (ret a).
Proof. intros w. unfold_monad. cbn. rewrite app_nil_r. destruct w; reflexivity. Qed.

Lemma framed_get : framed get.
Proof. intros w. unfold_monad. cbn. rewrite app_nil_r. destruct w; reflexivity. Qed.

Lemma framed_modify (f : ESP32Metrics_t -> ESP32Metrics_t) : framed (modify f).
Proof. intros w. unfold_monad. cbn. rewrite app_nil_r. reflexivity. Qed.

Lemma framed_emit (e : event) : framed (emit e).
Proof. intros w. unfold_monad. cbn. reflexivity. Qed.

Lemma framed_bind {A B} (m : M A) (k : A -> M B) :
  framed m -> (forall a, framed (k a)) -> framed (bind m k).
Proof.
  intros Hm Hk w. unfold result, state_after, log_of, run, bind.
  rewrite (Hm w), (Hm {| s_metrics := s_metrics w; events := [] |}).
  cbn [s_metrics events app].
  set (a := result m (s_metrics w)).
  set (s1 := state_after m (s_metrics w)).
  set (l1 := log_of m (s_metrics w)).
  rewrite (Hk a {| s_metrics := s1; events := events w ++ l1 |}).
  rewrite (Hk a {| s_metrics := s1; events := l1 |}).
  cbn [s_metrics events fst snd]. rewrite app_assoc. reflexivity.
Qed.

Lemma framed_call {A} (p : provider_id) (a : A) : framed (call p a).
Proof. unfold call. apply framed_bind; intros; [apply framed_emit | apply framed_ret]. Qed.

Lemma framed_enter (o : operation_id) : framed (enter o).
Proof. apply framed_emit. Qed.

Lemma framed_esp_log : framed esp_log.
Proof. apply framed_call. Qed.

(** Decompose a computation into framed pieces, splitting on the
    conditions it branches on. *)
Ltac framed_step :=
  match goal with
  | |- framed (bind _ _) => apply framed_bind; [| intros]
  | |- framed (ret _) => apply framed_ret
  | |- framed get => apply framed_get
  | |- framed (modify _) => apply framed_modify
  | |- framed (emit _) => apply framed_emit
  | |- framed (call _ _) => apply framed_call
  | |- framed (enter _) => apply framed_enter
  | |- framed esp_log => apply framed_esp_log
  | |- framed (if ?c then _ else _) => destruct c
  | |- framed (match ?x with _ => _ end) => destruct x
  end.

Ltac framed_tac := repeat framed_step.

Lemma framed_Init env : framed (ESP32Metrics_Init env).
Proof. unfold ESP32Metrics_Init, update_reboot_reason, read_celsius. framed_tac. Qed.

Lemma framed_Deinit : framed ESP32Metrics_Deinit.
Proof. unfold ESP32Metrics_Deinit. framed_tac. Qed.

Lemma framed_GetCpuUsage env p : framed (ESP32Metrics_GetCpuUsage env p).
Proof. unfold ESP32Metrics_GetCpuUsage. framed_tac. Qed.

Lemma framed_GetUptime env p : framed (ESP32Metrics_GetUptime env p).
Proof. unfold ESP32Metrics_GetUptime. framed_tac. Qed.

Lemma framed_GetWifiSignal env p : framed (ESP32Metrics_GetWifiSignal env p).
Proof. unfold ESP32Metrics_GetWifiSignal. framed_tac. Qed.

Lemma framed_GetWifiStatus env p : framed (ESP32Metrics_GetWifiStatus env p).
Proof. unfold ESP32Metrics_GetWifiStatus. framed_tac. Qed.

Lemma framed_GetTemperature env p : framed (ESP32Metrics_GetTemperature env p).
Proof. unfold ESP32Metrics_GetTemperature, read_celsius. framed_tac. Qed.

Lemma framed_GetBrownoutCount p : framed (ESP32Metrics_GetBrownoutCount p).
Proof. unfold ESP32Metrics_GetBrownoutCount. framed_tac. Qed.

Lemma framed_GetRebootReason p : framed (ESP32Metrics_GetRebootReason p).
Proof. unfold ESP32Metrics_GetRebootReason. framed_tac. Qed.

Lemma framed_GetWifiDataRate env p : framed (ESP32Metrics_GetWifiDataRate env p).
Proof. unfold ESP32Metrics_GetWifiDataRate. framed_tac. Qed.

Lemma framed_GetLogLevel env p : framed (ESP32Metrics_GetLogLevel env p).
Proof. unfold ESP32Metrics_GetLogLevel. framed_tac. Qed.

Lemma framed_GetErrorCount p : framed (ESP32Metrics_GetErrorCount p).
Proof. unfold ESP32Metrics_GetErrorCount. framed_tac. Qed.

Lemma framed_IncrementErrorCount : framed ESP32Metrics_IncrementErrorCount.
Proof. unfold ESP32Metrics_IncrementErrorCount. framed_tac. Qed.

Lemma framed_on_slot {A} (tag : A -> slot) (g : M (esp_err_t * option A)) :
  framed g -> framed (on_slot tag g).
Proof. intros H. unfold on_slot. framed_tac. exact H. Qed.

Lemma framed_GetMetric env t p : framed (ESP32Metrics_GetMetric env t p).
Proof.
  unfold ESP32Metrics_GetMetric.
  apply framed_bind; [apply framed_enter | intros _].
  apply framed_bind; [apply framed_get | intros s].
  destruct (negb (is_initialized s)); [apply framed_ret |].
  destruct p as [old |]; [| apply framed_ret].
  destruct (metric_of_int t) as [[] |]; try apply framed_ret;
    apply framed_on_slot;
    first [ apply framed_GetCpuUsage | apply framed_GetUptime
          | apply framed_GetWifiSignal | apply framed_GetWifiStatus
          | apply framed_GetTemperature | apply framed_GetBrownoutCount
          | apply framed_GetRebootReason | apply framed_GetWifiDataRate
          | apply framed_GetLogLevel | apply framed_GetErrorCount ].
Qed.

(** The three projections of a sequence [m ;; k] of framed
    computations. *)
Lemma seq_state {A B} (m : M A) (k : A -> M B) (s : ESP32Metrics_t) :
  framed m -> (forall a, framed (k a)) ->
  state_after (bind m k) s = state_after (k (result m s)) (state_after m s).
Proof.
  intros Hm Hk. unfold state_after at 1. unfold run, bind.
  rewrite (Hm {| s_metrics := s; events := [] |}). cbn [s_metrics events app].
  rewrite (Hk (result m s) {| s_metrics := state_after m s; events := log_of m s |}).
  reflexivity.
Qed.

Lemma seq_result {A B} (m : M A) (k : A -> M B) (s : ESP32Metrics_t) :
  framed m -> (forall a, framed (k a)) ->
  result (bind m k) s = result (k (result m s)) (state_after m s).
Proof.
  intros Hm Hk. unfold result at 1. unfold run, bind.
  rewrite (Hm {| s_metrics := s; events := [] |}). cbn [s_metrics events app].
  rewrite (Hk (result m s) {| s_metrics := state_after m s; events := log_of m s |}).
  reflexivity.
Qed.

Lemma seq_log {A B} (m : M A) (k : A -> M B) (s : ESP32Metrics_t) :
  framed m -> (forall a, framed (k a)) ->
  log_of (bind m k) s = log_of m s ++ log_of (k (result m s)) (state_after m s).
Proof.
  intros Hm Hk. unfold log_of at 1. unfold run, bind.
  rewrite (Hm {| s_metrics := s; events := [] |}). cbn [s_metrics events app].
  rewrite (Hk (result m s) {| s_metrics := state_after m s; events := log_of m s |}).
  reflexivity.
Qed.

(** ** What a call can change *)

Arguments Int.wrap64 : simpl never.
Arguments Int.wrap32 : simpl never.
Arguments Int.incr32 : simpl never.
Arguments cpu_usage : simpl never.
Arguments derate : simpl never.
Arguments signal_factor : simpl never.
Arguments nominal_rate : simpl never.

Lemma GetCpuUsage_effect env p s :
  getter_effect s (state_after (ESP32Metrics_GetCpuUsage env p) s).
Proof.
  unfold ESP32Metrics_GetCpuUsage. unfold_monad. cbn.
  destruct (is_initialized s) eqn:Hinit; cbn; [| apply effect_none].
  destruct p; cbn; [apply effect_none |].
  destruct (malloc env); cbn; [| apply effect_none].
  apply effect_sample. exact Hinit.
Qed.

Lemma GetUptime_effect env p s :
  getter_effect s (state_after (ESP32Metrics_GetUptime env p) s).
Proof.
  unfold ESP32Metrics_GetUptime. unfold_monad. cbn.
  destruct (is_initialized s) eqn:Hinit; cbn; [| apply effect_none].
  destruct p; cbn; [apply effect_none |].
  apply effect_uptime. exact Hinit.
Qed.

Lemma GetWifiSignal_effect env p s :
  state_after (ESP32Metrics_GetWifiSignal env p) s = s.
Proof.
  unfold ESP32Metrics_GetWifiSignal. unfold_monad. cbn.
  destruct (is_initialized s); cbn; [| reflexivity].
  destruct p; cbn; [reflexivity |].
  destruct (fst (esp_wifi_sta_get_ap_info env) =? ESP_OK); reflexivity.
Qed.

Lemma GetWifiStatus_effect env p s :
  state_after (ESP32Metrics_GetWifiStatus env p) s = s.
Proof.
  unfold ESP32Metrics_GetWifiStatus. unfold_monad. cbn.
  destruct (is_initialized s); cbn; [| reflexivity].
  destruct p; cbn; [reflexivity |].
  destruct (fst (esp_wifi_get_mode env) =? ESP_OK); cbn; [| reflexivity].
  destruct (snd (esp_wifi_get_mode env)); cbn; try reflexivity;
    destruct (fst (esp_wifi_sta_get_ap_info env) =? ESP_OK); cbn; try reflexivity;
    destruct (fst (esp_wifi_sta_get_ap_info env) =? ESP_ERR_WIFI_NOT_CONNECT);
    reflexivity.
Qed.

Lemma GetTemperature_effect env p s :
  getter_effect s (state_after (ESP32Metrics_GetTemperature env p) s).
Proof.
  unfold ESP32Metrics_GetTemperature. unfold_monad. cbn.
  destruct (is_initialized s) eqn:Hinit; cbn; [| apply effect_none].
  destruct p; cbn; [| apply effect_none].
  destruct (temp_sensor_enabled s) eqn:Hen; cbn; [| apply effect_none].
  destruct (fst (temp_sensor_read_celsius env) =? ESP_OK); cbn;
    [apply effect_temperature; assumption | apply effect_none].
Qed.

Lemma GetBrownoutCount_effect p s :
  state_after (ESP32Metrics_GetBrownoutCount p) s = s.
Proof.
  unfold ESP32Metrics_GetBrownoutCount. unfold_monad. cbn.
  destruct (is_initialized s); cbn; [| reflexivity]. destruct p; reflexivity.
Qed.

Lemma GetRebootReason_effect p s :
  state_after (ESP32Metrics_GetRebootReason p) s = s.
Proof.
  unfold ESP32Metrics_GetRebootReason. unfold_monad. cbn.
  destruct (is_initialized s); cbn; [| reflexivity]. destruct p; reflexivity.
Qed.

Lemma GetWifiDataRate_effect env p s :
  state_after (ESP32Metrics_GetWifiDataRate env p) s = s.
Proof.
  unfold ESP32Metrics_GetWifiDataRate. unfold_monad. cbn.
  destruct (is_initialized s); cbn; [| reflexivity].
  destruct p; cbn; [reflexivity |].
  destruct (fst (esp_wifi_sta_get_ap_info env) =? ESP_OK); reflexivity.
Qed.

Lemma GetLogLevel_effect env p s :
  state_after (ESP32Metrics_GetLogLevel env p) s = s.
Proof.
  unfold ESP32Metrics_GetLogLevel. unfold_monad. cbn.
  destruct (is_initialized s); cbn; [| reflexivity]. destruct p; reflexivity.
Qed.

Lemma GetErrorCount_effect p s :
  state_after (ESP32Metrics_GetErrorCount p) s = s.
Proof.
  unfold ESP32Metrics_GetErrorCount. unfold_monad. cbn.
  destruct (is_initialized s); cbn; [| reflexivity]. destruct p; reflexivity.
Qed.

Lemma IncrementErrorCount_effect s :
  getter_effect s (state_after ESP32Metrics_IncrementErrorCount s).
Proof.
  unfold ESP32Metrics_IncrementErrorCount. unfold_monad. cbn.
  destruct (is_initialized s) eqn:Hinit; cbn;
    [apply effect_error; exact Hinit | apply effect_none].
Qed.

Lemma on_slot_state {A} (tag : A -> slot) (g : M (esp_err_t * option A)) s :
  framed g -> state_after (on_slot tag g) s = state_after g s.
Proof.
  intros Hg. unfold on_slot. rewrite seq_state; [reflexivity | exact Hg |].
  intros a. apply framed_ret.
Qed.

Lemma GetMetric_state env t p s :
  state_after (ESP32Metrics_GetMetric env t p) s =
  if is_initialized s then
    match p, metric_of_int t with
    | Some old, Some ESP32_METRIC_CPU_USAGE =>
        state_after (ESP32Metrics_GetCpuUsage env Valid) s
    | Some old, Some ESP32_METRIC_UPTIME =>
        state_after (ESP32Metrics_GetUptime env Valid) s
    | Some old, Some ESP32_METRIC_TEMPERATURE =>
        state_after (ESP32Metrics_GetTemperature env (Some (slot_float env old))) s
    | _, _ => s
    end
  else s.
Proof.
  unfold ESP32Metrics_GetMetric.
  rewrite seq_state; [| apply framed_enter | intros; framed_tac; apply framed_on_slot;
    first [ apply framed_GetCpuUsage | apply framed_GetUptime
          | apply framed_GetWifiSignal | apply framed_GetWifiStatus
          | apply framed_GetTemperature | apply framed_GetBrownoutCount
          | apply framed_GetRebootReason | apply framed_GetWifiDataRate
          | apply framed_GetLogLevel | apply framed_GetErrorCount ]].
  change (state_after (enter Op_GetMetric) s) with s.
  rewrite seq_state; [| apply framed_get | intros; framed_tac; apply framed_on_slot;
    first [ apply framed_GetCpuUsage | apply framed_GetUptime
          | apply framed_GetWifiSignal | apply framed_GetWifiStatus
          | apply framed_GetTemperature | apply framed_GetBrownoutCount
          | apply framed_GetRebootReason | apply framed_GetWifiDataRate
          | apply framed_GetLogLevel | apply framed_GetErrorCount ]].
  change (state_after get s) with s. change (result get s) with s.
  destruct (is_initialized s) eqn:Hinit; cbn [negb]; [| reflexivity].
  destruct p as [old |]; [| reflexivity].
  destruct (metric_of_int t) as [[] |]; try reflexivity;
    rewrite on_slot_state;
    auto using framed_GetCpuUsage, framed_GetUptime, framed_GetWifiSignal,
      framed_GetWifiStatus, framed_GetTemperature, framed_GetBrownoutCount,
      framed_GetRebootReason, framed_GetWifiDataRate, framed_GetLogLevel,
      framed_GetErrorCount,
      GetWifiSignal_effect, GetWifiStatus_effect, GetBrownoutCount_effect,
      GetRebootReason_effect, GetWifiDataRate_effect, GetLogLevel_effect,
      GetErrorCount_effect.
Qed.

Lemma GetMetric_effect env t p s :
  getter_effect s (state_after (ESP32Metrics_GetMetric env t p) s).
Proof.
  rewrite GetMetric_state.
  destruct (is_initialized s); [| apply effect_none].
  destruct p as [old |]; [| apply effect_none].
  destruct (metric_of_int t) as [[] |];
    first [ apply GetCpuUsage_effect | apply GetUptime_effect
          | apply GetTemperature_effect | apply effect_none ].
Qed.

(** The temperature arm of [GetMetric] on a slot that does not hold a
    float, when the sensor reports success without storing a reading:
    what the bytes of the slot read as through the float pointer is
    handed out and cached.  A [uint32_t] or [uint64_t] slot whose 32
    low-order bits are 0x41FC0000 reads as 31.5. *)
Example GetMetric_temperature_reinterprets_slot :
  F32.of_bits 1107034112 = celsius_31_5 /\
  temp_sensor_read_celsius silent_sensor_env = (ESP_OK, None) /\
  result (ESP32Metrics_GetMetric silent_sensor_env 4 (Some (Slot_uint32 1107034112)))
         booted_state
    = (ESP_OK, Some (Slot_float celsius_31_5)) /\
  state_after (ESP32Metrics_GetMetric silent_sensor_env 4 (Some (Slot_uint32 1107034112)))
              booted_state
    = set_last_temperature celsius_31_5 booted_state /\
  state_after (ESP32Metrics_GetMetric silent_sensor_env 4
                 (Some (Slot_uint64 (7 * 2 ^ 32 + 1107034112))))
              booted_state
    = set_last_temperature celsius_31_5 booted_state /\
  state_after (ESP32Metrics_GetMetric silent_sensor_env 4 (Some (Slot_int8 0)))
              booted_state
    = set_last_temperature (slot_bytes_as_float silent_sensor_env) booted_state.
Proof. vm_compute. repeat split. Qed.

(** Every step is an initialisation, a deinitialisation or a getter
    effect. *)
Lemma step_cases (s s' : ESP32Metrics_t) :
  step s s' ->
  (is_initialized s = false /\ exists env, s' = initialised_from env s) \/
  s' = deinitialised_from s \/
  getter_effect s s'.
Proof.
  intros H. destruct H.
  - destruct (is_initialized s) eqn:Hinit.
    + right; right. unfold state_after. rewrite (Init_idempotent env s Hinit).
      apply effect_none.
    + left. split; [reflexivity |]. exists env.
      apply (proj1 (Init_state env s Hinit)).
  - right; left. apply (proj2 (Deinit_state s)).
  - right; right. apply effect_none.
  - right; right. apply GetCpuUsage_effect.
  - right; right. apply GetUptime_effect.
  - right; right. rewrite GetWifiSignal_effect. apply effect_none.
  - right; right. rewrite GetWifiStatus_effect. apply effect_none.
  - right; right. apply GetTemperature_effect.
  - right; right. rewrite GetBrownoutCount_effect. apply effect_none.
  - right; right. rewrite GetRebootReason_effect. apply effect_none.
  - right; right. rewrite GetWifiDataRate_effect. apply effect_none.
  - right; right. rewrite GetLogLevel_effect. apply effect_none.
  - right; right. rewrite GetErrorCount_effect. apply effect_none.
  - right; right. apply IncrementErrorCount_effect.
  - right; right. apply GetMetric_effect.
Qed.

Lemma incr32_range (z : Z) : 0 <= Int.incr32 z < 2 ^ 32.
Proof. unfold Int.incr32, Int.wrap32. apply Z.mod_pos_bound. reflexivity. Qed.

Lemma consistent_initial : consistent s_metrics_initial.
Proof.
  constructor; cbn; try reflexivity; try discriminate; split; try discriminate;
    reflexivity.
Qed.

Lemma consistent_initialised_from env s : consistent (initialised_from env s).
Proof.
  constructor; cbn.
  - discriminate.
  - reflexivity.
  - intros _. reflexivity.
  - intros _ H. rewrite H. reflexivity.
Qed.

Lemma consistent_deinitialised_from s :
  consistent s -> consistent (deinitialised_from s).
Proof.
  intros [H1 H2 H5 H6]. unfold deinitialised_from.
  destruct (is_initialized s) eqn:Hinit.
  - destruct (temp_sensor_enabled s) eqn:Hen; constructor; cbn;
      try assumption; intros; try discriminate; try reflexivity; exact Hen.
  - constructor; try assumption; intros; try congruence.
    apply H1. reflexivity.
Qed.

Lemma consistent_getter_effect s s' :
  getter_effect s s' -> consistent s -> consistent s'.
Proof.
  intros He [H1 H2 H5 H6].
  destruct He; constructor; cbn; try assumption.
  intros _ Hoff. rewrite Hoff in *. discriminate.
Qed.

Lemma consistent_step s s' : step s s' -> consistent s -> consistent s'.
Proof.
  intros Hstep Hs. destruct (step_cases s s' Hstep) as [[_ [env ->]] | [-> | He]].
  - apply consistent_initialised_from.
  - apply consistent_deinitialised_from. exact Hs.
  - apply (consistent_getter_effect s s' He Hs).
Qed.

Lemma reachable_consistent s : reachable s -> consistent s.
Proof.
  induction 1 as [| s s' _ IH Hstep].
  - apply consistent_initial.
  - apply (consistent_step s s' Hstep IH).
Qed.

Lemma reachable_booted_state : reachable booted_state.
Proof.
  unfold booted_state. eapply reachable_step; [apply reachable_initial | apply step_Init].
Qed.

Lemma reachable_booted_without_sensor : reachable booted_without_sensor.
Proof.
  unfold booted_without_sensor.
  eapply reachable_step; [apply reachable_initial | apply step_Init].
Qed.

Lemma reachable_shut_down_state : reachable shut_down_state.
Proof.
  unfold shut_down_state.
  eapply reachable_step; [apply reachable_booted_state | apply step_Deinit].
Qed.

(** ** Invariants of the static record *)

(** X1: whenever the module is not initialised, the temperature sensor
    is not marked enabled: [Deinit] never leaves the flag set, and no
    getter sets it. *)
Theorem sensor_flag_clear_when_deinitialized (s : ESP32Metrics_t) :
  reachable s ->
  is_initialized s = false ->
  temp_sensor_enabled s = false.
Proof.
  intros Hr. apply (sensor_off_when_deinitialized s (reachable_consistent s Hr)).
Qed.

Lemma sensor_flag_clear_when_deinitialized_witness :
  temp_sensor_enabled shut_down_state = false.
Proof.
  apply (sensor_flag_clear_when_deinitialized shut_down_state
           reachable_shut_down_state).
  reflexivity.
Defined.

(** X2: in every reachable state [brownout_count] is 0 or 1, and it is
    1 exactly when the cached reset code is [ESP_RST_BROWNOUT]. *)
Theorem brownout_count_tracks_reset_code (s : ESP32Metrics_t) :
  reachable s ->
  (brownout_count s = 0 \/ brownout_count s = 1) /\
  (brownout_count s = 1 <-> code (reboot_reason s) = ESP_RST_BROWNOUT).
Proof.
  intros Hr.
  pose proof (brownout_matches_reset_code s (reachable_consistent s Hr)) as H.
  destruct (Z.eqb_spec (code (reboot_reason s)) ESP_RST_BROWNOUT) as [E | E];
    rewrite H; split; auto; split; intros H'; try assumption; try reflexivity.
  - discriminate H'.
  - contradiction.
Qed.

Lemma brownout_count_tracks_reset_code_witness :
  (brownout_count brownout_booted = 0 \/ brownout_count brownout_booted = 1) /\
  (brownout_count brownout_booted = 1 <->
   code (reboot_reason brownout_booted) = ESP_RST_BROWNOUT).
Proof.
  apply (brownout_count_tracks_reset_code brownout_booted).
  unfold brownout_booted.
  eapply reachable_step; [apply reachable_initial | apply step_Init].
Defined.

Lemma reset_reason_label_unknown (r : Z) :
  reset_reason_label r = "Unknown reason"%string <-> r < 0 \/ 12 <= r.
Proof.
  unfold reset_reason_label.
  change (Z.of_nat (List.length s_reset_reason_strings)) with 12.
  destruct (Z.leb_spec 0 r) as [Hlo | Hlo]; cbn [andb].
  - destruct (Z.ltb_spec r 12) as [Hhi | Hhi].
    + split; [| lia]. intros H. exfalso.
      assert (Hr : r = 0 \/ r = 1 \/ r = 2 \/ r = 3 \/ r = 4 \/ r = 5 \/ r = 6 \/
                   r = 7 \/ r = 8 \/ r = 9 \/ r = 10 \/ r = 11) by lia.
      repeat (destruct Hr as [-> | Hr]; [discriminate H |]).
      subst r. discriminate H.
    + split; [lia | reflexivity].
  - split; [lia | reflexivity].
Qed.

(** X4: in every reachable initialised state [GetRebootReason] returns
    the cached reset code with the label the table gives it; the label
    is "Unknown reason" exactly when the code is negative or beyond the
    twelve table entries. *)
Theorem GetRebootReason_label (s : ESP32Metrics_t) :
  reachable s ->
  is_initialized s = true ->
  let c := code (reboot_reason s) in
  result (ESP32Metrics_GetRebootReason Valid) s
    = (ESP_OK, Some {| code := c; reason := reset_reason_label c |}) /\
  (reset_reason_label c = "Unknown reason"%string <-> c < 0 \/ 12 <= c).
Proof.
  intros Hr Hinit c. subst c. split.
  - pose proof (label_matches_reset_code s (reachable_consistent s Hr) Hinit) as H.
    unfold ESP32Metrics_GetRebootReason. unfold_monad. cbn. rewrite Hinit. cbn.
    rewrite <- H. destruct (reboot_reason s). reflexivity.
  - apply reset_reason_label_unknown.
Qed.

Lemma GetRebootReason_label_witness :
  result (ESP32Metrics_GetRebootReason Valid) booted_state
    = (ESP_OK, Some {| code := 1; reason := "Power-on reset" |}).
Proof.
  apply (GetRebootReason_label booted_state reachable_booted_state eq_refl).
Defined.

(** X5: in every reachable initialised state whose sensor is not
    enabled the cached temperature is NaN, and [GetTemperature] returns
    [ESP_ERR_NOT_SUPPORTED] with NaN, without reading the sensor and
    without changing the record. *)
Theorem GetTemperature_without_sensor
        (env : providers) (s : ESP32Metrics_t) (old : F32.t) :
  reachable s ->
  is_initialized s = true ->
  temp_sensor_enabled s = false ->
  last_temperature s = F32.NAN /\
  run (ESP32Metrics_GetTemperature env (Some old)) s
  = ((ESP_ERR_NOT_SUPPORTED, Some F32.NAN),
     {| s_metrics := s; events := [Entered Op_GetTemperature] |}).
Proof.
  intros Hr Hinit Hen. split.
  - apply (no_sensor_means_NaN s (reachable_consistent s Hr) Hinit Hen).
  - apply (GetTemperature_disabled env s old Hinit Hen).
Qed.

Lemma GetTemperature_without_sensor_witness :
  last_temperature booted_without_sensor = F32.NAN /\
  run (ESP32Metrics_GetTemperature read_31_5_env (Some celsius_25)) booted_without_sensor
  = ((ESP_ERR_NOT_SUPPORTED, Some F32.NAN),
     {| s_metrics := booted_without_sensor; events := [Entered Op_GetTemperature] |}).
Proof.
  apply (GetTemperature_without_sensor read_31_5_env booted_without_sensor celsius_25
           reachable_booted_without_sensor eq_refl eq_refl).
Defined.

(** X6: a call made in an initialised state never changes the cached
    reset reason or [brownout_count], never enables the sensor, and
    leaves [error_count] as it is or one higher (modulo 2^32). *)
Theorem session_keeps_reset_data (s s' : ESP32Metrics_t) :
  step s s' ->
  is_initialized s = true ->
  reboot_reason s' = reboot_reason s /\
  brownout_count s' = brownout_count s /\
  (temp_sensor_enabled s' = true -> temp_sensor_enabled s = true) /\
  (error_count s' = error_count s \/ error_count s' = Int.incr32 (error_count s)).
Proof.
  intros Hstep Hinit.
  destruct (step_cases s s' Hstep) as [[Hn _] | [-> | He]].
  - rewrite Hinit in Hn. discriminate Hn.
  - unfold deinitialised_from. rewrite Hinit.
    destruct (temp_sensor_enabled s) eqn:Hen; cbn; repeat split; auto;
      intros; congruence.
  - destruct He; cbn; repeat split; auto.
Qed.

Lemma session_keeps_reset_data_witness :
  reboot_reason (state_after ESP32Metrics_IncrementErrorCount booted_state)
    = reboot_reason booted_state /\
  brownout_count (state_after ESP32Metrics_IncrementErrorCount booted_state)
    = brownout_count booted_state /\
  (temp_sensor_enabled (state_after ESP32Metrics_IncrementErrorCount booted_state) = true ->
   temp_sensor_enabled booted_state = true) /\
  (error_count (state_after ESP32Metrics_IncrementErrorCount booted_state)
     = error_count booted_state \/
   error_count (state_after ESP32Metrics_IncrementErrorCount booted_state)
     = Int.incr32 (error_count booted_state)).
Proof.
  apply (session_keeps_reset_data booted_state
           (state_after ESP32Metrics_IncrementErrorCount booted_state)
           (step_IncrementErrorCount booted_state) eq_refl).
Defined.

(** ** Lifecycle sequences *)

Lemma Init_initialized env s :
  is_initialized (state_after (ESP32Metrics_Init env) s) = true /\
  result (ESP32Metrics_Init env) s = ESP_OK.
Proof.
  destruct (is_initialized s) eqn:Hinit.
  - unfold state_after, result. rewrite (Init_idempotent env s Hinit).
    split; [exact Hinit | reflexivity].
  - destruct (Init_state env s Hinit) as [-> ->]. split; reflexivity.
Qed.

(** X7: a second [Init] without a [Deinit] in between returns [ESP_OK],
    leaves the record as the first one left it and calls no provider:
    the counters and the cached samples are not reset. *)
Theorem Init_twice (env1 env2 : providers) (s : ESP32Metrics_t) :
  result (ESP32Metrics_Init env1 ;; ESP32Metrics_Init env2) s = ESP_OK /\
  state_after (ESP32Metrics_Init env1 ;; ESP32Metrics_Init env2) s
    = state_after (ESP32Metrics_Init env1) s /\
  log_of (ESP32Metrics_Init env1 ;; ESP32Metrics_Init env2) s
    = log_of (ESP32Metrics_Init env1) s ++ [Entered Op_Init].
Proof.
  destruct (Init_initialized env1 s) as [Hinit _].
  pose proof (Init_idempotent env2 _ Hinit) as H2.
  rewrite seq_result, seq_state, seq_log;
    try apply framed_Init; try (intros; apply framed_Init).
  unfold result, state_after, log_of in *. rewrite H2. repeat split.
Qed.

Lemma Deinit_idempotent (s : ESP32Metrics_t) :
  is_initialized s = false ->
  run ESP32Metrics_Deinit s
  = (ESP_OK, {| s_metrics := s; events := [Entered Op_Deinit] |}).
Proof.
  intros Hinit. unfold ESP32Metrics_Deinit. unfold_monad. cbn. rewrite Hinit.
  reflexivity.
Qed.

(** X8: [Deinit] returns [ESP_OK] and leaves the module not
    initialised; it stops the sensor exactly when the module was
    initialised with the sensor enabled, and then clears the flag; a
    second [Deinit] changes nothing and calls no provider. *)
Theorem Deinit_stops_sensor_once (s : ESP32Metrics_t) :
  result ESP32Metrics_Deinit s = ESP_OK /\
  is_initialized (state_after ESP32Metrics_Deinit s) = false /\
  (In (Called P_temp_sensor_stop) (log_of ESP32Metrics_Deinit s) <->
   is_initialized s = true /\ temp_sensor_enabled s = true) /\
  (is_initialized s = true ->
   temp_sensor_enabled (state_after ESP32Metrics_Deinit s) = false) /\
  state_after (ESP32Metrics_Deinit ;; ESP32Metrics_Deinit) s
    = state_after ESP32Metrics_Deinit s /\
  log_of (ESP32Metrics_Deinit ;; ESP32Metrics_Deinit) s
    = log_of ESP32Metrics_Deinit s ++ [Entered Op_Deinit].
Proof.
  split; [apply (proj1 (Deinit_state s)) |].
  split; [apply Deinit_not_initialized |].
  split; [| split; [| split]].
  - unfold ESP32Metrics_Deinit. unfold_monad. cbn.
    destruct (is_initialized s); cbn; [destruct (temp_sensor_enabled s); cbn |].
    + split; [intros _; split; reflexivity | intros _; right; left; reflexivity].
    + split; [| intros [_ H]; discriminate H].
      intros H. repeat (destruct H as [H | H]; [discriminate H |]). destruct H.
    + split; [| intros [H _]; discriminate H].
      intros H. repeat (destruct H as [H | H]; [discriminate H |]). destruct H.
  - intros Hinit. rewrite (proj2 (Deinit_state s)), Hinit.
    destruct (temp_sensor_enabled s) eqn:Hen; [reflexivity | exact Hen].
  - rewrite seq_state; try apply framed_Deinit; try (intros; apply framed_Deinit).
    rewrite (proj2 (Deinit_state (state_after ESP32Metrics_Deinit s))).
    rewrite Deinit_not_initialized. reflexivity.
  - rewrite seq_log; try apply framed_Deinit; try (intros; apply framed_Deinit).
    f_equal. unfold log_of.
    rewrite (Deinit_idempotent _ (Deinit_not_initialized s)). reflexivity.
Qed.

(** ** Error counter *)

Lemma framed_increments n : framed (increments n).
Proof.
  induction n as [| n IH]; cbn [increments].
  - apply framed_ret.
  - apply framed_bind; [apply framed_IncrementErrorCount | intros _; exact IH].
Qed.

Lemma IncrementErrorCount_state s :
  is_initialized s = true ->
  state_after ESP32Metrics_IncrementErrorCount s
    = set_error_count (Int.incr32 (error_count s)) s /\
  result ESP32Metrics_IncrementErrorCount s = ESP_OK.
Proof.
  intros Hinit. unfold ESP32Metrics_IncrementErrorCount. unfold_monad. cbn.
  rewrite Hinit. split; reflexivity.
Qed.

Lemma increments_state (n : nat) (s : ESP32Metrics_t) :
  is_initialized s = true ->
  0 <= error_count s < 2 ^ 32 ->
  is_initialized (state_after (increments n) s) = true /\
  error_count (state_after (increments n) s)
    = (error_count s + Z.of_nat n) mod 2 ^ 32.
Proof.
  revert s. induction n as [| n IH]; intros s Hinit Hrange.
  - cbn. split; [exact Hinit |].
    rewrite Z.add_0_r, Z.mod_small; [reflexivity | exact Hrange].
  - cbn [increments].
    rewrite seq_state;
      [| apply framed_IncrementErrorCount | intros; apply framed_increments].
    destruct (IncrementErrorCount_state s Hinit) as [-> _].
    destruct (IH (set_error_count (Int.incr32 (error_count s)) s)) as [H1 H2].
    + exact Hinit.
    + apply incr32_range.
    + split; [exact H1 |]. rewrite H2. cbn [error_count set_error_count].
      unfold Int.incr32, Int.wrap32. rewrite Z.add_mod_idemp_l by lia.
      f_equal. lia.
Qed.

(** X9: from an initialised state whose [error_count] is a [uint32_t]
    value [c], [n] calls of [IncrementErrorCount] followed by
    [GetErrorCount] return [ESP_OK] with [(c + n) mod 2^32]: one per
    call, wrapping round at [2^32] without saturating. *)
Theorem IncrementErrorCount_counts (n : nat) (s : ESP32Metrics_t) :
  is_initialized s = true ->
  0 <= error_count s < 2 ^ 32 ->
  result (increments n ;; ESP32Metrics_GetErrorCount Valid) s
    = (ESP_OK, Some ((error_count s + Z.of_nat n) mod 2 ^ 32)).
Proof.
  intros Hinit Hrange.
  rewrite seq_result;
    [| apply framed_increments | intros; apply framed_GetErrorCount].
  destruct (increments_state n s Hinit Hrange) as [H1 H2].
  unfold ESP32Metrics_GetErrorCount. unfold_monad. cbn.
  unfold state_after, run in H1, H2. rewrite H1, H2. reflexivity.
Qed.

Lemma IncrementErrorCount_counts_witness :
  result (increments 3 ;; ESP32Metrics_GetErrorCount Valid) booted_state
    = (ESP_OK, Some 3) /\
  result (increments 2 ;; ESP32Metrics_GetErrorCount Valid)
         (set_error_count (2 ^ 32 - 1) booted_state)
    = (ESP_OK, Some 1).
Proof.
  split.
  - apply (IncrementErrorCount_counts 3 booted_state); [reflexivity | cbn; lia].
  - apply (IncrementErrorCount_counts 2 (set_error_count (2 ^ 32 - 1) booted_state));
      [reflexivity | cbn; lia].
Defined.

(** ** Uptime *)

Lemma GetUptime_run (env : providers) (s : ESP32Metrics_t) :
  is_initialized s = true ->
  run (ESP32Metrics_GetUptime env Valid) s
  = ((ESP_OK, Some (Int.wrap64 (Z.quot (esp_timer_get_time env) 1000))),
     {| s_metrics := set_last_uptime (Int.wrap64 (Z.quot (esp_timer_get_time env) 1000)) s;
        events := [Entered Op_GetUptime; Called P_esp_timer_get_time] |}).
Proof.
  intros Hinit. unfold ESP32Metrics_GetUptime. unfold_monad. cbn. rewrite Hinit.
  reflexivity.
Qed.

Lemma uptime_of_clock (t : Z) :
  0 <= t < 2 ^ 63 -> Int.wrap64 (Z.quot t 1000) = t / 1000.
Proof.
  intros Ht. rewrite Z.quot_div_nonneg by lia.
  unfold Int.wrap64. apply Z.mod_small.
  split; [apply Z.div_pos; lia |].
  apply Z.le_lt_trans with t; [| lia].
  apply Z.div_le_upper_bound; lia.
Qed.

(** X10: when the clock reads [t1] and later [t2] microseconds with
    [0 <= t1 <= t2 < 2^63], [GetUptime] in an initialised state returns
    the whole milliseconds [t1 / 1000] (within one millisecond below the
    clock), a later call returns [t2 / 1000], which is not smaller, and
    the last value returned is the one cached in [last_uptime]. *)
Theorem GetUptime_milliseconds (env1 env2 : providers) (s : ESP32Metrics_t) :
  is_initialized s = true ->
  0 <= esp_timer_get_time env1 <= esp_timer_get_time env2 ->
  esp_timer_get_time env2 < 2 ^ 63 ->
  let t1 := esp_timer_get_time env1 in
  let t2 := esp_timer_get_time env2 in
  result (ESP32Metrics_GetUptime env1 Valid) s = (ESP_OK, Some (t1 / 1000)) /\
  1000 * (t1 / 1000) <= t1 < 1000 * (t1 / 1000) + 1000 /\
  result (ESP32Metrics_GetUptime env1 Valid ;; ESP32Metrics_GetUptime env2 Valid) s
    = (ESP_OK, Some (t2 / 1000)) /\
  t1 / 1000 <= t2 / 1000 /\
  last_uptime (state_after (ESP32Metrics_GetUptime env1 Valid ;;
                            ESP32Metrics_GetUptime env2 Valid) s)
    = t2 / 1000.
Proof.
  intros Hinit H12 H2 t1 t2. subst t1 t2.
  pose proof (GetUptime_run env1 s Hinit) as R1.
  rewrite (uptime_of_clock (esp_timer_get_time env1)) in R1 by lia.
  assert (Hinit' : is_initialized (state_after (ESP32Metrics_GetUptime env1 Valid) s)
                   = true).
  { unfold state_after. rewrite R1. exact Hinit. }
  pose proof (GetUptime_run env2 _ Hinit') as R2.
  rewrite (uptime_of_clock (esp_timer_get_time env2)) in R2 by lia.
  split; [unfold result; rewrite R1; reflexivity |].
  split; [pose proof (Z.mul_div_le (esp_timer_get_time env1) 1000);
          pose proof (Z.mul_succ_div_gt (esp_timer_get_time env1) 1000); lia |].
  split; [| split].
  - rewrite seq_result; try apply framed_GetUptime; try (intros; apply framed_GetUptime).
    unfold result. rewrite R2. reflexivity.
  - apply Z.div_le_mono; lia.
  - rewrite seq_state; try apply framed_GetUptime; try (intros; apply framed_GetUptime).
    unfold state_after at 1. rewrite R2. reflexivity.
Qed.

Lemma GetUptime_milliseconds_witness :
  result (ESP32Metrics_GetUptime (clock_env 1999) Valid) booted_state = (ESP_OK, Some 1) /\
  result (ESP32Metrics_GetUptime (clock_env 1999) Valid ;;
          ESP32Metrics_GetUptime (clock_env 1002000) Valid) booted_state
    = (ESP_OK, Some 1002).
Proof.
  destruct (GetUptime_milliseconds (clock_env 1999) (clock_env 1002000) booted_state
                                   eq_refl)
    as (H1 & _ & H2 & _); [cbn; lia | cbn; lia |].
  split; [exact H1 | exact H2].
Defined.

(** ** Wireless getters on the same radio *)

Lemma GetWifiSignal_run (env : providers) (s : ESP32Metrics_t) :
  is_initialized s = true ->
  run (ESP32Metrics_GetWifiSignal env Valid) s
  = ((fst (esp_wifi_sta_get_ap_info env),
      Some (if fst (esp_wifi_sta_get_ap_info env) =? ESP_OK
            then rssi (snd (esp_wifi_sta_get_ap_info env))
            else 0)),
     {| s_metrics := s;
        events := [Entered Op_GetWifiSignal; Called P_esp_wifi_sta_get_ap_info] |}).
Proof.
  intros Hinit. unfold ESP32Metrics_GetWifiSignal. unfold_monad. cbn. rewrite Hinit.
  cbn. destruct (fst (esp_wifi_sta_get_ap_info env) =? ESP_OK); reflexivity.
Qed.

(** X11: in an initialised state, for one set of radio answers,
    [GetWifiSignal] and [GetWifiDataRate] return the same code, that of
    the access-point record query, and on its failure both store zero;
    when the mode query succeeds in a mode other than [WIFI_MODE_NULL]
    and [WIFI_MODE_AP], [GetWifiStatus] stores connected exactly when
    that code is [ESP_OK]. *)
Theorem wifi_getters_agree (env : providers) (s : ESP32Metrics_t) :
  is_initialized s = true ->
  let e := fst (esp_wifi_sta_get_ap_info env) in
  fst (result (ESP32Metrics_GetWifiSignal env Valid) s) = e /\
  fst (result (ESP32Metrics_GetWifiDataRate env Valid) s) = e /\
  (e <> ESP_OK ->
   snd (result (ESP32Metrics_GetWifiSignal env Valid) s) = Some 0 /\
   snd (result (ESP32Metrics_GetWifiDataRate env Valid) s) = Some F32.zero) /\
  (fst (esp_wifi_get_mode env) = ESP_OK ->
   snd (esp_wifi_get_mode env) <> WIFI_MODE_NULL ->
   snd (esp_wifi_get_mode env) <> WIFI_MODE_AP ->
   (snd (result (ESP32Metrics_GetWifiStatus env Valid) s) = Some ESP32_WIFI_CONNECTED
    <-> e = ESP_OK)).
Proof.
  intros Hinit e. subst e. unfold result.
  rewrite (GetWifiSignal_run env s Hinit), (GetWifiDataRate_run env s Hinit).
  cbn [fst snd].
  destruct (Z.eqb_spec (fst (esp_wifi_sta_get_ap_info env)) ESP_OK) as [E | E].
  - split; [reflexivity |]. split; [symmetry; exact E |].
    split; [intros H; contradiction |].
    intros Hm Hnull Hap.
    destruct (GetWifiStatus_run env s Hinit Hm) as [R _]. unfold result in R.
    rewrite R. cbn [snd]. unfold classify_status. rewrite E.
    destruct (snd (esp_wifi_get_mode env)); try contradiction;
      split; intros; reflexivity.
  - split; [reflexivity |]. split; [reflexivity |].
    split; [intros _; split; reflexivity |].
    intros Hm Hnull Hap.
    destruct (GetWifiStatus_run env s Hinit Hm) as [R _]. unfold result in R.
    rewrite R. cbn [snd]. unfold classify_status.
    rewrite (eqb_ESP_OK_false _ E).
    destruct (snd (esp_wifi_get_mode env)); try contradiction;
      destruct (fst (esp_wifi_sta_get_ap_info env) =? ESP_ERR_WIFI_NOT_CONNECT);
      split; intros H; try discriminate H; contradiction.
Qed.

Lemma wifi_getters_agree_witness :
  fst (result (ESP32Metrics_GetWifiSignal not_connected_env Valid) booted_state)
    = ESP_ERR_WIFI_NOT_CONNECT /\
  fst (result (ESP32Metrics_GetWifiDataRate not_connected_env Valid) booted_state)
    = ESP_ERR_WIFI_NOT_CONNECT /\
  snd (result (ESP32Metrics_GetWifiSignal not_connected_env Valid) booted_state) = Some 0 /\
  (snd (result (ESP32Metrics_GetWifiStatus
                  (connected_env WIFI_PHY_MODE_HT WIFI_SECOND_CHAN_NONE (-60)) Valid)
               booted_state) = Some ESP32_WIFI_CONNECTED
   <-> ESP_OK = ESP_OK).
Proof.
  destruct (wifi_getters_agree not_connected_env booted_state eq_refl)
    as (H1 & H2 & H3 & _).
  destruct (wifi_getters_agree (connected_env WIFI_PHY_MODE_HT WIFI_SECOND_CHAN_NONE (-60))
                               booted_state eq_refl)
    as (_ & _ & _ & H4).
  split; [exact H1 |]. split; [exact H2 |].
  split; [apply H3; discriminate |].
  apply H4; [reflexivity | discriminate | discriminate].
Defined.

(** X12: whatever the state, the pointer and the radio answer,
    [GetWifiStatus] never stores connecting or disconnecting, and it
    stores a status whenever it is initialised and the pointer is
    valid. *)
Theorem GetWifiStatus_three_statuses
        (env : providers) (p : pointer) (s : ESP32Metrics_t) :
  let st := snd (result (ESP32Metrics_GetWifiStatus env p) s) in
  st <> Some ESP32_WIFI_CONNECTING /\
  st <> Some ESP32_WIFI_DISCONNECTING /\
  (st = None <-> is_initialized s = false \/ p = NULL).
Proof.
  unfold ESP32Metrics_GetWifiStatus. unfold_monad. cbn.
  destruct (is_initialized s); cbn.
  - destruct p; cbn.
    + repeat split; try discriminate; auto.
    + destruct (fst (esp_wifi_get_mode env) =? ESP_OK); cbn;
        [destruct (snd (esp_wifi_get_mode env)); cbn;
         try (destruct (fst (esp_wifi_sta_get_ap_info env) =? ESP_OK); cbn;
              [| destruct (fst (esp_wifi_sta_get_ap_info env)
                           =? ESP_ERR_WIFI_NOT_CONNECT); cbn]) |];
        (split; [discriminate |]; split; [discriminate |];
         split; [discriminate | intros [H | H]; discriminate H]).
  - repeat split; try discriminate; auto.
Qed.

(** ** Data-rate estimate over every signal strength *)

Lemma int8_values_complete (dBm : Z) :
  -128 <= dBm <= 127 -> In dBm int8_values.
Proof.
  intros H. unfold int8_values. apply in_map_iff.
  exists (Z.to_nat (dBm + 128)). split; [lia |].
  apply in_seq. lia.
Qed.

Lemma nominal_rates_complete (phy : wifi_phy_mode_t) (width : wifi_second_chan_t) :
  In (nominal_rate phy width) nominal_rates.
Proof.
  unfold nominal_rates. destruct phy, width; cbn; tauto.
Qed.

Lemma for_all_rates_spec (check : F32.t -> Z -> bool) :
  for_all_rates check = true ->
  forall phy width dBm,
    -128 <= dBm <= 127 -> check (nominal_rate phy width) dBm = true.
Proof.
  intros H phy width dBm Hd. unfold for_all_rates in H.
  rewrite forallb_forall in H.
  specialize (H dBm (int8_values_complete dBm Hd)).
  rewrite forallb_forall in H.
  apply (H _ (nominal_rates_complete phy width)).
Qed.

Lemma all_rates_within_bounds : for_all_rates rate_within_bounds = true.
Proof. vm_compute. reflexivity. Qed.

Lemma all_rates_positive : for_all_rates rate_positive = true.
Proof. vm_compute. reflexivity. Qed.

Lemma all_rates_plateau : for_all_rates rate_plateaus = true.
Proof. vm_compute. reflexivity. Qed.

Lemma all_rate_tables_sorted :
  List.forallb (fun nominal => table_sorted (rate_table nominal)) nominal_rates = true.
Proof. vm_compute. reflexivity. Qed.

Lemma float_same_eq (x y : spec_float) : float_same x y = true -> x = y.
Proof.
  destruct x as [a | a | | a m e], y as [b | b | | b n f]; cbn;
    try discriminate; try reflexivity.
  - intros H. apply Bool.eqb_prop in H. congruence.
  - intros H. apply Bool.eqb_prop in H. congruence.
  - intros H. apply andb_prop in H. destruct H as [H He].
    apply andb_prop in H. destruct H as [Hs Hm].
    apply Bool.eqb_prop in Hs. apply Pos.eqb_eq in Hm. apply Z.eqb_eq in He.
    congruence.
Qed.

Lemma table_sorted_spec (f : Z -> F32.t) (l : list Z) :
  table_sorted (List.map (fun d => (d, f d)) l) = true ->
  forall weak strong,
    In weak l -> In strong l -> weak <= strong ->
    F32.leb (f weak) (f strong) = true.
Proof.
  intros H weak strong Iw Is Hle. unfold table_sorted in H.
  rewrite forallb_forall in H.
  specialize (H (weak, f weak) (in_map (fun d => (d, f d)) l weak Iw)).
  rewrite forallb_forall in H.
  specialize (H (strong, f strong) (in_map (fun d => (d, f d)) l strong Is)).
  cbn [fst snd] in H. destruct (Z.leb_spec weak strong); [exact H | lia].
Qed.

Lemma rate_table_sorted_spec (nominal : F32.t) :
  table_sorted (rate_table nominal) = true ->
  forall weak strong,
    In weak int8_values -> In strong int8_values -> weak <= strong ->
    F32.leb (rate_at nominal weak) (rate_at nominal strong) = true.
Proof.
  unfold rate_table. apply (table_sorted_spec (rate_at nominal) int8_values).
Qed.

Lemma rate_tables_sorted_spec (phy : wifi_phy_mode_t) (width : wifi_second_chan_t)
      (weak strong : Z) :
  -128 <= weak <= 127 -> -128 <= strong <= 127 -> weak <= strong ->
  F32.leb (rate_at (nominal_rate phy width) weak)
          (rate_at (nominal_rate phy width) strong) = true.
Proof.
  intros Hw Hs Hle.
  apply (rate_table_sorted_spec (nominal_rate phy width)
           (proj1 (forallb_forall (fun nominal => table_sorted (rate_table nominal))
                                  nominal_rates)
                  all_rate_tables_sorted
                  (nominal_rate phy width) (nominal_rates_complete phy width))).
  - apply int8_values_complete. exact Hw.
  - apply int8_values_complete. exact Hs.
  - exact Hle.
Qed.

(** X13: when the access-point record query succeeds with an RSSI in
    the [int8_t] range, [GetWifiDataRate] in an initialised state
    returns [ESP_OK] with a rate that is positive and lies between half
    the nominal rate of the PHY mode and width and that nominal rate;
    the rate is exactly the nominal rate from -90 dBm up and exactly
    half of it from -110 dBm down. *)
Theorem GetWifiDataRate_bounds (env : providers) (s : ESP32Metrics_t) :
  is_initialized s = true ->
  fst (esp_wifi_sta_get_ap_info env) = ESP_OK ->
  -128 <= rssi (snd (esp_wifi_sta_get_ap_info env)) <= 127 ->
  let dBm := rssi (snd (esp_wifi_sta_get_ap_info env)) in
  let nominal := nominal_rate (snd (esp_wifi_sta_get_negotiated_phymode env))
                              (second (snd (esp_wifi_sta_get_ap_info env))) in
  let rate := rate_at nominal dBm in
  result (ESP32Metrics_GetWifiDataRate env Valid) s = (ESP_OK, Some rate) /\
  F32.ltb F32.zero rate = true /\
  F32.leb (F32.mul nominal F32.half) rate = true /\
  F32.leb rate nominal = true /\
  (-90 <= dBm -> rate = nominal) /\
  (dBm <= -110 -> rate = F32.mul nominal F32.half).
Proof.
  intros Hinit Hap Hd dBm nominal rate.
  pose proof (for_all_rates_spec _ all_rates_within_bounds
                (snd (esp_wifi_sta_get_negotiated_phymode env))
                (second (snd (esp_wifi_sta_get_ap_info env))) dBm Hd) as Hb.
  pose proof (for_all_rates_spec _ all_rates_plateau
                (snd (esp_wifi_sta_get_negotiated_phymode env))
                (second (snd (esp_wifi_sta_get_ap_info env))) dBm Hd) as Hp.
  pose proof (for_all_rates_spec _ all_rates_positive
                (snd (esp_wifi_sta_get_negotiated_phymode env))
                (second (snd (esp_wifi_sta_get_ap_info env))) dBm Hd) as Hpos.
  fold nominal in Hb, Hp, Hpos. unfold rate_within_bounds in Hb.
  unfold rate_plateaus in Hp. unfold rate_positive in Hpos.
  fold rate in Hb, Hp, Hpos.
  apply andb_prop in Hb. destruct Hb as [Hlo Hhi].
  apply andb_prop in Hp. destruct Hp as [Hup Hdown].
  split; [apply (GetWifiDataRate_record_ok env s Hinit Hap) |].
  split; [exact Hpos |].
  split; [exact Hlo |]. split; [exact Hhi |]. split.
  - intros H. destruct (Z.leb_spec (-90) dBm); [| lia].
    apply float_same_eq. exact Hup.
  - intros H. destruct (Z.leb_spec dBm (-110)); [| lia].
    apply float_same_eq. exact Hdown.
Qed.

Lemma GetWifiDataRate_bounds_witness :
  result (ESP32Metrics_GetWifiDataRate
            (connected_env WIFI_PHY_MODE_VHT WIFI_SECOND_CHAN_ABOVE (-100)) Valid)
         booted_state
  = (ESP_OK, Some (rate_at (F32.of_Z 200) (-100))) /\
  F32.leb (F32.of_Z 100) (rate_at (F32.of_Z 200) (-100)) = true /\
  F32.leb (rate_at (F32.of_Z 200) (-100)) (F32.of_Z 200) = true.
Proof.
  destruct (GetWifiDataRate_bounds
              (connected_env WIFI_PHY_MODE_VHT WIFI_SECOND_CHAN_ABOVE (-100))
              booted_state eq_refl eq_refl)
    as (H1 & _ & H2 & H3 & _); [cbn; lia |].
  split; [exact H1 |]. split; [exact H2 | exact H3].
Defined.

(** X14: for two successful record queries with the same PHY mode and
    channel width and RSSI values in the [int8_t] range, the stronger
    signal never gets the lower rate from [GetWifiDataRate]. *)
Theorem GetWifiDataRate_monotone (env1 env2 : providers) (s : ESP32Metrics_t)
        (rate1 rate2 : F32.t) :
  is_initialized s = true ->
  fst (esp_wifi_sta_get_ap_info env1) = ESP_OK ->
  fst (esp_wifi_sta_get_ap_info env2) = ESP_OK ->
  snd (esp_wifi_sta_get_negotiated_phymode env1)
    = snd (esp_wifi_sta_get_negotiated_phymode env2) ->
  second (snd (esp_wifi_sta_get_ap_info env1))
    = second (snd (esp_wifi_sta_get_ap_info env2)) ->
  -128 <= rssi (snd (esp_wifi_sta_get_ap_info env1)) ->
  rssi (snd (esp_wifi_sta_get_ap_info env1)) <= rssi (snd (esp_wifi_sta_get_ap_info env2)) ->
  rssi (snd (esp_wifi_sta_get_ap_info env2)) <= 127 ->
  snd (result (ESP32Metrics_GetWifiDataRate env1 Valid) s) = Some rate1 ->
  snd (result (ESP32Metrics_GetWifiDataRate env2 Valid) s) = Some rate2 ->
  F32.leb rate1 rate2 = true.
Proof.
  intros Hinit Hap1 Hap2 Hphy Hwidth Hlo Hle Hhi H1 H2.
  rewrite (GetWifiDataRate_record_ok env1 s Hinit Hap1) in H1.
  rewrite (GetWifiDataRate_record_ok env2 s Hinit Hap2) in H2.
  cbn [snd] in H1, H2. injection H1 as <-. injection H2 as <-.
  rewrite Hphy, Hwidth.
  apply (rate_tables_sorted_spec _ _ _ _); lia.
Qed.

Lemma GetWifiDataRate_monotone_witness :
  F32.leb (rate_at (F32.of_Z 72) (-105)) (rate_at (F32.of_Z 72) (-95)) = true.
Proof.
  apply (GetWifiDataRate_monotone
           (connected_env WIFI_PHY_MODE_HT WIFI_SECOND_CHAN_NONE (-105))
           (connected_env WIFI_PHY_MODE_HT WIFI_SECOND_CHAN_NONE (-95))
           booted_state);
    try reflexivity; cbn; lia.
Defined.

(** ** Null output pointers *)

(** X15: in an initialised state every getter called with a null
    output pointer returns [ESP_ERR_INVALID_ARG], stores nothing, leaves
    the record unchanged and calls no provider: its log holds only its
    own entry. *)
Theorem null_pointer_is_invalid_arg (env : providers) (s : ESP32Metrics_t) :
  is_initialized s = true ->
  let rejected {A} (m : M (esp_err_t * option A)) (o : operation_id) :=
    run m s = ((ESP_ERR_INVALID_ARG, None), {| s_metrics := s; events := [Entered o] |}) in
  rejected (ESP32Metrics_GetCpuUsage env NULL) Op_GetCpuUsage /\
  rejected (ESP32Metrics_GetUptime env NULL) Op_GetUptime /\
  rejected (ESP32Metrics_GetWifiSignal env NULL) Op_GetWifiSignal /\
  rejected (ESP32Metrics_GetWifiStatus env NULL) Op_GetWifiStatus /\
  rejected (ESP32Metrics_GetWifiDataRate env NULL) Op_GetWifiDataRate /\
  rejected (ESP32Metrics_GetTemperature env None) Op_GetTemperature /\
  rejected (ESP32Metrics_GetBrownoutCount NULL) Op_GetBrownoutCount /\
  rejected (ESP32Metrics_GetErrorCount NULL) Op_GetErrorCount /\
  rejected (ESP32Metrics_GetRebootReason NULL) Op_GetRebootReason /\
  rejected (ESP32Metrics_GetLogLevel env NULL) Op_GetLogLevel /\
  (forall t, rejected (ESP32Metrics_GetMetric env t None) Op_GetMetric).
Proof.
  intros Hinit rejected. subst rejected. cbv beta.
  unfold ESP32Metrics_GetCpuUsage, ESP32Metrics_GetUptime, ESP32Metrics_GetWifiSignal,
         ESP32Metrics_GetWifiStatus, ESP32Metrics_GetWifiDataRate,
         ESP32Metrics_GetTemperature, ESP32Metrics_GetBrownoutCount,
         ESP32Metrics_GetErrorCount, ESP32Metrics_GetRebootReason,
         ESP32Metrics_GetLogLevel, ESP32Metrics_GetMetric.
  unfold_monad. cbn. rewrite Hinit. cbn. repeat split.
Qed.

Lemma null_pointer_is_invalid_arg_witness :
  run (ESP32Metrics_GetCpuUsage read_31_5_env NULL) booted_state
  = ((ESP_ERR_INVALID_ARG, None),
     {| s_metrics := booted_state; events := [Entered Op_GetCpuUsage] |}) /\
  run (ESP32Metrics_GetMetric read_31_5_env 4 None) booted_state
  = ((ESP_ERR_INVALID_ARG, None),
     {| s_metrics := booted_state; events := [Entered Op_GetMetric] |}).
Proof.
  destruct (null_pointer_is_invalid_arg read_31_5_env booted_state eq_refl)
    as (H1 & _ & _ & _ & _ & _ & _ & _ & _ & _ & H11).
  split; [exact H1 | exact (H11 4)].
Defined.

(** ** Scheduler snapshots *)

(** X17: the idle counter taken from a task list is [0] when no entry
    is named "IDLE", and otherwise the counter of the first entry with
    that name, whatever follows it. *)
Theorem find_idle_first_match (before after : list TaskStatus_t) (t : TaskStatus_t) :
  (forall u, In u before -> pcTaskName u <> "IDLE"%string) ->
  find_idle before = 0 /\
  (pcTaskName t = "IDLE"%string ->
   find_idle (before ++ t :: after) = ulRunTimeCounter t).
Proof.
  induction before as [| u before IH]; intros Hno.
  - split; [reflexivity |]. intros Ht. cbn. rewrite Ht. reflexivity.
  - assert (Hu : String.eqb (pcTaskName u) "IDLE" = false).
    { apply String.eqb_neq. apply Hno. left. reflexivity. }
    destruct IH as [IH1 IH2].
    { intros v Hv. apply Hno. right. exact Hv. }
    split.
    + cbn [find_idle]. rewrite Hu. exact IH1.
    + intros Ht. cbn [find_idle app]. rewrite Hu. apply IH2. exact Ht.
Qed.

Lemma find_idle_first_match_witness :
  find_idle [ {| pcTaskName := "main"; ulRunTimeCounter := 300 |} ] = 0 /\
  find_idle ([ {| pcTaskName := "main"; ulRunTimeCounter := 300 |} ]
             ++ {| pcTaskName := "IDLE"; ulRunTimeCounter := 700 |}
             :: [ {| pcTaskName := "IDLE"; ulRunTimeCounter := 900 |} ]) = 700.
Proof.
  destruct (find_idle_first_match
              [ {| pcTaskName := "main"; ulRunTimeCounter := 300 |} ]
              [ {| pcTaskName := "IDLE"; ulRunTimeCounter := 900 |} ]
              {| pcTaskName := "IDLE"; ulRunTimeCounter := 700 |}) as [H1 H2].
  - intros u [<- | []]. cbn. discriminate.
  - split; [exact H1 | apply H2; reflexivity].
Defined.

Lemma cpu_usage_no_elapsed_time (total idle prev_idle : Z) :
  cpu_usage total prev_idle total idle = F32.zero.
Proof.
  unfold cpu_usage. destruct (0 <? total); [| reflexivity].
  unfold Int.sub32, Int.wrap32. rewrite Z.sub_diag. reflexivity.
Qed.

(** X18: two [GetCpuUsage] calls in a row that see the same snapshot:
    the second returns [ESP_OK] with exactly [0.0f], because no run
    time has elapsed since the sample the first one stored. *)
Theorem GetCpuUsage_same_snapshot_twice (env : providers) (s : ESP32Metrics_t) :
  is_initialized s = true ->
  malloc env = true ->
  result (ESP32Metrics_GetCpuUsage env Valid ;; ESP32Metrics_GetCpuUsage env Valid) s
    = (ESP_OK, Some F32.zero).
Proof.
  intros Hinit Halloc.
  rewrite seq_result;
    try apply framed_GetCpuUsage; try (intros; apply framed_GetCpuUsage).
  pose proof (GetCpuUsage_run env s Hinit) as R1. rewrite Halloc in R1.
  unfold state_after. rewrite R1. cbn [snd s_metrics].
  unfold result. rewrite GetCpuUsage_run by exact Hinit. rewrite Halloc.
  cbn [fst set_prev_idle_time set_prev_total_run_time prev_total_run_time prev_idle_time].
  rewrite cpu_usage_no_elapsed_time. reflexivity.
Qed.

Lemma GetCpuUsage_same_snapshot_twice_witness :
  result (ESP32Metrics_GetCpuUsage (snapshot_env true (two_tasks 700 300) 1000) Valid ;;
          ESP32Metrics_GetCpuUsage (snapshot_env true (two_tasks 700 300) 1000) Valid)
         (sampled_state 400 100)
    = (ESP_OK, Some F32.zero).
Proof.
  apply (GetCpuUsage_same_snapshot_twice (snapshot_env true (two_tasks 700 300) 1000)
                                         (sampled_state 400 100));
    reflexivity.
Defined.

(** X19: the first [GetCpuUsage] after an [Init] that found the module
    not initialised returns [ESP_OK] with exactly [0.0f] when its
    allocation succeeds, whatever sample an earlier session left
    behind, and stores its snapshot as the baseline. *)
Theorem Init_then_GetCpuUsage (env0 env : providers) (s : ESP32Metrics_t) :
  is_initialized s = false ->
  malloc env = true ->
  result (ESP32Metrics_Init env0 ;; ESP32Metrics_GetCpuUsage env Valid) s
    = (ESP_OK, Some F32.zero) /\
  prev_total_run_time
    (state_after (ESP32Metrics_Init env0 ;; ESP32Metrics_GetCpuUsage env Valid) s)
    = stored_total (snd (uxTaskGetSystemState env)).
Proof.
  intros Hinit Halloc.
  rewrite seq_result, seq_state;
    try apply framed_Init; try (intros; apply framed_GetCpuUsage).
  destruct (Init_state env0 s Hinit) as [-> _].
  unfold result, state_after.
  rewrite (GetCpuUsage_run env (initialised_from env0 s) eq_refl), Halloc.
  split; reflexivity.
Qed.

Lemma Init_then_GetCpuUsage_witness :
  result (ESP32Metrics_Init (sensor_env ESP_OK ESP_OK (ESP_OK, Some celsius_25) 1) ;;
          ESP32Metrics_GetCpuUsage (snapshot_env true (two_tasks 700 300) 1000) Valid)
         (set_is_initialized false (sampled_state 400 100))
    = (ESP_OK, Some F32.zero).
Proof.
  apply (Init_then_GetCpuUsage
           (sensor_env ESP_OK ESP_OK (ESP_OK, Some celsius_25) 1)
           (snapshot_env true (two_tasks 700 300) 1000)
           (set_is_initialized false (sampled_state 400 100)));
    reflexivity.
Defined.

(** ** The test application *)

(** Whatever follows a [TEST_ASSERT] in a test function is never run. *)
Lemma tbind_TEST_ASSERT {B} (c : bool) (k : unit -> T B) (h : harness) :
  tbind (TEST_ASSERT c) k h
  = (inr c, if c then h
            else {| module := snd (esp_log (module h));
                    calls_made := calls_made h;
                    tests_run := tests_run h;
                    tests_passed := tests_passed h;
                    tests_failed := tests_failed h + 1 |}).
Proof. destruct c; reflexivity. Qed.

(** Unfold a test function down to its first module call and split on
    what decides its verdict. *)
Ltac run_test :=
  intros h;
  unfold tbind at 1, module_call at 1;
  match goal with
  | |- context [?f (module h)] => destruct (f (module h)) as [a w]
  end;
  cbv beta iota zeta
      delta [tbind module_call TEST_ASSERT tlog treturn tret vTaskDelay
             incr_tests_failed];
  repeat (match goal with
          | |- context [if ?c then _ else _] => destruct c eqn:?
          end;
          cbv beta iota zeta);
  do 2 eexists; (split; [reflexivity |]); cbn; repeat split; lia.

Lemma returns_test_init_deinit board : returns_after 1 (test_init_deinit board).
Proof. unfold test_init_deinit. run_test. Qed.

Lemma GetVersion_on_world (v : string) (w : world) :
  ESP32Metrics_GetVersion v w
  = (Some v, {| s_metrics := s_metrics w; events := events w ++ [Entered Op_GetVersion] |}).
Proof. reflexivity. Qed.

Lemma returns_test_version board v : returns_after 1 (test_version board v).
Proof.
  intros h. unfold test_version. unfold tbind at 1, module_call at 1.
  rewrite GetVersion_on_world. cbv beta iota zeta.
  rewrite tbind_TEST_ASSERT. do 2 eexists. split; [reflexivity |].
  cbn. repeat split; lia.
Qed.

Lemma returns_test_cpu_usage board : returns_after 1 (test_cpu_usage board).
Proof. unfold test_cpu_usage. run_test. Qed.

Lemma returns_test_uptime board : returns_after 1 (test_uptime board).
Proof. unfold test_uptime. run_test. Qed.

Lemma returns_test_wifi_metrics board : returns_after 1 (test_wifi_metrics board).
Proof. unfold test_wifi_metrics. run_test. Qed.

Lemma returns_test_temperature board : returns_after 1 (test_temperature board).
Proof. unfold test_temperature. run_test. Qed.

Lemma returns_test_reboot_reason board : returns_after 1 (test_reboot_reason board).
Proof. unfold test_reboot_reason. run_test. Qed.

Lemma returns_test_brownout_and_errors board :
  returns_after 1 (test_brownout_and_errors board).
Proof. unfold test_brownout_and_errors. run_test. Qed.

Lemma returns_test_log_level board : returns_after 1 (test_log_level board).
Proof. unfold test_log_level. run_test. Qed.

Lemma returns_test_generic_api board : returns_after 1 (test_generic_api board).
Proof. unfold test_generic_api. run_test. Qed.

Lemma runs_tests_tlog : runs_tests 0 0 tlog.
Proof. intros h. eexists. split; [reflexivity |]. cbn. repeat split; lia. Qed.

Lemma runs_tests_vTaskDelay : runs_tests 0 0 vTaskDelay.
Proof. intros h. eexists. split; [reflexivity |]. cbn. repeat split; lia. Qed.

Lemma runs_tests_seq (c1 c2 : nat) (n1 n2 : Z) (a b : T unit) :
  runs_tests c1 n1 a -> runs_tests c2 n2 b ->
  runs_tests (c2 + c1) (n1 + n2) (tbind a (fun _ => b)).
Proof.
  intros Ha Hb h. destruct (Ha h) as (h1 & E1 & A1 & A2 & A3 & A4 & A5).
  destruct (Hb h1) as (h2 & E2 & B1 & B2 & B3 & B4 & B5).
  exists h2. unfold tbind. rewrite E1, E2. repeat split; lia.
Qed.

Lemma runs_tests_RUN_TEST (calls : nat) (test : T unit) :
  returns_after calls test -> runs_tests calls 1 (RUN_TEST test).
Proof.
  intros Ht h. unfold RUN_TEST.
  cbv beta iota zeta delta [tbind tlog incr_tests_run verdict_of vTaskDelay tret
                            incr_tests_passed].
  match goal with
  | |- context [test ?h0] =>
      destruct (Ht h0) as (verdict & h1 & E & C1 & C2 & C3 & C4); rewrite E
  end.
  cbn in C1, C2, C3, C4.
  destruct verdict; cbv beta iota zeta; eexists; (split; [reflexivity |]); cbn;
    repeat split; lia.
Qed.

Lemma runs_tests_verdict_line :
  runs_tests 0 0
    (h <- (fun h => (inl h, h)) ;; (if tests_failed h =? 0 then tlog else tlog))%harness.
Proof.
  intros h. cbv beta iota zeta delta [tbind tlog].
  destruct (tests_failed h =? 0); eexists; (split; [reflexivity |]); cbn;
    repeat split; lia.
Qed.

Lemma runs_tests_print_test_summary : runs_tests 0 0 print_test_summary.
Proof.
  unfold print_test_summary.
  do 8 (apply (runs_tests_seq 0 0 0 0 tlog); [apply runs_tests_tlog |]).
  apply runs_tests_verdict_line.
Qed.

Lemma runs_tests_shutdown (board : nat -> providers) :
  runs_tests 1 0
    (_ <- module_call board (fun _ => ESP32Metrics_Deinit) ;; tlog)%harness.
Proof.
  intros h. cbv beta iota zeta delta [tbind module_call tlog].
  destruct (ESP32Metrics_Deinit (module h)) as [r w].
  eexists. split; [reflexivity |]. cbn. repeat split; lia.
Qed.

Lemma ends_deinitialized_shutdown (board : nat -> providers) :
  ends_deinitialized
    (_ <- module_call board (fun _ => ESP32Metrics_Deinit) ;; tlog)%harness.
Proof.
  intros h. cbv beta iota zeta delta [tbind module_call tlog].
  pose proof (framed_Deinit (module h)) as F.
  destruct (ESP32Metrics_Deinit (module h)) as [r w]. cbn.
  injection F as _ ->. cbn. apply Deinit_not_initialized.
Qed.

(** Run the first statement of a sequence, given what is known of it. *)
Ltac run_statement L :=
  match type of L with
  | runs_tests _ _ ?a =>
      unfold tbind at 1;
      match goal with
      | |- context [a ?h0] =>
          let E := fresh "E" in
          destruct (L h0) as (?h & E & ? & ? & ? & ? & ?); rewrite E;
          cbv beta iota
      end
  end.

Ltac walk_app_main board v :=
  unfold test_app_main;
  do 5 run_statement runs_tests_tlog;
  run_statement runs_tests_vTaskDelay;
  run_statement (runs_tests_RUN_TEST _ _ (returns_test_init_deinit board));
  run_statement (runs_tests_RUN_TEST _ _ (returns_test_version board v));
  run_statement (runs_tests_RUN_TEST _ _ (returns_test_cpu_usage board));
  run_statement (runs_tests_RUN_TEST _ _ (returns_test_uptime board));
  run_statement (runs_tests_RUN_TEST _ _ (returns_test_wifi_metrics board));
  run_statement (runs_tests_RUN_TEST _ _ (returns_test_temperature board));
  run_statement (runs_tests_RUN_TEST _ _ (returns_test_reboot_reason board));
  run_statement (runs_tests_RUN_TEST _ _ (returns_test_brownout_and_errors board));
  run_statement (runs_tests_RUN_TEST _ _ (returns_test_log_level board));
  run_statement (runs_tests_RUN_TEST _ _ (returns_test_generic_api board));
  run_statement runs_tests_print_test_summary.

Lemma runs_tests_app_main (board : nat -> providers) (v : string) :
  runs_tests 11 10 (test_app_main board v).
Proof.
  intros h0. walk_app_main board v.
  match goal with
  | |- context [tbind _ _ ?h1] =>
      destruct (runs_tests_shutdown board h1) as (hN & EN & ? & ? & ? & ? & ?)
  end.
  exists hN. split; [exact EN |]. repeat split; lia.
Qed.

Lemma ends_deinitialized_app_main (board : nat -> providers) (v : string) :
  ends_deinitialized (test_app_main board v).
Proof.
  intros h0. walk_app_main board v. apply ends_deinitialized_shutdown.
Qed.



(** X20: whatever the providers answer, [app_main] of the test
    application runs to its end, counts ten tests run, counts each of
    them once as passed or as failed, makes exactly eleven calls into
    the module (one per test function, [GetVersion] of the version test
    included, and the final [Deinit]) and leaves the module not
    initialised. *)
Theorem test_app_main_accounting (board : nat -> providers) (v : string) (h : harness) :
  let r := test_app_main board v h in
  fst r = inl tt /\
  tests_run (snd r) = tests_run h + 10 /\
  tests_passed (snd r) + tests_failed (snd r) = tests_passed h + tests_failed h + 10 /\
  calls_made (snd r) = (11 + calls_made h)%nat /\
  is_initialized (s_metrics (module (snd r))) = false.
Proof.
  intros r. subst r.
  pose proof (ends_deinitialized_app_main board v h) as Hd.
  destruct (runs_tests_app_main board v h) as (h' & E & H1 & H2 & H3 & _).
  rewrite E in *. cbn [fst snd] in *. repeat split; assumption.
Qed.

(** X21: the verdict of [test_cpu_usage] is the outcome of its first
    assertion alone, that the first [GetCpuUsage] call returned
    [ESP_OK]: [TEST_ASSERT] returns from the test function on success
    as well, so the range check on the usage and the call with a null
    pointer are never reached; the test leaves the module as that one
    call left it. *)
Theorem test_cpu_usage_first_assertion (board : nat -> providers) (h : harness) :
  let first := ESP32Metrics_GetCpuUsage (board (calls_made h)) Valid (module h) in
  let r := test_cpu_usage board h in
  fst r = inr (fst (fst first) =? ESP_OK) /\
  calls_made (snd r) = S (calls_made h) /\
  s_metrics (module (snd r)) = s_metrics (snd first).
Proof.
  intros first r. subst first r.
  destruct (ESP32Metrics_GetCpuUsage (board (calls_made h)) Valid (module h))
    as [a w] eqn:Ecall.
  assert (E : test_cpu_usage board h
              = (inr (fst a =? ESP_OK),
                 if fst a =? ESP_OK
                 then {| module := w; calls_made := S (calls_made h);
                         tests_run := tests_run h; tests_passed := tests_passed h;
                         tests_failed := tests_failed h |}
                 else {| module := snd (esp_log w); calls_made := S (calls_made h);
                         tests_run := tests_run h; tests_passed := tests_passed h;
                         tests_failed := tests_failed h + 1 |})).
  { unfold test_cpu_usage. unfold tbind at 1, module_call at 1. rewrite Ecall.
    cbv beta iota zeta. rewrite tbind_TEST_ASSERT. reflexivity. }
  rewrite E. cbn [fst snd]. destruct (fst a =? ESP_OK); repeat split.
Qed.

(** The test passes on the wholly idle interval, where the usage it was
    meant to check is negative. *)
Example test_cpu_usage_passes_on_negative_usage :
  fst (test_cpu_usage (fun _ => idle_interval_env) idle_interval_harness) = inr true /\
  tests_failed (snd (test_cpu_usage (fun _ => idle_interval_env) idle_interval_harness))
    = 0.
Proof. split; reflexivity. Qed.

Lemma Init_on_world (env : providers) (w : world) :
  fst (ESP32Metrics_Init env w) = ESP_OK /\
  s_metrics (snd (ESP32Metrics_Init env w))
    = state_after (ESP32Metrics_Init env) (s_metrics w).
Proof.
  rewrite (framed_Init env w). cbn [fst snd s_metrics].
  split; [apply (proj2 (Init_initialized env (s_metrics w))) | reflexivity].
Qed.

(** X22: [test_init_deinit] always passes and consists of one [Init]
    call: the module is left initialised, in the state that single
    [Init] produces, and neither the [Deinit] nor the second [Init] of
    the test body is reached. *)
Theorem test_init_deinit_single_init (board : nat -> providers) (h : harness) :
  let r := test_init_deinit board h in
  fst r = inr true /\
  calls_made (snd r) = S (calls_made h) /\
  tests_failed (snd r) = tests_failed h /\
  s_metrics (module (snd r))
    = state_after (ESP32Metrics_Init (board (calls_made h))) (s_metrics (module h)) /\
  is_initialized (s_metrics (module (snd r))) = true.
Proof.
  intros r. subst r.
  destruct (Init_on_world (board (calls_made h)) (module h)) as [Hr Hs].
  destruct (ESP32Metrics_Init (board (calls_made h)) (module h)) as [a w] eqn:Ecall.
  cbn [fst snd] in Hr, Hs. subst a.
  assert (E : test_init_deinit board h
              = (inr true,
                 {| module := w; calls_made := S (calls_made h);
                    tests_run := tests_run h; tests_passed := tests_passed h;
                    tests_failed := tests_failed h |})).
  { unfold test_init_deinit. unfold tbind at 1, module_call at 1. rewrite Ecall.
    cbv beta iota zeta. rewrite tbind_TEST_ASSERT. reflexivity. }
  rewrite E. cbn [fst snd module calls_made tests_failed]. rewrite Hs.
  repeat split. apply (proj1 (Init_initialized _ _)).
Qed.

(** X23: on an initialised module [test_brownout_and_errors] always
    passes after its first assertion, the one on [GetBrownoutCount]: it
    makes that one call and leaves the record, [error_count] included,
    unchanged; [IncrementErrorCount] is never called. *)
Theorem test_brownout_and_errors_reads_only (board : nat -> providers) (h : harness) :
  is_initialized (s_metrics (module h)) = true ->
  let r := test_brownout_and_errors board h in
  fst r = inr true /\
  calls_made (snd r) = S (calls_made h) /\
  tests_failed (snd r) = tests_failed h /\
  s_metrics (module (snd r)) = s_metrics (module h) /\
  events (module (snd r)) = events (module h) ++ [Entered Op_GetBrownoutCount].
Proof.
  intros Hinit r. subst r.
  assert (Ecall : ESP32Metrics_GetBrownoutCount Valid (module h)
                  = ((ESP_OK, Some (brownout_count (s_metrics (module h)))),
                     {| s_metrics := s_metrics (module h);
                        events := events (module h) ++ [Entered Op_GetBrownoutCount] |})).
  { unfold ESP32Metrics_GetBrownoutCount. unfold_monad. cbn. rewrite Hinit.
    reflexivity. }
  assert (E : test_brownout_and_errors board h
              = (inr true,
                 {| module := {| s_metrics := s_metrics (module h);
                                 events := events (module h)
                                           ++ [Entered Op_GetBrownoutCount] |};
                    calls_made := S (calls_made h);
                    tests_run := tests_run h; tests_passed := tests_passed h;
                    tests_failed := tests_failed h |})).
  { unfold test_brownout_and_errors. unfold tbind at 1, module_call at 1.
    rewrite Ecall. cbv beta iota zeta. rewrite tbind_TEST_ASSERT. reflexivity. }
  rewrite E. repeat split.
Qed.

Lemma test_brownout_and_errors_reads_only_witness :
  let h := {| module := {| s_metrics := booted_state; events := [] |};
              calls_made := 6; tests_run := 7; tests_passed := 7; tests_failed := 0 |} in
  fst (test_brownout_and_errors (fun _ => read_31_5_env) h) = inr true /\
  calls_made (snd (test_brownout_and_errors (fun _ => read_31_5_env) h)) = 7%nat /\
  tests_failed (snd (test_brownout_and_errors (fun _ => read_31_5_env) h)) = 0 /\
  s_metrics (module (snd (test_brownout_and_errors (fun _ => read_31_5_env) h)))
    = booted_state /\
  events (module (snd (test_brownout_and_errors (fun _ => read_31_5_env) h)))
    = [Entered Op_GetBrownoutCount].
Proof.
  intros h.
  apply (test_brownout_and_errors_reads_only (fun _ => read_31_5_env) h).
  reflexivity.
Defined.

(** ** Reset label and cached temperature across sessions *)

(** X24: with [ESP_RST_BROWNOUT = 9] as in ESP-IDF's esp_system.h, a
    reachable initialised state that counts a brownout
    ([brownout_count = 1]) reports the reset label "SDIO reset": the
    table holds "Brownout reset" at index 8, and that label is
    reported exactly for reset code 8, for which no brownout is
    counted. *)
Theorem brownout_label_mismatch (s : ESP32Metrics_t) :
  reachable s ->
  is_initialized s = true ->
  (brownout_count s = 1 -> reason (reboot_reason s) = "SDIO reset"%string) /\
  (reason (reboot_reason s) = "Brownout reset"%string ->
   code (reboot_reason s) = 8 /\ brownout_count s = 0).
Proof.
  intros Hr Hinit.
  pose proof (reachable_consistent s Hr) as [_ Hb Hl _].
  specialize (Hl Hinit). split.
  - intros H1. rewrite Hb in H1.
    destruct (Z.eqb_spec (code (reboot_reason s)) ESP_RST_BROWNOUT) as [E | E];
      [| discriminate H1].
    rewrite Hl, E. reflexivity.
  - intros H. rewrite Hl in H. unfold reset_reason_label in H.
    change (Z.of_nat (List.length s_reset_reason_strings)) with 12 in H.
    destruct (Z.leb_spec 0 (code (reboot_reason s))) as [Hlo | Hlo];
      cbn [andb] in H; [| discriminate H].
    destruct (Z.ltb_spec (code (reboot_reason s)) 12) as [Hhi | Hhi];
      [| discriminate H].
    assert (Hc : code (reboot_reason s) = 0 \/ code (reboot_reason s) = 1 \/
                 code (reboot_reason s) = 2 \/ code (reboot_reason s) = 3 \/
                 code (reboot_reason s) = 4 \/ code (reboot_reason s) = 5 \/
                 code (reboot_reason s) = 6 \/ code (reboot_reason s) = 7 \/
                 code (reboot_reason s) = 8 \/ code (reboot_reason s) = 9 \/
                 code (reboot_reason s) = 10 \/ code (reboot_reason s) = 11) by lia.
    rewrite Hb.
    repeat (destruct Hc as [Hc | Hc];
            [rewrite Hc in H |- *; first [discriminate H | split; reflexivity] |]).
    rewrite Hc in H. discriminate H.
Qed.

Lemma reachable_brownout_booted : reachable brownout_booted.
Proof.
  unfold brownout_booted.
  eapply reachable_step; [apply reachable_initial | apply step_Init].
Qed.

Lemma brownout_label_mismatch_witness :
  brownout_count brownout_booted = 1 /\
  reason (reboot_reason brownout_booted) = "SDIO reset"%string.
Proof.
  split; [reflexivity |].
  apply (brownout_label_mismatch brownout_booted reachable_brownout_booted eq_refl).
  reflexivity.
Defined.

(** X25: when [Init] finds the module not initialised, starts the
    sensor and its seeding read fails without storing a value, the
    cached temperature is left as it was: after [Deinit(); Init()] it is
    still the value of the session before. *)
Theorem Init_failed_seed_keeps_cache (env : providers) (s : ESP32Metrics_t) :
  temp_sensor_config env = ESP_OK ->
  temp_sensor_start env = ESP_OK ->
  snd (temp_sensor_read_celsius env) = None ->
  (is_initialized s = false ->
   last_temperature (state_after (ESP32Metrics_Init env) s) = last_temperature s) /\
  last_temperature (state_after (ESP32Metrics_Deinit ;; ESP32Metrics_Init env) s)
    = last_temperature s /\
  temp_sensor_enabled (state_after (ESP32Metrics_Deinit ;; ESP32Metrics_Init env) s)
    = true.
Proof.
  intros Hc Hs Hread. split; [| split].
  - intros Hinit. destruct (Init_state env s Hinit) as [-> _].
    unfold initialised_from. cbn. rewrite Hc, Hs, Hread. reflexivity.
  - rewrite Deinit_then_Init_state. unfold initialised_from. cbn.
    rewrite Hc, Hs, Hread. cbn.
    rewrite (proj2 (Deinit_state s)).
    destruct (is_initialized s); [destruct (temp_sensor_enabled s) |]; reflexivity.
  - rewrite Deinit_then_Init_state. unfold initialised_from. cbn.
    rewrite Hc, Hs. reflexivity.
Qed.

Lemma Init_failed_seed_keeps_cache_witness :
  last_temperature (state_after (ESP32Metrics_Deinit ;; ESP32Metrics_Init seed_failure_env)
                                booted_state)
    = celsius_25.
Proof.
  destruct (Init_failed_seed_keeps_cache seed_failure_env booted_state
                                         eq_refl eq_refl eq_refl) as (_ & H & _).
  exact H.
Defined.

(** ** Which tests can fail *)

Lemma getter_effect_initialized (s s' : ESP32Metrics_t) :
  getter_effect s s' -> is_initialized s' = is_initialized s.
Proof. intros H. destruct H; reflexivity. Qed.

(** A test function that calls one getter and then asserts that it
    returned [ESP_OK]. *)
Lemma session_test_of_getter {A} (board : nat -> providers)
      (getter : providers -> M (esp_err_t * option A))
      (rest : esp_err_t * option A -> T unit) (sure : bool) :
  (forall env, framed (getter env)) ->
  (forall env s, getter_effect s (state_after (getter env) s)) ->
  (sure = true ->
   forall env s, is_initialized s = true -> fst (result (getter env) s) = ESP_OK) ->
  session_test sure
    (tbind (module_call board getter)
           (fun a => tbind (TEST_ASSERT (fst a =? ESP_OK)) (fun _ => rest a))).
Proof.
  intros Hf He Hok h Hinit. unfold tbind at 1, module_call at 1.
  rewrite (Hf (board (calls_made h)) (module h)). cbv beta iota zeta.
  rewrite tbind_TEST_ASSERT.
  pose proof (getter_effect_initialized _ _
                (He (board (calls_made h)) (s_metrics (module h)))) as Hi.
  rewrite Hinit in Hi.
  destruct (fst (result (getter (board (calls_made h))) (s_metrics (module h))) =? ESP_OK)
    eqn:Ec.
  - do 2 eexists. split; [reflexivity |]. cbn. repeat split; auto. lia.
  - do 2 eexists. split; [reflexivity |]. cbn. repeat split; auto.
    intros Hs. rewrite (Hok Hs _ _ Hinit) in Ec. discriminate Ec.
Qed.

Lemma result_ok_GetUptime env s :
  is_initialized s = true -> fst (result (ESP32Metrics_GetUptime env Valid) s) = ESP_OK.
Proof. intros H. unfold result. rewrite (GetUptime_run env s H). reflexivity. Qed.

Lemma result_ok_GetRebootReason s :
  is_initialized s = true -> fst (result (ESP32Metrics_GetRebootReason Valid) s) = ESP_OK.
Proof.
  intros H. unfold ESP32Metrics_GetRebootReason. unfold_monad. cbn. rewrite H.
  reflexivity.
Qed.

Lemma result_ok_GetBrownoutCount s :
  is_initialized s = true -> fst (result (ESP32Metrics_GetBrownoutCount Valid) s) = ESP_OK.
Proof.
  intros H. unfold ESP32Metrics_GetBrownoutCount. unfold_monad. cbn. rewrite H.
  reflexivity.
Qed.

Lemma result_ok_GetLogLevel env s :
  is_initialized s = true -> fst (result (ESP32Metrics_GetLogLevel env Valid) s) = ESP_OK.
Proof.
  intros H. unfold ESP32Metrics_GetLogLevel. unfold_monad. cbn. rewrite H.
  reflexivity.
Qed.

Lemma effect_of_unchanged (s s' : ESP32Metrics_t) : s' = s -> getter_effect s s'.
Proof. intros ->. apply effect_none. Qed.

Lemma session_test_cpu_usage board : session_test false (test_cpu_usage board).
Proof.
  unfold test_cpu_usage.
  apply (session_test_of_getter board (fun env => ESP32Metrics_GetCpuUsage env Valid)).
  - intros env. apply framed_GetCpuUsage.
  - intros env s. apply GetCpuUsage_effect.
  - discriminate.
Qed.

Lemma session_test_uptime board : session_test true (test_uptime board).
Proof.
  unfold test_uptime.
  apply (session_test_of_getter board (fun env => ESP32Metrics_GetUptime env Valid)).
  - intros env. apply framed_GetUptime.
  - intros env s. apply GetUptime_effect.
  - intros _ env s. apply result_ok_GetUptime.
Qed.

Lemma session_test_wifi_metrics board : session_test false (test_wifi_metrics board).
Proof.
  unfold test_wifi_metrics.
  apply (session_test_of_getter board (fun env => ESP32Metrics_GetWifiStatus env Valid)).
  - intros env. apply framed_GetWifiStatus.
  - intros env s. apply effect_of_unchanged, GetWifiStatus_effect.
  - discriminate.
Qed.

Lemma session_test_reboot_reason board : session_test true (test_reboot_reason board).
Proof.
  unfold test_reboot_reason.
  apply (session_test_of_getter board (fun _ => ESP32Metrics_GetRebootReason Valid)).
  - intros env. apply framed_GetRebootReason.
  - intros env s. apply effect_of_unchanged, GetRebootReason_effect.
  - intros _ env s. apply result_ok_GetRebootReason.
Qed.

Lemma session_test_brownout_and_errors board :
  session_test true (test_brownout_and_errors board).
Proof.
  unfold test_brownout_and_errors.
  apply (session_test_of_getter board (fun _ => ESP32Metrics_GetBrownoutCount Valid)).
  - intros env. apply framed_GetBrownoutCount.
  - intros env s. apply effect_of_unchanged, GetBrownoutCount_effect.
  - intros _ env s. apply result_ok_GetBrownoutCount.
Qed.

Lemma session_test_log_level board : session_test true (test_log_level board).
Proof.
  unfold test_log_level.
  apply (session_test_of_getter board (fun env => ESP32Metrics_GetLogLevel env Valid)).
  - intros env. apply framed_GetLogLevel.
  - intros env s. apply effect_of_unchanged, GetLogLevel_effect.
  - intros _ env s. apply result_ok_GetLogLevel.
Qed.

Lemma session_test_generic_api board : session_test false (test_generic_api board).
Proof.
  unfold test_generic_api.
  apply (session_test_of_getter
           board
           (fun env => ESP32Metrics_GetMetric env 0 (Some (Slot_float F32.zero)))).
  - intros env. apply framed_GetMetric.
  - intros env s. apply GetMetric_effect.
  - discriminate.
Qed.

Lemma session_test_version board v : session_test true (test_version board v).
Proof.
  intros h Hinit. unfold test_version. unfold tbind at 1, module_call at 1.
  rewrite GetVersion_on_world. cbv beta iota zeta.
  rewrite tbind_TEST_ASSERT. do 2 eexists. split; [reflexivity |].
  cbn. repeat split; auto. lia.
Qed.

Lemma session_test_temperature board : session_test false (test_temperature board).
Proof.
  intros h Hinit. unfold test_temperature. unfold tbind at 1, module_call at 1.
  rewrite (framed_GetTemperature (board (calls_made h)) (Some F32.zero) (module h)).
  cbv beta iota zeta.
  pose proof (getter_effect_initialized _ _
                (GetTemperature_effect (board (calls_made h)) (Some F32.zero)
                                       (s_metrics (module h)))) as Hi.
  rewrite Hinit in Hi.
  set (a := result (ESP32Metrics_GetTemperature (board (calls_made h)) (Some F32.zero))
                   (s_metrics (module h))) in *.
  destruct (fst a =? ESP_OK).
  - unfold tbind at 1 2, tlog. cbv beta iota zeta. rewrite tbind_TEST_ASSERT.
    destruct (negb (F32.is_nan (local F32.zero (snd a))));
      do 2 eexists; (split; [reflexivity |]); cbn; repeat split; auto;
      try lia; try discriminate.
  - destruct (fst a =? ESP_ERR_NOT_SUPPORTED).
    + unfold tbind, tlog, treturn. cbv beta iota zeta.
      do 2 eexists. split; [reflexivity |]. cbn. repeat split; auto; try lia;
        try discriminate.
    + rewrite tbind_TEST_ASSERT.
      do 2 eexists. split; [reflexivity |]. cbn. repeat split; auto; try lia;
        try discriminate.
Qed.

Lemma session_statement_tlog : session_statement 0 tlog.
Proof.
  intros h Hinit. eexists. split; [reflexivity |]. cbn. split; [exact Hinit | lia].
Qed.

Lemma session_statement_RUN_TEST (sure : bool) (test : T unit) :
  session_test sure test ->
  session_statement (if sure then 0 else 1) (RUN_TEST test).
Proof.
  intros Ht h Hinit. unfold RUN_TEST.
  cbv beta iota zeta delta [tbind tlog incr_tests_run verdict_of vTaskDelay tret
                            incr_tests_passed].
  match goal with
  | |- context [test ?h0] =>
      destruct (Ht h0 Hinit) as (verdict & h1 & E & Hi & Hf & Hs); rewrite E
  end.
  cbn in Hf.
  destruct verdict; cbv beta iota zeta; eexists; (split; [reflexivity |]); cbn;
    (split; [exact Hi |]).
  - destruct sure; lia.
  - destruct sure; [specialize (Hs eq_refl); discriminate Hs | lia].
Qed.

Lemma session_statement_seq (f1 f2 : Z) (a b : T unit) :
  session_statement f1 a -> session_statement f2 b ->
  session_statement (f1 + f2) (tbind a (fun _ => b)).
Proof.
  intros Ha Hb h Hinit. destruct (Ha h Hinit) as (h1 & E1 & I1 & F1).
  destruct (Hb h1 I1) as (h2 & E2 & I2 & F2).
  exists h2. unfold tbind. rewrite E1, E2. split; [reflexivity |].
  split; [exact I2 | lia].
Qed.

Lemma session_statement_verdict_line :
  session_statement 0
    (h <- (fun h => (inl h, h)) ;; (if tests_failed h =? 0 then tlog else tlog))%harness.
Proof.
  intros h Hinit. cbv beta iota zeta delta [tbind tlog].
  destruct (tests_failed h =? 0); eexists; (split; [reflexivity |]); cbn;
    (split; [exact Hinit | lia]).
Qed.

Lemma session_statement_print_test_summary : session_statement 0 print_test_summary.
Proof.
  unfold print_test_summary.
  do 8 (apply (session_statement_seq 0 0 tlog); [apply session_statement_tlog |]).
  apply session_statement_verdict_line.
Qed.

Lemma RUN_TEST_init_deinit (board : nat -> providers) (h : harness) :
  exists h',
    RUN_TEST (test_init_deinit board) h = (inl tt, h') /\
    is_initialized (s_metrics (module h')) = true /\
    tests_failed h' = tests_failed h.
Proof.
  unfold RUN_TEST.
  cbv beta iota zeta delta [tbind tlog incr_tests_run verdict_of vTaskDelay tret
                            incr_tests_passed].
  match goal with
  | |- context [test_init_deinit board ?h0] => set (h1 := h0)
  end.
  destruct (Init_on_world (board (calls_made h1)) (module h1)) as [Hr Hs].
  destruct (ESP32Metrics_Init (board (calls_made h1)) (module h1)) as [a w] eqn:Ecall.
  cbn [fst snd] in Hr, Hs. subst a.
  assert (E : test_init_deinit board h1
              = (inr true,
                 {| module := w; calls_made := S (calls_made h1);
                    tests_run := tests_run h1; tests_passed := tests_passed h1;
                    tests_failed := tests_failed h1 |})).
  { unfold test_init_deinit. unfold tbind at 1, module_call at 1. rewrite Ecall.
    cbv beta iota zeta. rewrite tbind_TEST_ASSERT. reflexivity. }
  rewrite E. cbv beta iota zeta. eexists. split; [reflexivity |]. cbn.
  rewrite Hs. split; [apply (proj1 (Init_initialized _ _)) | reflexivity].
Qed.

(** Run the first statement of a sequence on an initialised module. *)
Ltac run_session L :=
  match type of L with
  | session_statement _ ?a =>
      unfold tbind at 1;
      match goal with
      | Hi : is_initialized (s_metrics (module ?h0)) = true |- context [a ?h0] =>
          let E := fresh "E" in
          destruct (L h0 Hi) as (?h & E & ? & ?); rewrite E; cbv beta iota
      end
  end.

(** X26: whatever the module's providers answer, [app_main] of the test
    application counts at most four failures and at least six passes:
    once the first test has run [Init], the version, uptime, reboot
    reason, brownout-and-errors and log-level tests pass at their first
    assertion, so only the CPU usage, WiFi, temperature and generic API
    tests can fail. *)
Theorem test_app_main_at_most_four_failures
        (board : nat -> providers) (v : string) (h : harness) :
  let r := test_app_main board v h in
  tests_failed h <= tests_failed (snd r) <= tests_failed h + 4 /\
  tests_passed h + 6 <= tests_passed (snd r).
Proof.
  intros r. subst r.
  destruct (runs_tests_app_main board v h) as (hN & EN & _ & _ & Hsum & _ & _).
  rewrite EN. cbn [snd].
  assert (Hf : tests_failed h <= tests_failed hN <= tests_failed h + 4); [| lia].
  clear Hsum. revert EN. unfold test_app_main.
  do 5 run_statement runs_tests_tlog.
  run_statement runs_tests_vTaskDelay.
  unfold tbind at 1.
  match goal with
  | |- context [RUN_TEST (test_init_deinit board) ?h0] =>
      destruct (RUN_TEST_init_deinit board h0) as (hI & EI & HI & HfI)
  end.
  rewrite EI. cbv beta iota.
  run_session (session_statement_RUN_TEST _ _ (session_test_version board v)).
  run_session (session_statement_RUN_TEST _ _ (session_test_cpu_usage board)).
  run_session (session_statement_RUN_TEST _ _ (session_test_uptime board)).
  run_session (session_statement_RUN_TEST _ _ (session_test_wifi_metrics board)).
  run_session (session_statement_RUN_TEST _ _ (session_test_temperature board)).
  run_session (session_statement_RUN_TEST _ _ (session_test_reboot_reason board)).
  run_session (session_statement_RUN_TEST _ _ (session_test_brownout_and_errors board)).
  run_session (session_statement_RUN_TEST _ _ (session_test_log_level board)).
  run_session (session_statement_RUN_TEST _ _ (session_test_generic_api board)).
  run_session session_statement_print_test_summary.
  match goal with
  | |- context [tbind _ _ ?h1] =>
      destruct (runs_tests_shutdown board h1) as (hS & ES & ? & ? & ? & ? & ?)
  end.
  rewrite ES. intros EN. injection EN as <-. cbn in *. lia.
Qed.

(** Both ends of the range are reached: no failure on a healthy board,
    four on a board without memory, radio and readable sensor. *)
Example test_app_main_healthy :
  let h := snd (test_app_main (fun _ => healthy_env) "1.0.0" harness_initial) in
  tests_run h = 10 /\ tests_passed h = 10 /\ tests_failed h = 0.
Proof. vm_compute. repeat split. Qed.

Example test_app_main_four_failures :
  let h := snd (test_app_main (fun _ => seed_failure_env) "1.0.0" harness_initial) in
  tests_run h = 10 /\ tests_passed h = 6 /\ tests_failed h = 4.
Proof. vm_compute. repeat split. Qed.
